(** * Code Time (swdc-vscode): offline queue, login cache and retry campaigns

    A shallow embedding of the offline-data flush of the extension entry
    point ([sendOfflineData], [isAuthenticated]), of the login-state cache
    and lazy status re-fetch of [DataController.ts] ([getUserStatus],
    [isLoggedOn], [refetchUserStatusLazily], [userStatusFetchHandler]) and of
    the onboarding retry chain ([onboardInit] and its two helpers).

    Conventions.
    - File contents and lines are [string]s (one character per byte; the
      separators and the JSON syntax characters are all ASCII).
    - Asynchronous functions are cut at their [await] points: what runs
      before the suspension and what runs when the awaited value arrives
      are separate transitions of an event loop.
    - Every observable action (file access, HTTP call, item write, timer)
      is appended to an effect log carried by the state. *)

From Stdlib Require Import Bool Arith ZArith List Ascii String Lia.
Import ListNotations.
#[local] Set Warnings "-register-all".
Open Scope string_scope.
Open Scope list_scope.
Open Scope nat_scope.

(* ================================================================== *)
(** * The platform: JSON.parse, ToBoolean, String.prototype.split      *)
(* ================================================================== *)

Module JSON.

(** A parsed JSON value.  String contents are UTF-16 code units (an escape
    [\uXXXX] denotes one unit); a number keeps its exact decimal value
    [mantissa * 10 ^ exponent]; an object keeps its members in the order
    of the text. *)
Inductive value : Type :=
| JNull
| JBool (b : bool)
| JNumber (mantissa exponent : Z)
| JString (units : list N)
| JArray (elements : list value)
| JObject (members : list (list N * value)).

(** Outcome of a parsing function: a result and the unread input, a syntax
    error (the [SyntaxError] that [JSON.parse] throws), or recursion budget
    exhausted. *)
Inductive result (A : Type) : Type :=
| Ok (a : A) (rest : string)
| SyntaxError
| OutOfFuel.
Arguments Ok {A} a rest.
Arguments SyntaxError {A}.
Arguments OutOfFuel {A}.

Definition is_ws (c : ascii) : bool :=
  Ascii.eqb c " " || Ascii.eqb c "009" || Ascii.eqb c "010" || Ascii.eqb c "013".

Fixpoint skip_ws (s : string) : string :=
  match s with
  | String c r => if is_ws c then skip_ws r else s
  | EmptyString => s
  end.

(** [next_is c s]: after optional white space, [s] goes on with the
    character [c]; the result is what follows it. *)
Definition next_is (c : ascii) (s : string) : option string :=
  match skip_ws s with
  | String d r => if Ascii.eqb d c then Some r else None
  | EmptyString => None
  end.

Definition digit_of (c : ascii) : option Z :=
  let n := nat_of_ascii c in
  if (48 <=? n) && (n <=? 57) then Some (Z.of_nat (n - 48)) else None.

Definition hex_of (c : ascii) : option N :=
  let n := nat_of_ascii c in
  if (48 <=? n) && (n <=? 57) then Some (N.of_nat (n - 48))
  else if (65 <=? n) && (n <=? 70) then Some (N.of_nat (n - 55))
  else if (97 <=? n) && (n <=? 102) then Some (N.of_nat (n - 87))
  else None.

(** [digits acc k s]: reads a maximal run of decimal digits; returns the
    accumulated value, the number of digits read and the rest. *)
Fixpoint digits (acc : Z) (k : nat) (s : string) : Z * nat * string :=
  match s with
  | String c r =>
      match digit_of c with
      | Some d => digits (10 * acc + d) (S k) r
      | None => (acc, k, s)
      end
  | EmptyString => (acc, k, s)
  end.

(** Integer part: [0] alone, or a non-zero digit followed by digits. *)
Definition int_part (s : string) : option (Z * string) :=
  match s with
  | String c r =>
      match digit_of c with
      | Some d =>
          if (d =? 0)%Z then Some (0%Z, r)
          else let '(m, _, r') := digits d 0 r in Some (m, r')
      | None => None
      end
  | EmptyString => None
  end.

(** Fraction: a dot followed by at least one digit; the digits extend the
    mantissa and lower the exponent. *)
Definition frac_part (m : Z) (s : string) : option (Z * Z * string) :=
  match s with
  | String c r =>
      if Ascii.eqb c "." then
        let '(m', k, r') := digits m 0 r in
        match k with
        | O => None
        | _ => Some (m', (- Z.of_nat k)%Z, r')
        end
      else Some (m, 0%Z, s)
  | EmptyString => Some (m, 0%Z, s)
  end.

Definition exp_digits (neg : bool) (s : string) : option (Z * string) :=
  let '(e, k, r) := digits 0 0 s in
  match k with
  | O => None
  | _ => Some (if neg then (- e)%Z else e, r)
  end.

Definition exp_part (s : string) : option (Z * string) :=
  match s with
  | String c r =>
      if Ascii.eqb c "e" || Ascii.eqb c "E" then
        match r with
        | String sign r' =>
            if Ascii.eqb sign "+" then exp_digits false r'
            else if Ascii.eqb sign "-" then exp_digits true r'
            else exp_digits false r
        | EmptyString => None
        end
      else Some (0%Z, s)
  | EmptyString => Some (0%Z, s)
  end.

Definition unsigned_number (s : string) : option (Z * Z * string) :=
  match int_part s with
  | None => None
  | Some (m, r1) =>
      match frac_part m r1 with
      | None => None
      | Some (m', e1, r2) =>
          match exp_part r2 with
          | None => None
          | Some (e2, r3) => Some (m', (e1 + e2)%Z, r3)
          end
      end
  end.

Definition number (s : string) : result value :=
  match s with
  | String c r =>
      if Ascii.eqb c "-" then
        match unsigned_number r with
        | Some (m, e, r') => Ok (JNumber (- m) e) r'
        | None => SyntaxError
        end
      else
        match unsigned_number s with
        | Some (m, e, r') => Ok (JNumber m e) r'
        | None => SyntaxError
        end
  | EmptyString => SyntaxError
  end.

(** The code unit a one-letter escape stands for. *)
Definition escape_of (e : ascii) : option N :=
  if Ascii.eqb e "034" then Some 34%N
  else if Ascii.eqb e "\" then Some 92%N
  else if Ascii.eqb e "/" then Some 47%N
  else if Ascii.eqb e "b" then Some 8%N
  else if Ascii.eqb e "f" then Some 12%N
  else if Ascii.eqb e "n" then Some 10%N
  else if Ascii.eqb e "r" then Some 13%N
  else if Ascii.eqb e "t" then Some 9%N
  else None.

(** Body of a string literal, after the opening quote, up to and including
    the closing quote.  Control characters below U+0020 are rejected. *)
Fixpoint string_body (s : string) : option (list N * string) :=
  match s with
  | EmptyString => None
  | String c r =>
      if Ascii.eqb c "034" then Some ([], r)
      else if Ascii.eqb c "\" then
        match r with
        | String e r1 =>
            if Ascii.eqb e "u" then
              match r1 with
              | String h1 (String h2 (String h3 (String h4 r2))) =>
                  match hex_of h1, hex_of h2, hex_of h3, hex_of h4 with
                  | Some a, Some b, Some c', Some d =>
                      match string_body r2 with
                      | Some (us, r') =>
                          Some ((((a * 16 + b) * 16 + c') * 16 + d)%N :: us, r')
                      | None => None
                      end
                  | _, _, _, _ => None
                  end
              | _ => None
              end
            else
              match escape_of e with
              | Some u =>
                  match string_body r1 with
                  | Some (us, r') => Some (u :: us, r')
                  | None => None
                  end
              | None => None
              end
        | EmptyString => None
        end
      else if (nat_of_ascii c <? 32) then None
      else
        match string_body r with
        | Some (us, r') => Some (N_of_ascii c :: us, r')
        | None => None
        end
  end.

(** [literal w s]: [s] starts with the word [w]. *)
Fixpoint literal (w s : string) : option string :=
  match w with
  | EmptyString => Some s
  | String a w' =>
      match s with
      | String b s' => if Ascii.eqb a b then literal w' s' else None
      | EmptyString => None
      end
  end.

(** The recursive-descent core.  [parse_value] skips leading white space and
    reads one value; [parse_elements] reads the elements of an array after
    its opening bracket when the array is not empty; [parse_members] reads
    the members of an object likewise.  Each recursive call spends one unit
    of fuel. *)
Fixpoint parse_value (fuel : nat) (s : string) : result value :=
  match fuel with
  | O => OutOfFuel
  | S f =>
      match skip_ws s with
      | EmptyString => SyntaxError
      | String c r =>
          if Ascii.eqb c "{" then
            match next_is "}" r with
            | Some r' => Ok (JObject []) r'
            | None =>
                match parse_members f r with
                | Ok ms r' => Ok (JObject ms) r'
                | SyntaxError => SyntaxError
                | OutOfFuel => OutOfFuel
                end
            end
          else if Ascii.eqb c "[" then
            match next_is "]" r with
            | Some r' => Ok (JArray []) r'
            | None =>
                match parse_elements f r with
                | Ok vs r' => Ok (JArray vs) r'
                | SyntaxError => SyntaxError
                | OutOfFuel => OutOfFuel
                end
            end
          else if Ascii.eqb c "034" then
            match string_body r with
            | Some (us, r') => Ok (JString us) r'
            | None => SyntaxError
            end
          else if Ascii.eqb c "t" then
            match literal "rue" r with
            | Some r' => Ok (JBool true) r'
            | None => SyntaxError
            end
          else if Ascii.eqb c "f" then
            match literal "alse" r with
            | Some r' => Ok (JBool false) r'
            | None => SyntaxError
            end
          else if Ascii.eqb c "n" then
            match literal "ull" r with
            | Some r' => Ok JNull r'
            | None => SyntaxError
            end
          else number (String c r)
      end
  end

with parse_elements (fuel : nat) (s : string) : result (list value) :=
  match fuel with
  | O => OutOfFuel
  | S f =>
      match parse_value f s with
      | Ok v r =>
          match next_is "," r with
          | Some r' =>
              match parse_elements f r' with
              | Ok vs r'' => Ok (v :: vs) r''
              | SyntaxError => SyntaxError
              | OutOfFuel => OutOfFuel
              end
          | None =>
              match next_is "]" r with
              | Some r' => Ok [v] r'
              | None => SyntaxError
              end
          end
      | SyntaxError => SyntaxError
      | OutOfFuel => OutOfFuel
      end
  end

with parse_members (fuel : nat) (s : string) : result (list (list N * value)) :=
  match fuel with
  | O => OutOfFuel
  | S f =>
      match next_is "034" s with
      | Some r =>
          match string_body r with
          | Some (k, r1) =>
              match next_is ":" r1 with
              | Some r2 =>
                  match parse_value f r2 with
                  | Ok v r3 =>
                      match next_is "," r3 with
                      | Some r4 =>
                          match parse_members f r4 with
                          | Ok ms r5 => Ok ((k, v) :: ms) r5
                          | SyntaxError => SyntaxError
                          | OutOfFuel => OutOfFuel
                          end
                      | None =>
                          match next_is "}" r3 with
                          | Some r4 => Ok [(k, v)] r4
                          | None => SyntaxError
                          end
                      end
                  | SyntaxError => SyntaxError
                  | OutOfFuel => OutOfFuel
                  end
              | None => SyntaxError
              end
          | None => SyntaxError
          end
      | None => SyntaxError
      end
  end.

(** [JSON.parse(text)]: one value surrounded by optional white space.
    [None] stands for the thrown [SyntaxError].  The budget of two units
    per character is never exhausted (see [parse_never_out_of_fuel]). *)
Definition parse (text : string) : option value :=
  match parse_value (S (2 * String.length text)) text with
  | Ok v r =>
      match skip_ws r with
      | EmptyString => Some v
      | _ => None
      end
  | _ => None
  end.

(** [ToBoolean] on the values [JSON.parse] can produce.  A number is falsy
    when the double it denotes is zero, that is when its exact value does
    not exceed [2 ^ -1075] in magnitude (half of the least subnormal). *)
Definition number_nonzero (m e : Z) : bool :=
  if (0 <=? e)%Z then negb (m =? 0)%Z
  else (10 ^ (- e) <? Z.abs m * 2 ^ 1075)%Z.

Definition truthy (v : value) : bool :=
  match v with
  | JNull => false
  | JBool b => b
  | JNumber m e => number_nonzero m e
  | JString us => match us with [] => false | _ => true end
  | JArray _ => true
  | JObject _ => true
  end.

End JSON.


(** [content.split(/\r?\n/)]: the separator is a line feed, together with
    the carriage return right before it when there is one.  The result
    always has at least one element. *)
Definition LF : ascii := "010"%char.
Definition CR : ascii := "013"%char.

Definition starts_with_LF (s : string) : bool :=
  match s with
  | String c _ => Ascii.eqb c LF
  | EmptyString => false
  end.

Fixpoint split_lines (s : string) : list string :=
  match s with
  | EmptyString => [EmptyString]
  | String c r =>
      if Ascii.eqb c LF then EmptyString :: split_lines r
      else if Ascii.eqb c CR && starts_with_LF r then split_lines r
      else
        match split_lines r with
        | l :: ls => String c l :: ls
        | [] => [String c EmptyString]
        end
  end.

(** Truthiness of a string and of a stored item ([null] is [None]). *)
Definition nonempty (s : string) : bool :=
  match s with
  | EmptyString => false
  | String _ _ => true
  end.

Definition item_truthy (i : option string) : bool :=
  match i with
  | Some s => nonempty s
  | None => false
  end.

(** Removal of the [i]-th pending item of a queue of suspended
    computations. *)
Fixpoint take_nth {A : Type} (i : nat) (l : list A) : option (A * list A) :=
  match l, i with
  | [], _ => None
  | x :: l', O => Some (x, l')
  | x :: l', S j =>
      match take_nth j l' with
      | Some (y, rest) => Some (y, x :: rest)
      | None => None
      end
  end.

(* ================================================================== *)
(** * The extension entry point: telemetry switch and offline flush    *)
(* ================================================================== *)

Module Extension.

(** The data store file as [fs] sees it.  [Unreadable] is a path that
    exists but whose read throws. *)
Inductive StoreFile : Type :=
| Absent
| Unreadable
| Present (content : string).

(** An HTTP response, as far as the two predicates of [HttpClient] that
    the code applies to it are concerned. *)
Record Response : Type := mkResponse {
  isResponseOk : bool;
  isUserDeactivated : bool
}.

Inductive Effect : Type :=
| FsExistsSync
| FsReadFileSync
| ConsoleLog (msg : string)
| SoftwarePost (api : string) (payloads : list JSON.value) (jwt : option string)
| SoftwareGet (api : string) (jwt : option string)
| ServerIsAvailable
| DeleteFile
| AppendFile (line : string)
| ShowStatus (msg : string)
| ShowErrorStatus.

(** Module variables, the two stored items the code reads, the data store
    file, the requests awaiting an answer and the effect log.

    [inflight] holds the batches of the [softwarePost] calls whose promise
    is not resolved yet; [probing] counts the response callbacks suspended
    at [await serverIsAvailable()] (they are all the same closure). *)
Record State : Type := mkState {
  TELEMETRY_ON : bool;
  dataStoreFile : StoreFile;
  token : option string;
  jwt : option string;
  inflight : list (list JSON.value);
  probing : nat;
  log : list Effect
}.

Definition emit (e : Effect) (st : State) : State :=
  mkState (TELEMETRY_ON st) (dataStoreFile st) (token st) (jwt st)
          (inflight st) (probing st) (log st ++ [e]).

Definition set_file (f : StoreFile) (st : State) : State :=
  mkState (TELEMETRY_ON st) f (token st) (jwt st)
          (inflight st) (probing st) (log st).

Definition set_telemetry (b : bool) (st : State) : State :=
  mkState b (dataStoreFile st) (token st) (jwt st)
          (inflight st) (probing st) (log st).

Definition set_inflight (l : list (list JSON.value)) (st : State) : State :=
  mkState (TELEMETRY_ON st) (dataStoreFile st) (token st) (jwt st)
          l (probing st) (log st).

Definition set_probing (n : nat) (st : State) : State :=
  mkState (TELEMETRY_ON st) (dataStoreFile st) (token st) (jwt st)
          (inflight st) n (log st).

(** State at activation: [let TELEMETRY_ON = true]. *)
Definition activate (f : StoreFile) (tok j : option string) : State :=
  mkState true f tok j [] 0 [].

Definition handlePauseMetricsEvent (st : State) : State :=
  emit (ShowStatus "Code Time Paused") (set_telemetry false st).

Definition handleEnableMetricsEvent (st : State) : State :=
  emit (ShowStatus "Code Time") (set_telemetry true st).

(** The callback of [.map]: [undefined] ([None]) for an empty item, for an
    item that [JSON.parse] rejects and for one that parses to a falsy
    value. *)
Definition line_payload (item : string) : option JSON.value :=
  if nonempty item then
    match JSON.parse item with
    | Some obj => if JSON.truthy obj then Some obj else None
    | None => None
    end
  else None.

(** [.filter(item => item)]. *)
Fixpoint filter_truthy (l : list (option JSON.value)) : list JSON.value :=
  match l with
  | [] => []
  | Some v :: l' =>
      if JSON.truthy v then v :: filter_truthy l' else filter_truthy l'
  | None :: l' => filter_truthy l'
  end.

Definition payloads_of (content : string) : list JSON.value :=
  filter_truthy (map line_payload (split_lines content)).

Definition softwarePost (api : string) (payloads : list JSON.value)
    (j : option string) (st : State) : State :=
  set_inflight (inflight st ++ [payloads]) (emit (SoftwarePost api payloads j) st).

(** [sendOfflineData], up to the point where [softwarePost] has been
    issued.  An exception of [readFileSync] is swallowed by the
    [try]/[catch]. *)
Definition sendOfflineData (st : State) : State :=
  if negb (TELEMETRY_ON st) then st
  else
    let st1 := emit FsExistsSync st in
    match dataStoreFile st with
    | Absent => st1
    | Unreadable => emit FsReadFileSync st1
    | Present content =>
        let st2 := emit FsReadFileSync st1 in
        if nonempty content then
          let st3 :=
            emit (ConsoleLog ("Code Time: sending batch payloads: " ++ content)%string) st2 in
          softwarePost "/data/batch" (payloads_of content) (jwt st3) st3
        else st2
    end.

(** Modelled from the spec: [deleteFile] of [Util], which is not among the
    sources ("deletes the backing file; no-op if absent"). *)
Definition deleteFile (st : State) : State :=
  emit DeleteFile (set_file Absent st).

(** The [.then] callback, first half: the response to the [i]-th pending
    request arrives; on an accepted or account-deactivated response the
    callback calls [serverIsAvailable()] and suspends. *)
Definition batch_response (i : nat) (resp : Response) (st : State) : option State :=
  match take_nth i (inflight st) with
  | None => None
  | Some (_, rest) =>
      let st1 := set_inflight rest st in
      if isResponseOk resp || isUserDeactivated resp then
        Some (set_probing (S (probing st1)) (emit ServerIsAvailable st1))
      else Some st1
  end.

(** The [.then] callback, second half: the availability check resolves. *)
Definition probe_result (available : bool) (st : State) : option State :=
  match probing st with
  | O => None
  | S n =>
      let st1 := set_probing n st in
      Some (if available then deleteFile st1 else st1)
  end.

(** [isAuthenticated], with the answer to the ping (consulted only when
    the ping is sent). *)
Definition isAuthenticated (ping : Response) (st : State) : bool * State :=
  if negb (TELEMETRY_ON st) then (true, st)
  else if negb (item_truthy (token st)) then (false, emit ShowErrorStatus st)
  else
    let st1 := emit (SoftwareGet "/users/ping" (jwt st)) st in
    if isResponseOk ping then (true, st1)
    else (false, emit (ConsoleLog "Code Time: The user is not logged in") st1).

(** Modelled from the spec: the append operation of the record store, which
    is not among the sources ("serializes record as one line of JSON and
    appends to the backing file; creates the file if absent; never fails
    the caller on I/O error").  [line] is the serialized record, [eol] the
    line terminator of the platform. *)
Definition storePayload (line eol : string) (st : State) : State :=
  let written := (line ++ eol)%string in
  emit (AppendFile written)
    (match dataStoreFile st with
     | Absent => set_file (Present written) st
     | Present content => set_file (Present (content ++ written)%string) st
     | Unreadable => st
     end).

(** The event loop. *)
Inductive Event : Type :=
| CallSendOfflineData
| BatchResponse (i : nat) (resp : Response)
| ProbeResult (available : bool)
| StorePayload (line eol : string)
| PauseMetrics
| EnableMetrics.

Definition step (e : Event) (st : State) : option State :=
  match e with
  | CallSendOfflineData => Some (sendOfflineData st)
  | BatchResponse i resp => batch_response i resp st
  | ProbeResult b => probe_result b st
  | StorePayload line eol => Some (storePayload line eol st)
  | PauseMetrics => Some (handlePauseMetricsEvent st)
  | EnableMetrics => Some (handleEnableMetricsEvent st)
  end.

Fixpoint run (es : list Event) (st : State) : option State :=
  match es with
  | [] => Some st
  | e :: es' =>
      match step e st with
      | Some st' => run es' st'
      | None => None
      end
  end.

(** The batches submitted so far, oldest first. *)
Fixpoint submitted (l : list Effect) : list (list JSON.value) :=
  match l with
  | [] => []
  | SoftwarePost _ payloads _ :: l' => payloads :: submitted l'
  | _ :: l' => submitted l'
  end.

(** The network calls among the effects. *)
Definition is_network (e : Effect) : bool :=
  match e with
  | SoftwarePost _ _ _ | SoftwareGet _ _ | ServerIsAvailable => true
  | _ => false
  end.

Definition network_calls (l : list Effect) : list Effect := filter is_network l.

End Extension.

(* ================================================================== *)
(** * DataController: cached login state and lazy status re-fetch      *)
(* ================================================================== *)

Module DataController.

(** [LoggedInState] of [model/models]: the code only touches [loggedIn]. *)
Record LoggedInState : Type := mkLoggedInState { loggedIn : bool }.

(** [resp.data] of [GET /users/plugin/state]. *)
Record PluginState : Type := mkPluginState {
  state : option string;
  email : option string;
  pluginJwt : option string
}.

Record Response : Type := mkResponse {
  isResponseOk : bool;
  data : option PluginState
}.

Inductive Effect : Type :=
| ServerIsAvailable
| SoftwareGet (api : string) (jwt : option string)
| LogIt (msg : string)
| SetItem (key : string) (value : option string)
| SendHeartbeat (reason : string)
| InitializePreferences
| SetTimeout (handle : nat) (millis : Z)
| GetSessionSummaryStatus
| ExecuteCommand (command : string)
| ShowInformationMessage (msg : string)
| LaunchWebUrl.

(** Module variables ([connectState], [lastLoggedInCheckTime],
    [userFetchTimeout]), the stored items the code reads and writes, and
    the part of the runtime the code drives: the pending [setTimeout]
    callbacks (handle and captured [tryCountUntilFoundUser]), the
    activations of [userStatusFetchHandler] suspended at an [await] (with
    their [tryCountUntilFoundUser]), and the effect log. *)
Record State : Type := mkState {
  connectState : option LoggedInState;
  lastLoggedInCheckTime : option Z;
  userFetchTimeout : option nat;
  item_jwt : option string;
  item_name : option string;
  item_check_status : bool;
  timers : list (nat * nat);
  next_handle : nat;
  awaiting : list nat;
  log : list Effect
}.

Definition emit (e : Effect) (st : State) : State :=
  mkState (connectState st) (lastLoggedInCheckTime st) (userFetchTimeout st)
          (item_jwt st) (item_name st) (item_check_status st)
          (timers st) (next_handle st) (awaiting st) (log st ++ [e]).

Definition set_connectState (c : option LoggedInState) (st : State) : State :=
  mkState c (lastLoggedInCheckTime st) (userFetchTimeout st)
          (item_jwt st) (item_name st) (item_check_status st)
          (timers st) (next_handle st) (awaiting st) (log st).

Definition set_lastLoggedInCheckTime (t : option Z) (st : State) : State :=
  mkState (connectState st) t (userFetchTimeout st)
          (item_jwt st) (item_name st) (item_check_status st)
          (timers st) (next_handle st) (awaiting st) (log st).

Definition set_userFetchTimeout (h : option nat) (st : State) : State :=
  mkState (connectState st) (lastLoggedInCheckTime st) h
          (item_jwt st) (item_name st) (item_check_status st)
          (timers st) (next_handle st) (awaiting st) (log st).

Definition set_timers (l : list (nat * nat)) (n : nat) (st : State) : State :=
  mkState (connectState st) (lastLoggedInCheckTime st) (userFetchTimeout st)
          (item_jwt st) (item_name st) (item_check_status st)
          l n (awaiting st) (log st).

Definition set_awaiting (l : list nat) (st : State) : State :=
  mkState (connectState st) (lastLoggedInCheckTime st) (userFetchTimeout st)
          (item_jwt st) (item_name st) (item_check_status st)
          (timers st) (next_handle st) l (log st).

(** [setItem(key, value)] for the three keys in use ([null] is [None]; the
    flag [check_status] is either [true] or [null]). *)
Definition setItem_jwt (v : option string) (st : State) : State :=
  emit (SetItem "jwt" v)
    (mkState (connectState st) (lastLoggedInCheckTime st) (userFetchTimeout st)
             v (item_name st) (item_check_status st)
             (timers st) (next_handle st) (awaiting st) (log st)).

Definition setItem_name (v : option string) (st : State) : State :=
  emit (SetItem "name" v)
    (mkState (connectState st) (lastLoggedInCheckTime st) (userFetchTimeout st)
             (item_jwt st) v (item_check_status st)
             (timers st) (next_handle st) (awaiting st) (log st)).

Definition setItem_check_status (v : bool) (st : State) : State :=
  emit (SetItem "check_status" (if v then Some "true" else None))
    (mkState (connectState st) (lastLoggedInCheckTime st) (userFetchTimeout st)
             (item_jwt st) (item_name st) v
             (timers st) (next_handle st) (awaiting st) (log st)).

(** The module as loaded. *)
Definition loaded (j n : option string) (cs : bool) : State :=
  mkState None None None j n cs [] 1 [] [].

Definition option_string_eqb (a b : option string) : bool :=
  match a, b with
  | Some x, Some y => String.eqb x y
  | None, None => true
  | _, _ => false
  end.

(** Truthiness of the time stamp: [null] and [0] are falsy. *)
Definition stamp (t : option Z) : option Z :=
  match t with
  | Some z => if (z =? 0)%Z then None else Some z
  | None => None
  end.

(** [isLoggedOn(serverIsOnline)], with the answer to the state request
    (consulted only when the request is sent). *)
Definition isLoggedOn (serverIsOnline : bool) (resp : Response) (st : State)
    : (bool * string) * State :=
  let jwt := item_jwt st in
  if serverIsOnline && item_truthy jwt then
    let st1 := emit (SoftwareGet "/users/plugin/state" jwt) st in
    match (if isResponseOk resp then data resp else None) with
    | Some d =>
        let state' :=
          match state d with
          | Some s => if nonempty s then s else "UNKNOWN"
          | None => "UNKNOWN"
          end in
        if String.eqb state' "OK" then
          let st2 :=
            if option_string_eqb (item_name st1) (email d) then st1
            else setItem_name (email d) st1 in
          let st3 :=
            if item_truthy (pluginJwt d) && negb (option_string_eqb (pluginJwt d) jwt)
            then setItem_jwt (pluginJwt d) st2 else st2 in
          let st4 :=
            if item_check_status st3 then setItem_check_status false st3 else st3 in
          ((true, state'), st4)
        else ((false, state'), st1)
    | None => ((false, "UNKNOWN"), st1)
    end
  else ((false, "UNKNOWN"), st).

Definition clearCachedLoggedInState (st : State) : State :=
  set_connectState None st.

Definition bool_text (b : bool) : string := if b then "true" else "false".

(** The part of [getUserStatus] after the cache block: the remote check and
    the replacement of the cached state. *)
Definition checkLogin (serverIsOnline : bool) (resp : Response) (st : State)
    : LoggedInState * State :=
  let '(loggedIn', st1) :=
    if serverIsOnline then
      let '((lo, _), s) := isLoggedOn serverIsOnline resp st in (lo, s)
    else (false, st) in
  let st2 :=
    emit (LogIt ("Checking login status, logged in: " ++ bool_text loggedIn')%string) st1 in
  let st3 := set_connectState (Some (mkLoggedInState loggedIn')) st2 in
  let st4 :=
    if negb loggedIn' && item_truthy (item_name st3) then setItem_name None st3
    else st3 in
  let st5 :=
    if serverIsOnline && loggedIn' then
      emit InitializePreferences (emit (SendHeartbeat "STATE_CHANGE:LOGGED_IN:true") st4)
    else st4 in
  (mkLoggedInState loggedIn', st5).

(** [getUserStatus(serverIsOnline, ignoreCache)], taken as one transition:
    [now] is the reading of [moment().unix()], [resp] the answer to the
    state request. *)
Definition getUserStatus (now : Z) (serverIsOnline ignoreCache : bool)
    (resp : Response) (st : State) : LoggedInState * State :=
  match (if ignoreCache then None else connectState st) with
  | Some _ =>
      let st1 :=
        match stamp (lastLoggedInCheckTime st) with
        | Some t =>
            if (now - t >? 60 * 5)%Z then
              set_connectState None (set_lastLoggedInCheckTime None st)
            else st
        | None => set_lastLoggedInCheckTime (Some now) st
        end in
      match connectState st1 with
      | Some cs => (cs, st1)
      | None => checkLogin serverIsOnline resp st1
      end
  | None => checkLogin serverIsOnline resp st
  end.

(** [refetchUserStatusLazily(tryCountUntilFoundUser)]. *)
Definition refetchUserStatusLazily (tryCountUntilFoundUser : nat) (st : State) : State :=
  match userFetchTimeout st with
  | Some _ => st
  | None =>
      let h := next_handle st in
      set_userFetchTimeout (Some h)
        (set_timers (timers st ++ [(h, tryCountUntilFoundUser)]) (S h)
           (emit (SetTimeout h 10000) st))
  end.

Fixpoint take_timer (h : nat) (l : list (nat * nat)) : option (nat * list (nat * nat)) :=
  match l with
  | [] => None
  | (h', n) :: l' =>
      if Nat.eqb h h' then Some (n, l')
      else
        match take_timer h l' with
        | Some (m, rest) => Some (m, (h', n) :: rest)
        | None => None
        end
  end.

(** The timer callback: resets [userFetchTimeout] and enters
    [userStatusFetchHandler], which suspends at [await serverIsAvailable()]. *)
Definition timer_fire (h : nat) (st : State) : option State :=
  match take_timer h (timers st) with
  | Some (n, rest) =>
      let st1 := set_timers rest (next_handle st) st in
      let st2 := set_userFetchTimeout None st1 in
      Some (set_awaiting (awaiting st2 ++ [n]) (emit ServerIsAvailable st2))
  | None => None
  end.

(** [userStatusFetchHandler] from the call of [getUserStatus] on. *)
Definition userStatusFetchHandler_resume (tryCountUntilFoundUser : nat) (now : Z)
    (serverIsOnline : bool) (resp : Response) (st : State) : State :=
  let '(userStatus, st1) := getUserStatus now serverIsOnline true resp st in
  if negb (loggedIn userStatus) then
    match tryCountUntilFoundUser with
    | S n => refetchUserStatusLazily n st1
    | O => setItem_check_status true st1
    end
  else
    emit (ShowInformationMessage "Successfully logged on to Code Time")
      (emit (ExecuteCommand "codetime.refreshKpmTree")
         (emit GetSessionSummaryStatus (clearCachedLoggedInState st1))).

Definition handler_resume (i : nat) (now : Z) (serverIsOnline : bool)
    (resp : Response) (st : State) : option State :=
  match take_nth i (awaiting st) with
  | Some (n, rest) =>
      Some (userStatusFetchHandler_resume n now serverIsOnline resp
              (set_awaiting rest st))
  | None => None
  end.

(** [handleKpmClickedEvent], taken as one transition. *)
Definition handleKpmClickedEvent (now : Z) (serverIsOnline : bool)
    (resp : Response) (st : State) : State :=
  let '(userStatus, st1) :=
    getUserStatus now serverIsOnline false resp (emit ServerIsAvailable st) in
  let st2 :=
    if negb (loggedIn userStatus) then refetchUserStatusLazily 40 st1 else st1 in
  emit LaunchWebUrl st2.

Inductive Event : Type :=
| CallGetUserStatus (now : Z) (serverIsOnline ignoreCache : bool) (resp : Response)
| CallClearCachedLoggedInState
| CallRefetchUserStatusLazily (tryCountUntilFoundUser : nat)
| KpmClicked (now : Z) (serverIsOnline : bool) (resp : Response)
| TimerFire (handle : nat)
| HandlerResume (i : nat) (now : Z) (serverIsOnline : bool) (resp : Response).

Definition step (e : Event) (st : State) : option State :=
  match e with
  | CallGetUserStatus now online ignoreCache resp =>
      Some (snd (getUserStatus now online ignoreCache resp st))
  | CallClearCachedLoggedInState => Some (clearCachedLoggedInState st)
  | CallRefetchUserStatusLazily n => Some (refetchUserStatusLazily n st)
  | KpmClicked now online resp => Some (handleKpmClickedEvent now online resp st)
  | TimerFire h => timer_fire h st
  | HandlerResume i now online resp => handler_resume i now online resp st
  end.

Fixpoint run (es : list Event) (st : State) : option State :=
  match es with
  | [] => Some st
  | e :: es' =>
      match step e st with
      | Some st' => run es' st'
      | None => None
      end
  end.

(** Observations on the effect log. *)
Definition is_state_request (e : Effect) : bool :=
  match e with
  | SoftwareGet api _ => String.eqb api "/users/plugin/state"
  | _ => false
  end.

Definition is_login_check (e : Effect) : bool :=
  match e with
  | LogIt _ => true
  | _ => false
  end.

(** The fallback of the status campaign: [setItem("check_status", true)]. *)
Definition is_fallback (e : Effect) : bool :=
  match e with
  | SetItem key value =>
      String.eqb key "check_status" &&
      match value with Some _ => true | None => false end
  | _ => false
  end.

Definition count (p : Effect -> bool) (l : list Effect) : nat :=
  List.length (filter p l).

(** Network checks issued since the log had [l0]. *)
Definition state_requests (st : State) : nat := count is_state_request (log st).

(** A campaign of [userStatusFetchHandler] left to itself: whenever a timer
    is pending it fires and the handler it starts runs to the end with the
    next environment (clock, availability, answer).  The campaign stops
    when no timer is pending. *)
Record Env : Type := mkEnv {
  env_now : Z;
  env_online : bool;
  env_resp : Response
}.

Fixpoint campaign (envs : list Env) (st : State) : State :=
  match envs with
  | [] => st
  | e :: envs' =>
      match userFetchTimeout st with
      | None => st
      | Some h =>
          match timer_fire h st with
          | None => st
          | Some st1 =>
              match handler_resume (List.length (awaiting st1) - 1)
                      (env_now e) (env_online e) (env_resp e) st1 with
              | None => st1
              | Some st2 => campaign envs' st2
              end
          end
      end
  end.

(** Two states that differ at most in the stored items and the log. *)
Definition same_control (st st' : State) : Prop :=
  userFetchTimeout st' = userFetchTimeout st /\
  timers st' = timers st /\
  next_handle st' = next_handle st /\
  awaiting st' = awaiting st.

(** The module variable [userFetchTimeout] and the timer queue agree: the
    queue holds the timer the variable names, or nothing. *)
Definition timer_inv (st : State) : Prop :=
  match userFetchTimeout st with
  | Some h => exists n, timers st = [(h, n)]
  | None => timers st = []
  end.

Definition checks (st : State) : nat := count is_login_check (log st).
Definition fallbacks (st : State) : nat := count is_fallback (log st).

(** A campaign waiting for its next attempt, with [k] retries left after
    it; and no campaign at all. *)
Definition armed (st : State) (k : nat) : Prop :=
  exists h, userFetchTimeout st = Some h /\ timers st = [(h, k)] /\ awaiting st = [].

Definition idle (st : State) : Prop :=
  userFetchTimeout st = None /\ timers st = [] /\ awaiting st = [].

End DataController.

(* ================================================================== *)
(** * Onboarding: waiting for an identity token                        *)
(* ================================================================== *)

Module Onboard.

(** A stored jwt, as far as the code inspects it: the [id] of its decoded
    payload. *)
Record Jwt : Type := mkJwt { decoded_id : Z }.

Inductive Effect : Type :=
| ServerIsAvailable
| SetItemJwtNull
| ShowOfflinePrompt
| SetTimeout (millis : Z)
| CreateAnonymousUser
| Callback (anonCreated : bool).

Record State : Type := mkState {
  retry_counter : nat;
  jwt : option Jwt;
  log : list Effect
}.

Definition one_min_millis : Z := 1000 * 60.

Definition emit (e : Effect) (st : State) : State :=
  mkState (retry_counter st) (jwt st) (log st ++ [e]).

Definition set_jwt (j : option Jwt) (st : State) : State :=
  mkState (retry_counter st) j (log st).

Definition set_retry_counter (n : nat) (st : State) : State :=
  mkState n (jwt st) (log st).

(** What one invocation of [onboardInit] meets: whether the window is
    focused, the answer of [serverIsAvailable()] and the token
    [createAnonymousUser()] returns (each consulted only when asked). *)
Record Env : Type := mkEnv {
  focused : bool;
  serverIsOnline : bool;
  anonymousJwt : option Jwt
}.

(** How an invocation ends: with the callback, or with a timer that calls
    [onboardInit] again (and bumps [retry_counter] first when [bump]). *)
Inductive Outcome : Type :=
| Called (anonCreated : bool)
| Retry (bump : bool).

(** [createAnonymousUser] of [AccountManager] is not among the sources: its
    result is the input [anonymousJwt]; a token it returns is the stored
    jwt from then on. *)
Definition createAnonymousUser (e : Env) (st : State) : option Jwt * State :=
  let st1 := emit CreateAnonymousUser st in
  match anonymousJwt e with
  | Some j => (Some j, set_jwt (Some j) st1)
  | None => (None, st1)
  end.

Definition primaryWindowOnboarding (e : Env) (st : State) : Outcome * State :=
  let st0 := emit ServerIsAvailable st in
  let '(created, st1) :=
    if serverIsOnline e then createAnonymousUser e st0 else (None, st0) in
  match created with
  | Some _ => (Called true, emit (Callback true) st1)
  | None =>
      (* [serverIsOnline] is false here, by the probe or by assignment *)
      let st2 :=
        if Nat.eqb (retry_counter st1) 0 then emit ShowOfflinePrompt st1 else st1 in
      (Retry true, emit (SetTimeout (one_min_millis * 2)) st2)
  end.

Definition secondaryWindowOnboarding (e : Env) (st : State) : Outcome * State :=
  let st0 := emit ServerIsAvailable st in
  if negb (serverIsOnline e) then
    (Retry false, emit (SetTimeout one_min_millis) st0)
  else if retry_counter st0 <? 5 then
    let st1 :=
      if serverIsOnline e then set_retry_counter (S (retry_counter st0)) st0
      else st0 in
    (Retry false, emit (SetTimeout (1000 * 15)) st1)
  else
    let '(_, st1) := createAnonymousUser e st0 in
    (Called true, emit (Callback true) st1).

Definition onboardInit (e : Env) (st : State) : Outcome * State :=
  let st1 :=
    match jwt st with
    | Some j =>
        if focused e && (decoded_id j >? 9999999999)%Z
        then emit SetItemJwtNull (set_jwt None st)
        else st
    | None => st
    end in
  match jwt st1 with
  | Some _ => (Called false, emit (Callback false) st1)
  | None =>
      if focused e then primaryWindowOnboarding e st1
      else secondaryWindowOnboarding e st1
  end.

(** The chain of invocations: each timer that fires calls [onboardInit]
    again, with the next environment.  The result tells whether the chain
    has ended with the callback and how many invocations were made. *)
Fixpoint chain (envs : list Env) (st : State) : bool * nat * State :=
  match envs with
  | [] => (false, 0, st)
  | e :: envs' =>
      match onboardInit e st with
      | (Called _, st1) => (true, 1, st1)
      | (Retry bump, st1) =>
          let st2 :=
            if bump then set_retry_counter (S (retry_counter st1)) st1 else st1 in
          let '(ended, k, st3) := chain envs' st2 in
          (ended, S k, st3)
      end
  end.

Definition is_create (e : Effect) : bool :=
  match e with
  | CreateAnonymousUser => true
  | _ => false
  end.

Definition is_callback (e : Effect) : bool :=
  match e with
  | Callback _ => true
  | _ => false
  end.

Definition count (p : Effect -> bool) (l : list Effect) : nat :=
  List.length (filter p l).

Definition creates (st : State) : nat := count is_create (log st).
Definition callbacks (st : State) : nat := count is_callback (log st).

(** A fresh module in a session without jwt, and two environments of a
    window that never has the focus. *)
Definition start : State := mkState 0 None [].
Definition offline_window : Env := mkEnv false false None.
Definition online_window : Env := mkEnv false true (Some (mkJwt 1)).

End Onboard.

(* ================================================================== *)
(** * Lines: joining and splitting                                     *)
(* ================================================================== *)

Fixpoint no_LF (s : string) : bool :=
  match s with
  | EmptyString => true
  | String c r => negb (Ascii.eqb c LF) && no_LF r
  end.

Fixpoint ends_with_CR (s : string) : bool :=
  match s with
  | EmptyString => false
  | String c EmptyString => Ascii.eqb c CR
  | String _ r => ends_with_CR r
  end.

(** A line as a writer produces it: no line feed inside, no carriage
    return at its end. *)
Definition is_line (s : string) : bool := no_LF s && negb (ends_with_CR s).

(** The two line terminators in use. *)
Definition eol_unix : string := String LF EmptyString.
Definition eol_windows : string := String CR (String LF EmptyString).

Definition is_eol (eol : string) : Prop := eol = eol_unix \/ eol = eol_windows.

(** Lines with a terminator between them. *)
Fixpoint join_lines (eol : string) (ls : list string) : string :=
  match ls with
  | [] => EmptyString
  | [l] => l
  | l :: ls' => (l ++ eol ++ join_lines eol ls')%string
  end.

(** Lines with a terminator after each of them. *)
Fixpoint terminated_lines (eol : string) (ls : list string) : string :=
  match ls with
  | [] => EmptyString
  | l :: ls' => (l ++ eol ++ terminated_lines eol ls')%string
  end.

(** What a line of the store contributes to a batch: the value it parses
    to, when there is one and it is truthy (an object always is). *)
Definition parsed_record (l : string) : list JSON.value :=
  match JSON.parse l with
  | Some v => if JSON.truthy v then [v] else []
  | None => []
  end.

(** Code units of an ASCII text. *)
Fixpoint units (s : string) : list N :=
  match s with
  | EmptyString => []
  | String c r => N_of_ascii c :: units r
  end.

(** The lines of the running example: [{"a":1}], [not-json], [{"b":2}]. *)
Definition dquote : ascii := "034"%char.

Definition line_a : string :=
  String "{" (String dquote (String "a" (String dquote ":1}"))).

Definition line_b : string :=
  String "{" (String dquote (String "b" (String dquote ":2}"))).

Definition line_bad : string := "not-json".

(** The store of the running example: three lines, the middle one
    malformed. *)
Definition example_lines : list string :=
  [line_a; line_bad; line_b].

Definition example_batch : list JSON.value :=
  [JSON.JObject [(units "a", JSON.JNumber 1 0)];
   JSON.JObject [(units "b", JSON.JNumber 2 0)]].

(** What can happen while the backend is unreachable: records are
    appended, flushes are tried, their submit calls are answered (or fail),
    and every availability check says no. *)
Inductive OfflineEvent (record : Type) : Type :=
| Appended (r : record)
| FlushTried
| SubmitAnswered (i : nat) (resp : Extension.Response)
| RecheckFailed.
Arguments Appended {record} r.
Arguments FlushTried {record}.
Arguments SubmitAnswered {record} i resp.
Arguments RecheckFailed {record}.

Definition offline_event {record : Type} (stringify : record -> string)
    (eol : string) (e : OfflineEvent record) : Extension.Event :=
  match e with
  | Appended r => Extension.StorePayload (stringify r) eol
  | FlushTried => Extension.CallSendOfflineData
  | SubmitAnswered i resp => Extension.BatchResponse i resp
  | RecheckFailed => Extension.ProbeResult false
  end.

Fixpoint appended_records {record : Type} (es : list (OfflineEvent record))
    : list record :=
  match es with
  | [] => []
  | Appended r :: es' => r :: appended_records es'
  | _ :: es' => appended_records es'
  end.

(** The store file that holds the given lines and nothing else. *)
Definition store_of (eol : string) (ls : list string) : Extension.StoreFile :=
  match ls with
  | [] => Extension.Absent
  | _ => Extension.Present (terminated_lines eol ls)
  end.

(** Two records and their serialization, for examples. *)
Definition example_stringify (b : bool) : string :=
  if b then line_a else line_b.

Definition example_value (b : bool) : JSON.value :=
  if b then JSON.JObject [(units "a", JSON.JNumber 1 0)]
  else JSON.JObject [(units "b", JSON.JNumber 2 0)].

(** An answer of the backend that reports a logged-in user. *)
Definition logged_in_answer : DataController.Response :=
  DataController.mkResponse true
    (Some (DataController.mkPluginState (Some "OK") (Some "dev@example.com") None)).

(** An environment in which the status check cannot succeed: the server is
    not online, or the answer does not carry the state [OK]. *)
Definition answer_is_ok (resp : DataController.Response) : bool :=
  match (if DataController.isResponseOk resp then DataController.data resp else None) with
  | Some d =>
      match DataController.state d with
      | Some s => String.eqb (if nonempty s then s else "UNKNOWN") "OK"
      | None => false
      end
  | None => false
  end.

Definition env_fails (e : DataController.Env) : bool :=
  negb (DataController.env_online e) || negb (answer_is_ok (DataController.env_resp e)).

Definition offline_env : DataController.Env :=
  DataController.mkEnv 1000 false logged_in_answer.

(* ================================================================== *)
(** * DataController, continued: cache accessor, user and preferences  *)
(* ================================================================== *)

Module DataControllerRest.
Import DataController.

(** [getCachedLoggedInState()]: fills the cache when it is empty (probe,
    then [getUserStatus] with [ignoreCache]) and returns [connectState]. *)
Definition getCachedLoggedInState (now : Z) (serverIsOnline : bool)
    (resp : Response) (st : State) : option LoggedInState * State :=
  match connectState st with
  | Some _ => (connectState st, st)
  | None =>
      let st1 := emit ServerIsAvailable st in
      let st2 := snd (getUserStatus now serverIsOnline true resp st1) in
      (connectState st2, st2)
  end.

(** [user.preferences]: a field that is [null] or [undefined] is [None]. *)
Record Prefs : Type := mkPrefs {
  sessionThresholdInSec : option Z;
  showGit : option bool;
  showRank : option bool
}.

(** [resp.data.data] of [GET /users/me]; [user_id] is [parseInt(user.id, 10)]. *)
Record User : Type := mkUser {
  registered : Z;
  user_email : option string;
  user_id : Z;
  preferences : option Prefs
}.

Record UserResponse : Type := mkUserResponse {
  user_ok : bool;
  user_data : option User
}.

(** [getUser(serverIsOnline, jwt)], with the answer to the request. *)
Definition getUser (serverIsOnline : bool) (jwt : option string)
    (resp : UserResponse) (st : State) : option User * State :=
  if item_truthy jwt && serverIsOnline then
    let st1 := emit (SoftwareGet "/users/me" jwt) st in
    match (if user_ok resp then user_data resp else None) with
    | Some user =>
        if (registered user =? 1)%Z then
          (Some user,
           set_connectState (Some (mkLoggedInState true))
             (setItem_name (user_email user) st1))
        else (Some user, st1)
    | None => (None, st1)
    end
  else (None, st).

(** What the preference functions touch besides the controller state: the
    editor setting [showGitMetrics], the stored item
    [sessionThresholdInSec], and their own effects. *)
Inductive PrefEffect : Type :=
| PutPreferences (userId : Z) (prefs : Prefs)
| UpdateShowGitMetrics (value : bool)
| SetSessionThreshold (seconds : Z)
| GetUserById (userId : Z)
| LogPreferencesUpdated.

Record PState : Type := mkPState {
  base : State;
  showGitMetrics : option bool;
  item_sessionThresholdInSec : option Z;
  plog : list PrefEffect
}.

Definition pemit (e : PrefEffect) (ps : PState) : PState :=
  mkPState (base ps) (showGitMetrics ps) (item_sessionThresholdInSec ps)
           (plog ps ++ [e]).

Definition set_base (b : State) (ps : PState) : PState :=
  mkPState b (showGitMetrics ps) (item_sessionThresholdInSec ps) (plog ps).

(** [sendPreferencesUpdate(userId, userPrefs)]: the local setting is
    written into the preferences, which are then put to the server. *)
Definition sendPreferencesUpdate (userId : Z) (userPrefs : Prefs)
    (putOk : bool) (ps : PState) : PState :=
  let sent :=
    mkPrefs (sessionThresholdInSec userPrefs) (showGitMetrics ps)
            (showRank userPrefs) in
  let ps1 := pemit (PutPreferences userId sent) ps in
  if putOk then pemit LogPreferencesUpdated ps1 else ps1.

(** [a || b] on numbers: [undefined] and [0] are falsy. *)
Definition number_or (a : option Z) (b : Z) : Z :=
  match a with
  | Some z => if (z =? 0)%Z then b else z
  | None => b
  end.

(** [initializePreferences(serverIsOnline)];
    [DEFAULT_SESSION_THRESHOLD_SECONDS] of [Constants] is a parameter. *)
Definition initializePreferences (DEFAULT_SESSION_THRESHOLD_SECONDS : Z)
    (serverIsOnline : bool) (resp : UserResponse) (putOk : bool)
    (ps : PState) : PState :=
  let jwt := item_jwt (base ps) in
  let '(threshold, ps') :=
    if item_truthy jwt && serverIsOnline then
      let '(user, b1) := getUser serverIsOnline jwt resp (base ps) in
      let ps1 := set_base b1 ps in
      match user with
      | Some u =>
          match preferences u with
          | Some prefs =>
              let t := number_or (sessionThresholdInSec prefs)
                         DEFAULT_SESSION_THRESHOLD_SECONDS in
              match showGit prefs, showRank prefs with
              | Some g, Some _ =>
                  (t, pemit (UpdateShowGitMetrics g)
                        (mkPState (base ps1) (Some g)
                           (item_sessionThresholdInSec ps1) (plog ps1)))
              | _, _ => (t, sendPreferencesUpdate (user_id u) prefs putOk ps1)
              end
          | None => (DEFAULT_SESSION_THRESHOLD_SECONDS, ps1)
          end
      | None => (DEFAULT_SESSION_THRESHOLD_SECONDS, ps1)
      end
    else (DEFAULT_SESSION_THRESHOLD_SECONDS, ps) in
  pemit (SetSessionThreshold threshold)
    (mkPState (base ps') (showGitMetrics ps') (Some threshold) (plog ps')).

Definition option_bool_eqb (a b : option bool) : bool :=
  match a, b with
  | Some x, Some y => Bool.eqb x y
  | None, None => true
  | _, _ => false
  end.

(** [updatePreferences()]: [resp] answers [GET /users/me], [byId] answers
    [GET /users/<id>] (its [preferences] are the ones compared). *)
Definition updatePreferences (serverIsOnline : bool) (resp byId : UserResponse)
    (putOk : bool) (ps : PState) : PState :=
  let local := showGitMetrics ps in
  let jwt := item_jwt (base ps) in
  let ps0 := set_base (emit ServerIsAvailable (base ps)) ps in
  if item_truthy jwt && serverIsOnline then
    let '(user, b1) := getUser serverIsOnline jwt resp (base ps0) in
    let ps1 := set_base b1 ps0 in
    match user with
    | None => ps1
    | Some u =>
        let ps2 := pemit (GetUserById (user_id u)) ps1 in
        match (if user_ok byId then user_data byId else None) with
        | Some u' =>
            match preferences u' with
            | Some prefs =>
                match showGit prefs with
                | None => sendPreferencesUpdate (user_id u) prefs putOk ps2
                | Some g =>
                    if option_bool_eqb (Some g) local then ps2
                    else sendPreferencesUpdate (user_id u) prefs putOk ps2
                end
            | None => ps2
            end
        | None => ps2
        end
    end
  else ps0.

Definition is_put (e : PrefEffect) : bool :=
  match e with
  | PutPreferences _ _ => true
  | _ => false
  end.

Definition puts (ps : PState) : list PrefEffect := filter is_put (plog ps).

(** Observations on the controller's effect log. *)
Definition is_heartbeat (e : Effect) : bool :=
  match e with
  | SendHeartbeat _ => true
  | _ => false
  end.

Definition is_message (e : Effect) : bool :=
  match e with
  | ShowInformationMessage _ => true
  | _ => false
  end.

Definition heartbeats (st : State) : nat := count is_heartbeat (log st).
Definition messages (st : State) : nat := count is_message (log st).

(** The stored items. *)
Definition items (st : State) : option string * option string * bool :=
  (item_jwt st, item_name st, item_check_status st).

End DataControllerRest.

(* ================================================================== *)
(** * DataController: the weekly commit summary file                   *)
(* ================================================================== *)

Module CommitSummary.

(** The answer to [GET /dashboard/commits]; a rejected request is turned
    into [null] by the [.catch] and counts as not ok. *)
Record Response : Type := mkResponse {
  isResponseOk : bool;
  data : option string
}.

Definition placeholder : string := "WEEKLY COMMIT SUMMARY".

(** [writeCommitSummaryData()] on the file at [getCommitSummaryFile()]
    ([None] when it does not exist): the file afterwards. *)
Definition writeCommitSummaryData (serverIsOnline : bool) (result : option Response)
    (file : option string) : option string :=
  let file1 :=
    if serverIsOnline then
      match result with
      | Some r =>
          if isResponseOk r && item_truthy (data r) then data r else file
      | None => file
      end
    else file in
  match file1 with
  | Some content => Some content
  | None => Some placeholder
  end.

End CommitSummary.

(* ================================================================== *)
(** * The extension entry point: the live share session                *)
(* ================================================================== *)

Module Liveshare.

(** The session object of a change event, as far as the code looks at it,
    and the event itself, whose own [id] is what the code tests on. *)
Record Session : Type := mkSession { session_id : option string }.

Record ChangeEvent : Type := mkChangeEvent {
  event_id : option string;
  session : Session
}.

(** [_ls]: the copied session with the times written into it;
    [local_end] is absent until the session is closed. *)
Record Ls : Type := mkLs {
  id : option string;
  start : Z;
  local_start : Z;
  ls_end : Z;
  local_end : option Z
}.

(** The module variable and the sessions handed to
    [manageLiveshareSession], as they were at the call. *)
Record State : Type := mkState {
  _ls : option Ls;
  managed : list Ls
}.

Definition loaded : State := mkState None [].

Definition close (nowSec offsetSec : Z) (l : Ls) (st : State) : State :=
  let closed := mkLs (id l) (start l) (local_start l) nowSec (Some (nowSec - offsetSec)%Z) in
  mkState None (managed st ++ [closed]).

(** The listener of [onDidChangeSession]; an event that is [null] is
    [None] (the listener then throws while copying the session, before any
    change, when no session is open). *)
Definition onDidChangeSession (nowSec offsetSec : Z) (event : option ChangeEvent)
    (st : State) : State :=
  match _ls st with
  | None =>
      match event with
      | Some e =>
          let opened :=
            mkLs (session_id (session e)) nowSec (nowSec - offsetSec)%Z 0 None in
          mkState (Some opened) (managed st ++ [opened])
      | None => st
      end
  | Some l =>
      match event with
      | Some e => if item_truthy (event_id e) then st else close nowSec offsetSec l st
      | None => close nowSec offsetSec l st
      end
  end.

(** The live share part of [deactivate]. *)
Definition deactivate (nowSec offsetSec : Z) (st : State) : State :=
  match _ls st with
  | Some l => if item_truthy (id l) then close nowSec offsetSec l st else st
  | None => st
  end.

Inductive Call : Type :=
| Changed (nowSec offsetSec : Z) (event : option ChangeEvent)
| Deactivated (nowSec offsetSec : Z).

Definition step (c : Call) (st : State) : State :=
  match c with
  | Changed n o e => onDidChangeSession n o e st
  | Deactivated n o => deactivate n o st
  end.

Definition run (cs : list Call) (st : State) : State :=
  fold_left (fun s c => step c s) cs st.

(** The reports alternate: an opening first, then a closing of the same
    session, and so on; [pending] is the opening not yet closed. *)
Fixpoint alternates (pending : option Ls) (l : list Ls) : option (option Ls) :=
  match l with
  | [] => Some pending
  | x :: l' =>
      match pending, local_end x with
      | None, None => alternates (Some x) l'
      | Some o, Some _ =>
          if DataController.option_string_eqb (id o) (id x) && (start o =? start x)%Z
             && (local_start o =? local_start x)%Z
          then alternates None l' else None
      | _, _ => None
      end
  end.

(** The reports made so far alternate and end with the open session. *)
Definition well_reported (st : State) : Prop :=
  alternates None (managed st) = Some (_ls st).

End Liveshare.

(* ================================================================== *)
(** * The menu tree: collapsed state per label                         *)
(* ================================================================== *)

Module KpmTree.

(** [TreeItemCollapsibleState] of the editor API. *)
Inductive TreeItemCollapsibleState : Type :=
| State_None
| State_Collapsed
| State_Expanded.

(** [codetimeCollapsedStateMap] is a plain object used as a map.  Its own
    properties are kept latest first; a read also finds what
    [Object.prototype] provides under the names below, and an assignment to
    [__proto__] of a number creates no property. *)
Definition object_prototype_names : list string :=
  ["constructor"; "hasOwnProperty"; "isPrototypeOf"; "propertyIsEnumerable";
   "toLocaleString"; "toString"; "valueOf"; "__proto__"; "__defineGetter__";
   "__defineSetter__"; "__lookupGetter__"; "__lookupSetter__"].

Definition inherited (label : string) : bool :=
  existsb (String.eqb label) object_prototype_names.

Definition Map : Type := list (string * TreeItemCollapsibleState).

Definition assign (label : string) (v : TreeItemCollapsibleState) (m : Map) : Map :=
  if String.eqb label "__proto__" then m else (label, v) :: m.

Fixpoint own (label : string) (m : Map) : option TreeItemCollapsibleState :=
  match m with
  | [] => None
  | (k, v) :: m' => if String.eqb label k then Some v else own label m'
  end.

(** What [new KpmTreeItem(p, cstate)] is given as state: a value of the
    enumeration, or something inherited from [Object.prototype]. *)
Inductive CState : Type :=
| Enum (s : TreeItemCollapsibleState)
| Foreign.

Record KpmItem : Type := mkKpmItem {
  label : string;
  children : nat
}.

Record State : Type := mkState {
  codetimeCollapsedStateMap : Map;
  initializedTree : bool;
  refreshes : nat
}.

Definition loaded : State := mkState [] false 0.

Definition onDidCollapseElement (item : KpmItem) (st : State) : State :=
  mkState (assign (label item) State_Collapsed (codetimeCollapsedStateMap st))
          (initializedTree st) (refreshes st).

Definition onDidExpandElement (item : KpmItem) (st : State) : State :=
  mkState (assign (label item) State_Expanded (codetimeCollapsedStateMap st))
          (initializedTree st) (refreshes st).

(** [getTreeItem(p)]: the state the item is created with. *)
Definition getTreeItem (p : KpmItem) (st : State) : CState * State :=
  match children p with
  | S _ =>
      match own (label p) (codetimeCollapsedStateMap st) with
      | Some State_None => (Enum State_Collapsed, st) (* 0 is falsy *)
      | Some s => (Enum s, st)
      | None =>
          if inherited (label p) then (Foreign, st)
          else (Enum State_Collapsed, st)
      end
  | O =>
      (Enum State_None,
       mkState (codetimeCollapsedStateMap st) true (refreshes st))
  end.

(** [revealTree()], up to the call of [view.reveal]. *)
Definition revealTree (st : State) : State :=
  if initializedTree st then st
  else mkState (codetimeCollapsedStateMap st) (initializedTree st) (S (refreshes st)).

Inductive ViewEvent : Type :=
| Collapse (item : KpmItem)
| Expand (item : KpmItem).

Definition view_step (e : ViewEvent) (st : State) : State :=
  match e with
  | Collapse i => onDidCollapseElement i st
  | Expand i => onDidExpandElement i st
  end.

Definition view_run (es : list ViewEvent) (st : State) : State :=
  fold_left (fun s e => view_step e s) es st.

(** The state of the last event on an item with the given label. *)
Fixpoint last_event (l : string) (es : list ViewEvent) (acc : option TreeItemCollapsibleState)
    : option TreeItemCollapsibleState :=
  match es with
  | [] => acc
  | Collapse i :: es' =>
      last_event l es' (if String.eqb l (label i) then Some State_Collapsed else acc)
  | Expand i :: es' =>
      last_event l es' (if String.eqb l (label i) then Some State_Expanded else acc)
  end.

(** What the editor and the extension do with the provider, in order:
    a view event, the rendering of an item, a call of [revealTree]. *)
Inductive Op : Type :=
| View (e : ViewEvent)
| Render (p : KpmItem)
| Reveal.

Definition op_step (o : Op) (st : State) : State :=
  match o with
  | View e => view_step e st
  | Render p => snd (getTreeItem p st)
  | Reveal => revealTree st
  end.

Definition op_run (ops : list Op) (st : State) : State :=
  fold_left (fun s o => op_step o s) ops st.

(** The calls of [revealTree] made before the first rendering of an item
    without children. *)
Fixpoint reveals_before_leaf (ops : list Op) : nat :=
  match ops with
  | [] => 0
  | Reveal :: ops' => S (reveals_before_leaf ops')
  | Render p :: ops' =>
      match children p with
      | O => 0
      | S _ => reveals_before_leaf ops'
      end
  | View _ :: ops' => reveals_before_leaf ops'
  end.

End KpmTree.

(* ================================================================== *)
(** * Observations used by the further properties                      *)
(* ================================================================== *)

Module ExtensionRest.
Import Extension.

Definition is_enable (e : Event) : bool :=
  match e with
  | EnableMetrics => true
  | _ => false
  end.

Definition is_confirmed_probe (e : Event) : bool :=
  match e with
  | ProbeResult true => true
  | _ => false
  end.

(** The content of the store, an absent file counting as empty. *)
Definition content_of (f : StoreFile) : option string :=
  match f with
  | Absent => Some EmptyString
  | Present c => Some c
  | Unreadable => None
  end.

End ExtensionRest.

Module OnboardRest.
Import Onboard.

Definition is_prompt (e : Effect) : bool :=
  match e with
  | ShowOfflinePrompt => true
  | _ => false
  end.

Definition prompts (st : State) : nat := count is_prompt (log st).

(** An invocation in a focused window that ends the chain: the backend is
    reachable and hands out an anonymous token. *)
Definition succeeds (e : Env) : bool :=
  serverIsOnline e && match anonymousJwt e with Some _ => true | None => false end.

End OnboardRest.

(* ================================================================== *)
(** * Properties                                                       *)
(* ================================================================== *)

(* ------------------------------------------------------------------ *)
(** ** The parser never runs out of fuel                                *)
(* ------------------------------------------------------------------ *)

Module JSONProps.
Import JSON.

Lemma skip_ws_length (s : string) :
  String.length (skip_ws s) <= String.length s.
Proof.
  induction s as [|c r IH]; cbn; [lia|].
  destruct (is_ws c); cbn; lia.
Qed.

Lemma next_is_length (c : ascii) (s r : string) :
  next_is c s = Some r -> String.length r < String.length s.
Proof.
  unfold next_is. pose proof (skip_ws_length s) as H.
  destruct (skip_ws s) as [|d r']; [discriminate|].
  destruct (Ascii.eqb d c); [|discriminate].
  intros [= <-]. cbn in H. lia.
Qed.

Lemma digits_length (s : string) :
  forall (acc : Z) (k : nat) (m : Z) (k' : nat) (r : string),
    digits acc k s = (m, k', r) -> String.length r <= String.length s.
Proof.
  induction s as [|c s IH]; intros acc k m k' r H; cbn in H.
  - injection H as <- <- <-. cbn. lia.
  - destruct (digit_of c) as [d|].
    + apply IH in H. cbn. lia.
    + injection H as <- <- <-. cbn. lia.
Qed.

Lemma exp_digits_length (neg : bool) (s : string) (e : Z) (r : string) :
  exp_digits neg s = Some (e, r) -> String.length r <= String.length s.
Proof.
  unfold exp_digits. destruct (digits 0 0 s) as [[e0 k] r0] eqn:E.
  apply digits_length in E. destruct k; [discriminate|].
  intros [= <- <-]. exact E.
Qed.

Lemma unsigned_number_length (s : string) (m e : Z) (r : string) :
  unsigned_number s = Some (m, e, r) -> String.length r < String.length s.
Proof.
  unfold unsigned_number.
  destruct (int_part s) as [[m1 r1]|] eqn:E1; [|discriminate].
  destruct (frac_part m1 r1) as [[[m2 e1] r2]|] eqn:E2; [|discriminate].
  destruct (exp_part r2) as [[e2 r3]|] eqn:E3; [|discriminate].
  intros [= <- <- <-].
  assert (H1 : String.length r1 < String.length s).
  { unfold int_part in E1. destruct s as [|c s']; [discriminate|].
    destruct (digit_of c) as [d|]; [|discriminate].
    destruct (d =? 0)%Z.
    - injection E1 as <- <-. cbn. lia.
    - destruct (digits d 0 s') as [[m0 k0] r0] eqn:Ed.
      apply digits_length in Ed. injection E1 as <- <-. cbn. lia. }
  assert (H2 : String.length r2 <= String.length r1).
  { unfold frac_part in E2. destruct r1 as [|c r1'].
    - injection E2 as <- <- <-. lia.
    - destruct (Ascii.eqb c ".").
      + destruct (digits m1 0 r1') as [[m0 k0] r0] eqn:Ed.
        apply digits_length in Ed. destruct k0; [discriminate|].
        injection E2 as <- <- <-. cbn. lia.
      + injection E2 as <- <- <-. lia. }
  assert (H3 : String.length r3 <= String.length r2).
  { unfold exp_part in E3. destruct r2 as [|c r2'].
    - injection E3 as <- <-. lia.
    - destruct (Ascii.eqb c "e" || Ascii.eqb c "E").
      + destruct r2' as [|sign r2'']; [discriminate|].
        destruct (Ascii.eqb sign "+");
          [apply exp_digits_length in E3; cbn in *; lia|].
        destruct (Ascii.eqb sign "-");
          apply exp_digits_length in E3; cbn in *; lia.
      + injection E3 as <- <-. lia. }
  lia.
Qed.

Lemma number_length (s : string) (v : value) (r : string) :
  number s = Ok v r -> String.length r < String.length s.
Proof.
  unfold number. destruct s as [|c s']; [discriminate|].
  destruct (Ascii.eqb c "-").
  - destruct (unsigned_number s') as [[[m e] r']|] eqn:E; [|discriminate].
    intros [= <- <-]. apply unsigned_number_length in E. cbn. lia.
  - destruct (unsigned_number (String c s')) as [[[m e] r']|] eqn:E; [|discriminate].
    intros [= <- <-]. apply unsigned_number_length in E. exact E.
Qed.

Lemma string_body_length (n : nat) :
  forall (s : string) (us : list N) (r : string),
    String.length s <= n ->
    string_body s = Some (us, r) -> String.length r < String.length s.
Proof.
  induction n as [|n IH]; intros s us r Hn H.
  - destruct s; [discriminate|cbn in Hn; lia].
  - destruct s as [|c s']; [discriminate|]. cbn [string_body] in H.
    cbn [String.length] in Hn |- *.
    destruct (Ascii.eqb c "034"); [injection H as <- <-; lia|].
    destruct (Ascii.eqb c "\").
    + destruct s' as [|e r1]; [discriminate|].
      cbn [String.length] in Hn |- *.
      destruct (Ascii.eqb e "u").
      * destruct r1 as [|h1 [|h2 [|h3 [|h4 r2]]]]; try discriminate.
        cbn [String.length] in Hn |- *.
        destruct (hex_of h1), (hex_of h2), (hex_of h3), (hex_of h4);
          try discriminate.
        destruct (string_body r2) as [[us' r']|] eqn:E; [|discriminate].
        injection H as <- <-. apply IH in E; lia.
      * destruct (escape_of e); [|discriminate].
        destruct (string_body r1) as [[us' r']|] eqn:E; [|discriminate].
        injection H as <- <-. apply IH in E; lia.
    + destruct (nat_of_ascii c <? 32); [discriminate|].
      destruct (string_body s') as [[us' r']|] eqn:E; [|discriminate].
      injection H as <- <-. apply IH in E; lia.
Qed.

Lemma literal_length (w : string) :
  forall s r : string, literal w s = Some r -> String.length r <= String.length s.
Proof.
  induction w as [|a w IH]; intros s r H; cbn in H.
  - injection H as <-. lia.
  - destruct s as [|b s']; [discriminate|].
    destruct (Ascii.eqb a b); [|discriminate].
    apply IH in H. cbn. lia.
Qed.

(** Rewrites what is known about the parsing steps into inequalities
    between lengths. *)
Ltac length_facts :=
  repeat match goal with
  | H : skip_ws ?s = String _ _ |- _ =>
      let K := fresh "K" in
      pose proof (skip_ws_length s) as K; rewrite H in K;
      cbn [String.length] in K; clear H
  | H : next_is _ _ = Some _ |- _ => apply next_is_length in H
  | H : string_body ?s = Some _ |- _ =>
      apply (string_body_length (String.length s) s _ _ (le_n _)) in H
  | H : literal _ _ = Some _ |- _ => apply literal_length in H
  | H : number _ = Ok _ _ |- _ =>
      apply number_length in H; cbn [String.length] in H
  end.

Ltac break_match_in H :=
  match type of H with
  | context [match ?x with _ => _ end] => destruct x eqn:?
  end.

(** A successful parsing function has read at least one character. *)
Lemma parse_consumes (fuel : nat) :
  (forall s v r, parse_value fuel s = Ok v r ->
     String.length r < String.length s) /\
  (forall s vs r, parse_elements fuel s = Ok vs r ->
     String.length r < String.length s) /\
  (forall s ms r, parse_members fuel s = Ok ms r ->
     String.length r < String.length s).
Proof.
  induction fuel as [|f (IHv & IHe & IHm)].
  - repeat split; intros; discriminate.
  - split; [|split].
    + intros s v r H. cbn [parse_value] in H.
      repeat (break_match_in H; try discriminate);
        try (injection H as <- <-);
        repeat match goal with
        | E : parse_members f _ = Ok _ _ |- _ => apply IHm in E
        | E : parse_elements f _ = Ok _ _ |- _ => apply IHe in E
        end;
        length_facts; lia.
    + intros s vs r H. cbn [parse_elements] in H.
      repeat (break_match_in H; try discriminate);
        try (injection H as <- <-);
        repeat match goal with
        | E : parse_value f _ = Ok _ _ |- _ => apply IHv in E
        | E : parse_elements f _ = Ok _ _ |- _ => apply IHe in E
        end;
        length_facts; lia.
    + intros s ms r H. cbn [parse_members] in H.
      repeat (break_match_in H; try discriminate);
        try (injection H as <- <-);
        repeat match goal with
        | E : parse_value f _ = Ok _ _ |- _ => apply IHv in E
        | E : parse_members f _ = Ok _ _ |- _ => apply IHm in E
        end;
        length_facts; lia.
Qed.

Lemma number_never_out_of_fuel (s : string) : number s <> OutOfFuel.
Proof.
  unfold number. destruct s as [|c s']; [discriminate|].
  destruct (Ascii.eqb c "-").
  - destruct (unsigned_number s') as [[[m e] r']|]; discriminate.
  - destruct (unsigned_number (String c s')) as [[[m e] r']|]; discriminate.
Qed.

(** Two units of fuel per character are enough at every depth. *)
Lemma parse_fuel (fuel : nat) :
  (forall s, 2 * String.length s < fuel -> parse_value fuel s <> OutOfFuel) /\
  (forall s, 2 * String.length s + 1 < fuel -> parse_elements fuel s <> OutOfFuel) /\
  (forall s, 2 * String.length s + 1 < fuel -> parse_members fuel s <> OutOfFuel).
Proof.
  induction fuel as [|f (IHv & IHe & IHm)].
  - repeat split; intros; lia.
  - destruct (parse_consumes f) as (Cv & Ce & Cm).
    split; [|split].
    + intros s Hlen H. cbn [parse_value] in H.
      repeat (break_match_in H; try discriminate);
        try (exact (number_never_out_of_fuel _ H));
        match goal with
        | E : parse_members f ?r = OutOfFuel |- _ => apply (IHm r); [|exact E]
        | E : parse_elements f ?r = OutOfFuel |- _ => apply (IHe r); [|exact E]
        end;
        length_facts; lia.
    + intros s Hlen H. cbn [parse_elements] in H.
      repeat (break_match_in H; try discriminate);
        repeat match goal with
        | E : parse_value f _ = Ok _ _ |- _ => apply Cv in E
        end;
        match goal with
        | E : parse_value f ?r = OutOfFuel |- _ => apply (IHv r); [|exact E]
        | E : parse_elements f ?r = OutOfFuel |- _ => apply (IHe r); [|exact E]
        end;
        length_facts; lia.
    + intros s Hlen H. cbn [parse_members] in H.
      repeat (break_match_in H; try discriminate);
        repeat match goal with
        | E : parse_value f _ = Ok _ _ |- _ => apply Cv in E
        end;
        match goal with
        | E : parse_value f ?r = OutOfFuel |- _ => apply (IHv r); [|exact E]
        | E : parse_members f ?r = OutOfFuel |- _ => apply (IHm r); [|exact E]
        end;
        length_facts; lia.
Qed.

(** [JSON.parse] never fails for lack of fuel: [None] is a syntax error (or
    trailing text), never an artefact of the recursion budget. *)
Theorem parse_never_out_of_fuel (text : string) :
  parse_value (S (2 * String.length text)) text <> OutOfFuel.
Proof. apply (proj1 (parse_fuel (S (2 * String.length text)))). lia. Qed.

End JSONProps.

Lemma split_lines_nonempty (s : string) : split_lines s <> [].
Proof.
  induction s as [|c r IH]; simpl; [discriminate|].
  destruct (Ascii.eqb c LF); [discriminate|].
  destruct (Ascii.eqb c CR && starts_with_LF r); [assumption|].
  destruct (split_lines r); discriminate.
Qed.

Lemma is_line_tail (c : ascii) (l : string) :
  is_line (String c l) = true -> is_line l = true.
Proof.
  unfold is_line; simpl.
  destruct (Ascii.eqb c LF); simpl; [discriminate|].
  destruct l as [|d l']; [reflexivity|].
  intros H; exact H.
Qed.

Lemma split_lines_single (l : string) :
  no_LF l = true -> split_lines l = [l].
Proof.
  induction l as [|c r IH]; simpl; intros H; [reflexivity|].
  apply andb_prop in H as [Hc Hr].
  destruct (Ascii.eqb c LF); [discriminate|].
  assert (Hs : starts_with_LF r = false).
  { destruct r as [|d r']; [reflexivity|]. simpl in Hr |- *.
    destruct (Ascii.eqb d LF); [discriminate|reflexivity]. }
  rewrite Hs, andb_false_r, (IH Hr). reflexivity.
Qed.

Lemma split_lines_eol (eol l rest : string) :
  is_eol eol -> is_line l = true ->
  split_lines (l ++ eol ++ rest) = l :: split_lines rest.
Proof.
  intros Heol. induction l as [|c r IH]; intros Hl.
  - destruct Heol as [-> | ->]; reflexivity.
  - pose proof (is_line_tail _ _ Hl) as Hr.
    unfold is_line in Hl. simpl in Hl.
    change ((String c r ++ eol ++ rest)%string)
      with (String c (r ++ eol ++ rest)%string).
    cbn [split_lines].
    destruct (Ascii.eqb c LF) eqn:Ec; [discriminate|].
    assert (Hs : Ascii.eqb c CR && starts_with_LF (r ++ eol ++ rest) = false).
    { destruct r as [|d r'].
      - simpl in Hl. destruct Heol as [-> | ->].
        + destruct (Ascii.eqb c CR); [discriminate|reflexivity].
        + simpl. apply andb_false_r.
      - simpl in Hl |- *.
        destruct (Ascii.eqb d LF); [discriminate|apply andb_false_r]. }
    rewrite Hs, (IH Hr). reflexivity.
Qed.

Lemma split_lines_join (eol : string) (ls : list string) :
  is_eol eol -> Forall (fun l => is_line l = true) ls -> ls <> [] ->
  split_lines (join_lines eol ls) = ls.
Proof.
  intros Heol Hls. induction Hls as [|l ls' Hl Hls' IH]; intros Hne.
  - congruence.
  - destruct ls' as [|l' ls''].
    + simpl. apply split_lines_single.
      unfold is_line in Hl. apply andb_prop in Hl as [H _]. exact H.
    + change (join_lines eol (l :: l' :: ls''))
        with ((l ++ eol ++ join_lines eol (l' :: ls''))%string).
      rewrite (split_lines_eol eol l _ Heol Hl), IH; [reflexivity|discriminate].
Qed.

Lemma split_lines_terminated (eol : string) (ls : list string) :
  is_eol eol -> Forall (fun l => is_line l = true) ls ->
  split_lines (terminated_lines eol ls) = ls ++ [EmptyString].
Proof.
  intros Heol Hls. induction Hls as [|l ls' Hl Hls' IH]; [reflexivity|].
  simpl. rewrite (split_lines_eol eol l _ Heol Hl), IH. reflexivity.
Qed.

(* ------------------------------------------------------------------ *)
(** ** The offline flush                                                *)
(* ------------------------------------------------------------------ *)

Module ExtensionProps.
Import Extension.

Ltac unfold_state :=
  unfold softwarePost, deleteFile, storePayload, emit, set_file, set_telemetry,
    set_inflight, set_probing in *;
  cbn [TELEMETRY_ON dataStoreFile token jwt inflight probing log] in *.

Lemma filter_truthy_parsed (ls : list string) :
  filter_truthy (map line_payload ls) = flat_map parsed_record ls.
Proof.
  induction ls as [|l ls IH]; [reflexivity|].
  simpl. rewrite <- IH. unfold line_payload, parsed_record.
  destruct l as [|c r]; [reflexivity|].
  cbn [nonempty].
  destruct (JSON.parse (String c r)) as [v|]; [|reflexivity].
  destruct (JSON.truthy v) eqn:Ev; [|reflexivity].
  simpl. rewrite Ev. reflexivity.
Qed.

Lemma payloads_of_join (eol : string) (ls : list string) :
  is_eol eol -> Forall (fun l => is_line l = true) ls ->
  payloads_of (join_lines eol ls) = flat_map parsed_record ls.
Proof.
  intros Heol Hls. unfold payloads_of. destruct ls as [|l ls'].
  - reflexivity.
  - rewrite split_lines_join by (assumption || discriminate).
    apply filter_truthy_parsed.
Qed.

Lemma payloads_of_terminated (eol : string) (ls : list string) :
  is_eol eol -> Forall (fun l => is_line l = true) ls ->
  payloads_of (terminated_lines eol ls) = flat_map parsed_record ls.
Proof.
  intros Heol Hls. unfold payloads_of.
  rewrite split_lines_terminated by assumption.
  rewrite filter_truthy_parsed, flat_map_app. simpl.
  apply app_nil_r.
Qed.

Lemma submitted_app (l1 l2 : list Effect) :
  submitted (l1 ++ l2) = submitted l1 ++ submitted l2.
Proof.
  induction l1 as [|e l1 IH]; [reflexivity|].
  destruct e; simpl; rewrite IH; reflexivity.
Qed.

Lemma take_nth_last {A : Type} (l : list A) (x : A) :
  take_nth (List.length l) (l ++ [x]) = Some (x, l).
Proof.
  induction l as [|y l IH]; [reflexivity|].
  simpl. rewrite IH. reflexivity.
Qed.

(** What [sendOfflineData] does when the store has content. *)
Lemma sendOfflineData_present (st : State) (content : string) :
  TELEMETRY_ON st = true ->
  dataStoreFile st = Present content ->
  nonempty content = true ->
  sendOfflineData st =
    mkState true (Present content) (token st) (jwt st)
      (inflight st ++ [payloads_of content]) (probing st)
      (log st ++ [FsExistsSync; FsReadFileSync;
                  ConsoleLog ("Code Time: sending batch payloads: " ++ content)%string;
                  SoftwarePost "/data/batch" (payloads_of content) (jwt st)]).
Proof.
  destruct st as [t f tok j infl pr lg]. cbn. intros -> -> Hc.
  unfold sendOfflineData. cbn. rewrite Hc.
  unfold_state. rewrite <- !app_assoc. reflexivity.
Qed.

(** C10. While telemetry is paused, [sendOfflineData] does nothing at all
    (the state, effect log included, is unchanged: no file access, no
    network call), and [isAuthenticated] answers [true] without any effect,
    whatever token is stored and whatever the backend would answer. *)
Theorem paused_telemetry_short_circuits :
  forall st : State,
    TELEMETRY_ON st = false ->
    sendOfflineData st = st /\
    forall ping : Response, isAuthenticated ping st = (true, st).
Proof.
  intros st Hoff. unfold sendOfflineData, isAuthenticated.
  rewrite Hoff. split; [reflexivity|intros; reflexivity].
Qed.

Lemma paused_telemetry_short_circuits_witness :
  let st := handlePauseMetricsEvent
              (activate (Present line_a) (Some "token") (Some "jwt")) in
  sendOfflineData st = st /\
  forall ping : Response, isAuthenticated ping st = (true, st).
Proof.
  apply paused_telemetry_short_circuits. reflexivity.
Defined.

(** [sendOfflineData] never changes the switch or the store file. *)
Lemma sendOfflineData_keeps (st : State) :
  TELEMETRY_ON (sendOfflineData st) = TELEMETRY_ON st /\
  dataStoreFile (sendOfflineData st) = dataStoreFile st.
Proof.
  destruct st as [t f tok j infl pr lg]. unfold sendOfflineData. cbn.
  destruct t; cbn; [|auto].
  destruct f as [| |content]; cbn; auto.
  destruct (nonempty content); cbn; auto.
Qed.

Lemma network_calls_app (l1 l2 : list Effect) :
  network_calls (l1 ++ l2) = network_calls l1 ++ network_calls l2.
Proof. apply filter_app. Qed.

(** C9, as stated, fails: a store whose only line does not parse yields an
    empty batch, and the batch is submitted all the same. *)
Lemma unparseable_store_is_submitted :
  let st := activate (Present line_bad) (Some "token") (Some "jwt") in
  payloads_of line_bad = [] /\
  network_calls (log (sendOfflineData st)) =
    [SoftwarePost "/data/batch" [] (Some "jwt")].
Proof. vm_compute. split; reflexivity. Qed.

(** C9, amended.  When the store file is absent, unreadable or of length
    zero, [sendOfflineData] returns without a network call and leaves the
    store and the pending requests as they are.  When the file has any
    content, exactly one submit call is issued, carrying whatever parses
    (possibly nothing). *)
Theorem flush_without_content_is_silent :
  forall st : State,
    (dataStoreFile st = Absent \/ dataStoreFile st = Unreadable \/
     dataStoreFile st = Present EmptyString ->
     network_calls (log (sendOfflineData st)) = network_calls (log st) /\
     inflight (sendOfflineData st) = inflight st /\
     dataStoreFile (sendOfflineData st) = dataStoreFile st) /\
    (forall content : string,
       TELEMETRY_ON st = true ->
       dataStoreFile st = Present content ->
       nonempty content = true ->
       network_calls (log (sendOfflineData st)) =
         network_calls (log st) ++
         [SoftwarePost "/data/batch" (payloads_of content) (jwt st)]).
Proof.
  intros st. split.
  - destruct st as [t f tok j infl pr lg]. cbn.
    intros Hf. unfold sendOfflineData. cbn.
    destruct t; cbn; [|auto].
    destruct Hf as [-> | [-> | ->]]; cbn; unfold_state;
      rewrite ?network_calls_app; cbn; rewrite ?app_nil_r; auto.
  - intros content Hon Hf Hc.
    rewrite (sendOfflineData_present st content Hon Hf Hc).
    cbn [log]. rewrite network_calls_app. reflexivity.
Qed.

Lemma flush_without_content_is_silent_witness :
  network_calls (log (sendOfflineData (activate Absent None (Some "jwt")))) = [] /\
  network_calls (log (sendOfflineData (activate (Present line_bad) None (Some "jwt")))) =
    [SoftwarePost "/data/batch" (payloads_of line_bad) (Some "jwt")].
Proof.
  split.
  - apply (proj1 (flush_without_content_is_silent (activate Absent None (Some "jwt")))).
    left. reflexivity.
  - apply (proj2 (flush_without_content_is_silent
                    (activate (Present line_bad) None (Some "jwt"))) line_bad);
      reflexivity.
Defined.

(** C3, as stated, fails: there is no in-flight flag.  A second invocation
    made while the first request is still pending submits the same batch
    again. *)
Lemma second_flush_submits_again :
  let st0 := activate (Present (terminated_lines eol_unix [line_a]))
               (Some "token") (Some "jwt") in
  let batch := [JSON.JObject [(units "a", JSON.JNumber 1 0)]] in
  let st1 := sendOfflineData st0 in
  let st2 := sendOfflineData st1 in
  inflight st1 = [batch] /\
  inflight st2 = [batch; batch] /\
  submitted (log st2) = [batch; batch].
Proof. vm_compute. repeat split; reflexivity. Qed.

(** C3, amended.  [sendOfflineData] keeps no in-flight flag: with telemetry
    on and content in the store, every invocation issues a submit call with
    the parsed content of the store, however many earlier requests are
    still pending; the store itself is untouched by the invocation. *)
Theorem every_flush_submits :
  forall (st : State) (content : string) (n : nat),
    TELEMETRY_ON st = true ->
    dataStoreFile st = Present content ->
    nonempty content = true ->
    let st' := Nat.iter n sendOfflineData st in
    TELEMETRY_ON st' = true /\
    dataStoreFile st' = Present content /\
    inflight st' = inflight st ++ repeat (payloads_of content) n /\
    submitted (log st') = submitted (log st) ++ repeat (payloads_of content) n.
Proof.
  intros st content n Hon Hf Hc. induction n as [|n IH].
  - cbn. rewrite !app_nil_r. auto.
  - cbn zeta in IH |- *. destruct IH as (Hon' & Hf' & Hin & Hsub).
    change (Nat.iter (S n) sendOfflineData st)
      with (sendOfflineData (Nat.iter n sendOfflineData st)).
    rewrite (sendOfflineData_present _ content Hon' Hf' Hc).
    cbn [TELEMETRY_ON dataStoreFile inflight log].
    rewrite submitted_app, Hin, Hsub. cbn [submitted].
    replace (repeat (payloads_of content) (S n))
      with (repeat (payloads_of content) n ++ [payloads_of content])
      by (symmetry; apply (repeat_cons n (payloads_of content))).
    rewrite !app_assoc. auto.
Qed.

Lemma every_flush_submits_witness :
  let st := activate (Present line_a) None (Some "jwt") in
  let st' := Nat.iter 2 sendOfflineData st in
  TELEMETRY_ON st' = true /\
  dataStoreFile st' = Present line_a /\
  inflight st' = inflight st ++ repeat (payloads_of line_a) 2 /\
  submitted (log st') = submitted (log st) ++ repeat (payloads_of line_a) 2.
Proof.
  apply (every_flush_submits (activate (Present line_a) None (Some "jwt"))
           line_a 2); reflexivity.
Defined.

(** C1.  A flush whose submit call is answered with success or with
    "account deactivated" asks [serverIsAvailable()] after the answer and
    deletes the store file only when that check says yes.  When it says
    no, the store file is what it was and the next invocation submits the
    same batch again. *)
Theorem store_deleted_only_after_recheck :
  forall (st : State) (content : string) (resp : Response) (available : bool),
    TELEMETRY_ON st = true ->
    dataStoreFile st = Present content ->
    nonempty content = true ->
    isResponseOk resp || isUserDeactivated resp = true ->
    exists st' : State,
      run [CallSendOfflineData;
           BatchResponse (List.length (inflight st)) resp;
           ProbeResult available] st = Some st' /\
      network_calls (log st') =
        network_calls (log st) ++
        [SoftwarePost "/data/batch" (payloads_of content) (jwt st);
         ServerIsAvailable] /\
      dataStoreFile st' = (if available then Absent else dataStoreFile st) /\
      (available = false ->
       submitted (log (sendOfflineData st')) =
         submitted (log st') ++ [payloads_of content]).
Proof.
  intros st content resp available Hon Hf Hc Hresp.
  cbn [run step].
  rewrite (sendOfflineData_present st content Hon Hf Hc).
  unfold batch_response. cbn [inflight].
  rewrite take_nth_last, Hresp. unfold_state.
  unfold probe_result. unfold_state.
  destruct available.
  - eexists. split; [reflexivity|]. unfold_state.
    rewrite !network_calls_app. cbn [network_calls filter is_network].
    rewrite app_nil_r, <- app_assoc.
    split; [reflexivity|]. split; [reflexivity|]. discriminate.
  - eexists. split; [reflexivity|]. unfold_state.
    rewrite !network_calls_app. cbn [network_calls filter is_network].
    rewrite <- app_assoc.
    split; [reflexivity|]. split; [symmetry; exact Hf|]. intros _.
    rewrite (sendOfflineData_present _ content) by (assumption || reflexivity).
    cbn [log]. rewrite submitted_app. reflexivity.
Qed.

Lemma store_deleted_only_after_recheck_witness :
  exists st' : State,
    run [CallSendOfflineData;
         BatchResponse 0 (mkResponse true false);
         ProbeResult false]
      (activate (Present line_a) None (Some "jwt")) = Some st' /\
    network_calls (log st') =
      [SoftwarePost "/data/batch" (payloads_of line_a) (Some "jwt");
       ServerIsAvailable] /\
    dataStoreFile st' = Present line_a /\
    (false = false ->
     submitted (log (sendOfflineData st')) =
       submitted (log st') ++ [payloads_of line_a]).
Proof.
  apply (store_deleted_only_after_recheck
           (activate (Present line_a) None (Some "jwt"))
           line_a (mkResponse true false) false); reflexivity.
Defined.

(** Whatever the interleaving, the only transition that removes the store
    file is the availability check coming back positive. *)
Lemma only_recheck_deletes (e : Event) (st st' : State) :
  step e st = Some st' ->
  dataStoreFile st <> Absent ->
  dataStoreFile st' = Absent ->
  e = ProbeResult true.
Proof.
  intros Hstep Hbefore Hafter.
  destruct e as [|i resp|[|]|line eol| |]; cbn in Hstep.
  - injection Hstep as <-.
    destruct (sendOfflineData_keeps st) as [_ H]. congruence.
  - unfold batch_response in Hstep.
    destruct (take_nth i (inflight st)) as [[b rest]|]; [|discriminate].
    destruct (isResponseOk resp || isUserDeactivated resp);
      injection Hstep as <-; unfold_state; contradiction.
  - reflexivity.
  - unfold probe_result in Hstep. destruct (probing st); [discriminate|].
    injection Hstep as <-. unfold_state. contradiction.
  - injection Hstep as <-. unfold_state.
    destruct (dataStoreFile st) eqn:E; cbn in Hafter;
      try contradiction; try discriminate; congruence.
  - injection Hstep as <-. unfold_state. contradiction.
  - injection Hstep as <-. unfold_state. contradiction.
Qed.

(** A response that is neither a success nor "account deactivated" ends
    the flush: no availability check, store untouched. *)
Lemma failed_submit_keeps_store :
  forall (st : State) (content : string) (resp : Response),
    TELEMETRY_ON st = true ->
    dataStoreFile st = Present content ->
    nonempty content = true ->
    isResponseOk resp || isUserDeactivated resp = false ->
    exists st' : State,
      run [CallSendOfflineData; BatchResponse (List.length (inflight st)) resp] st
        = Some st' /\
      dataStoreFile st' = dataStoreFile st /\
      probing st' = probing st /\
      inflight st' = inflight st.
Proof.
  intros st content resp Hon Hf Hc Hresp.
  cbn [run step].
  rewrite (sendOfflineData_present st content Hon Hf Hc).
  unfold batch_response. cbn [inflight].
  rewrite take_nth_last, Hresp. unfold_state.
  eexists. split; [reflexivity|]. cbn. rewrite Hf. auto.
Qed.

Lemma parse_empty_line : JSON.parse EmptyString = None.
Proof. reflexivity. Qed.

(** C4.  The batch read from a store is, line by line and in order, what
    the lines parse to.  This holds for any content, cut into lines at
    [\n] or [\r\n]; lines written with either terminator are read back as
    they were written; a line that [JSON.parse] rejects contributes nothing
    and does not disturb the lines before or after it; a line that parses
    to an object contributes that object.  For the store with lines
    [{"a":1}], [not-json], [{"b":2}] the batch is the two objects. *)
Theorem malformed_lines_are_skipped :
  (forall content : string,
     payloads_of content = flat_map parsed_record (split_lines content)) /\
  (forall (eol : string) (ls : list string),
     is_eol eol -> Forall (fun l => is_line l = true) ls ->
     payloads_of (join_lines eol ls) = flat_map parsed_record ls) /\
  (forall (eol : string) (before after : list string) (bad : string),
     is_eol eol ->
     Forall (fun l => is_line l = true) (before ++ bad :: after) ->
     JSON.parse bad = None ->
     payloads_of (join_lines eol (before ++ bad :: after)) =
       flat_map parsed_record before ++ flat_map parsed_record after) /\
  (forall (l : string) (members : list (list N * JSON.value)),
     JSON.parse l = Some (JSON.JObject members) ->
     parsed_record l = [JSON.JObject members]) /\
  payloads_of (join_lines eol_unix example_lines) = example_batch /\
  payloads_of (join_lines eol_windows example_lines) = example_batch.
Proof.
  split; [|split; [|split; [|split; [|split]]]].
  - intros content. apply filter_truthy_parsed.
  - intros eol ls Heol Hls. apply payloads_of_join; assumption.
  - intros eol before after bad Heol Hls Hbad.
    rewrite (payloads_of_join eol _ Heol Hls), flat_map_app.
    cbn [flat_map]. unfold parsed_record at 2. rewrite Hbad. reflexivity.
  - intros l members Hl. unfold parsed_record. rewrite Hl. reflexivity.
  - vm_compute. reflexivity.
  - vm_compute. reflexivity.
Qed.

Lemma malformed_lines_are_skipped_witness :
  payloads_of (join_lines eol_unix example_lines) =
    flat_map parsed_record [line_a] ++ flat_map parsed_record [line_b].
Proof.
  apply (proj1 (proj2 (proj2 malformed_lines_are_skipped))
           eol_unix [line_a] [line_b] line_bad).
  - left. reflexivity.
  - repeat constructor.
  - reflexivity.
Defined.

Lemma str_app_nil_r (s : string) : (s ++ EmptyString)%string = s.
Proof. induction s as [|c r IH]; simpl; [reflexivity|now rewrite IH]. Qed.

Lemma str_app_assoc (a b c : string) :
  ((a ++ b) ++ c)%string = (a ++ (b ++ c))%string.
Proof. induction a as [|x r IH]; simpl; [reflexivity|now rewrite IH]. Qed.

Lemma terminated_lines_snoc (eol : string) (ls : list string) (l : string) :
  terminated_lines eol (ls ++ [l]) = (terminated_lines eol ls ++ (l ++ eol))%string.
Proof.
  induction ls as [|x ls IH]; simpl.
  - now rewrite str_app_nil_r.
  - rewrite IH, !str_app_assoc. reflexivity.
Qed.

Lemma store_of_snoc (eol : string) (ls : list string) (l : string) :
  store_of eol (ls ++ [l]) =
    match store_of eol ls with
    | Absent => Present (l ++ eol)
    | Present content => Present (content ++ (l ++ eol))
    | Unreadable => Unreadable
    end.
Proof.
  destruct ls as [|x ls'].
  - simpl. now rewrite str_app_nil_r.
  - change (store_of eol ((x :: ls') ++ [l]))
      with (Present (terminated_lines eol ((x :: ls') ++ [l]))).
    rewrite terminated_lines_snoc. reflexivity.
Qed.

Lemma terminated_lines_nonempty (eol : string) (l : string) (ls : list string) :
  is_eol eol -> nonempty (terminated_lines eol (l :: ls)) = true.
Proof.
  intros [-> | ->]; simpl; destruct l; reflexivity.
Qed.

(** A whole flush cycle on a store with content: submit, accepting answer,
    availability check with the given result. *)
Lemma flush_cycle (st : State) (content : string) (resp : Response) (available : bool) :
  TELEMETRY_ON st = true ->
  dataStoreFile st = Present content ->
  nonempty content = true ->
  isResponseOk resp || isUserDeactivated resp = true ->
  run [CallSendOfflineData;
       BatchResponse (List.length (inflight st)) resp;
       ProbeResult available] st =
    Some (mkState true (if available then Absent else Present content)
            (token st) (jwt st) (inflight st) (probing st)
            (log st ++
             [FsExistsSync; FsReadFileSync;
              ConsoleLog ("Code Time: sending batch payloads: " ++ content)%string;
              SoftwarePost "/data/batch" (payloads_of content) (jwt st);
              ServerIsAvailable] ++
             (if available then [DeleteFile] else []))).
Proof.
  intros Hon Hf Hc Hresp. cbn [run step].
  rewrite (sendOfflineData_present st content Hon Hf Hc).
  unfold batch_response. cbn [inflight].
  rewrite take_nth_last, Hresp. unfold_state.
  unfold probe_result. unfold_state.
  destruct available; unfold_state; rewrite <- !app_assoc; reflexivity.
Qed.

Section Durability.

(** The records of the application and their serialization: [stringify]
    is [JSON.stringify] on records, [value_of] the value a serialized
    record parses back to. *)
Variable record : Type.
Variable stringify : record -> string.
Variable value_of : record -> JSON.value.
Variable eol : string.

Hypothesis eol_platform : is_eol eol.
Hypothesis stringify_line : forall r, is_line (stringify r) = true.
Hypothesis stringify_parse : forall r, JSON.parse (stringify r) = Some (value_of r).
Hypothesis value_truthy : forall r, JSON.truthy (value_of r) = true.

Lemma payloads_of_records (rs : list record) :
  payloads_of (terminated_lines eol (map stringify rs)) = map value_of rs.
Proof.
  rewrite payloads_of_terminated.
  - induction rs as [|r rs IH]; [reflexivity|].
    cbn [map flat_map]. rewrite IH. unfold parsed_record.
    rewrite stringify_parse, value_truthy. reflexivity.
  - exact eol_platform.
  - apply Forall_forall. intros l Hl. apply in_map_iff in Hl as (r & <- & _).
    apply stringify_line.
Qed.

(** While the backend is unreachable the store only grows, by the
    appended records. *)
Lemma offline_phase_accumulates (es : list (OfflineEvent record)) :
  forall (st st1 : State) (rs : list record),
    TELEMETRY_ON st = true ->
    dataStoreFile st = store_of eol (map stringify rs) ->
    run (map (offline_event stringify eol) es) st = Some st1 ->
    TELEMETRY_ON st1 = true /\
    dataStoreFile st1 = store_of eol (map stringify (rs ++ appended_records es)).
Proof.
  induction es as [|e es IH]; intros st st1 rs Hon Hf Hrun.
  - cbn in Hrun. injection Hrun as <-. rewrite app_nil_r. auto.
  - cbn [map run] in Hrun.
    destruct (step (offline_event stringify eol e) st) as [st'|] eqn:Hstep;
      [|discriminate].
    destruct e as [r| |i resp|]; cbn [offline_event step] in Hstep.
    + injection Hstep as <-.
      cbn [appended_records].
      replace (rs ++ r :: appended_records es)
        with ((rs ++ [r]) ++ appended_records es)
        by (rewrite <- app_assoc; reflexivity).
      apply IH with (st := storePayload (stringify r) eol st); [| |exact Hrun].
      * unfold_state. destruct (dataStoreFile st); cbn; exact Hon.
      * rewrite map_app. cbn [map]. rewrite store_of_snoc, <- Hf.
        unfold_state. destruct (dataStoreFile st) eqn:E; cbn;
          try reflexivity; exact E.
    + injection Hstep as <-. cbn [appended_records].
      destruct (sendOfflineData_keeps st) as [H1 H2].
      apply IH with (st := sendOfflineData st); [congruence|congruence|exact Hrun].
    + cbn [appended_records]. unfold batch_response in Hstep.
      destruct (take_nth i (inflight st)) as [[b rest]|]; [|discriminate].
      destruct (isResponseOk resp || isUserDeactivated resp);
        injection Hstep as <-;
        (apply IH with (2 := Hf) (3 := Hrun) || (eapply IH; [| |exact Hrun]));
        unfold_state; assumption.
    + cbn [appended_records]. unfold probe_result in Hstep.
      destruct (probing st) as [|n] eqn:Hp; [discriminate|].
      injection Hstep as <-.
      eapply IH; [| |exact Hrun]; unfold_state; assumption.
Qed.


End Durability.


End ExtensionProps.

(* ------------------------------------------------------------------ *)
(** ** The login-state cache                                            *)
(* ------------------------------------------------------------------ *)

Module DataControllerProps.
Import DataController.

Ltac unfold_state :=
  unfold setItem_jwt, setItem_name, setItem_check_status, emit,
    set_connectState, set_lastLoggedInCheckTime, set_userFetchTimeout,
    set_timers, set_awaiting, clearCachedLoggedInState in *;
  cbn [connectState lastLoggedInCheckTime userFetchTimeout item_jwt item_name
       item_check_status timers next_handle awaiting log] in *.

Lemma count_app (p : Effect -> bool) (l1 l2 : list Effect) :
  count p (l1 ++ l2) = count p l1 + count p l2.
Proof. unfold count. rewrite filter_app, length_app. reflexivity. Qed.

(** [isLoggedOn] sends the state request exactly when the server is online
    and a jwt is stored; it touches items and log only, and leaves a
    truthy jwt truthy. *)
Ltac count_log :=
  unfold state_requests, count in *; unfold_state; cbn;
  rewrite ?filter_app, ?length_app; cbn.

Lemma isLoggedOn_spec (online : bool) (resp : Response) (st : State) :
  let st' := snd (isLoggedOn online resp st) in
  connectState st' = connectState st /\
  lastLoggedInCheckTime st' = lastLoggedInCheckTime st /\
  same_control st st' /\
  state_requests st' =
    state_requests st + (if online && item_truthy (item_jwt st) then 1 else 0) /\
  count is_login_check (log st') = count is_login_check (log st) /\
  count is_fallback (log st') = count is_fallback (log st) /\
  (item_truthy (item_jwt st) = true -> item_truthy (item_jwt st') = true) /\
  (online = false -> fst (fst (isLoggedOn online resp st)) = false).
Proof.
  destruct st as [cs lt uft j n chk tm nh aw lg].
  unfold isLoggedOn, same_control. cbn.
  destruct online; cbn;
    [|count_log; repeat split; auto; lia].
  destruct (item_truthy j) eqn:Hj; cbn;
    [|count_log; repeat split; auto; try discriminate; lia].
  destruct (isResponseOk resp); cbn;
    [|count_log; repeat split; auto; try discriminate; lia].
  destruct (data resp) as [d|]; cbn;
    [|count_log; repeat split; auto; try discriminate; lia].
  match goal with |- context [String.eqb ?s "OK"] => destruct (String.eqb s "OK") end;
    [|count_log; repeat split; auto; try discriminate; lia].
  destruct (option_string_eqb n (email d));
    destruct (item_truthy (pluginJwt d)) eqn:Hp;
    destruct (option_string_eqb (pluginJwt d) j);
    destruct chk;
    cbn; count_log; repeat split; auto; try discriminate; lia.
Qed.

(** The remote check replaces the cached state by its result, logs one
    "Checking login status" line, and sends at most the one state request
    of [isLoggedOn]. *)
Lemma checkLogin_spec (online : bool) (resp : Response) (st : State) :
  let r := checkLogin online resp st in
  connectState (snd r) = Some (fst r) /\
  lastLoggedInCheckTime (snd r) = lastLoggedInCheckTime st /\
  same_control st (snd r) /\
  state_requests (snd r) =
    state_requests st + (if online && item_truthy (item_jwt st) then 1 else 0) /\
  count is_login_check (log (snd r)) = count is_login_check (log st) + 1 /\
  count is_fallback (log (snd r)) = count is_fallback (log st) /\
  (item_truthy (item_jwt st) = true -> item_truthy (item_jwt (snd r)) = true) /\
  (online = false -> loggedIn (fst r) = false).
Proof.
  unfold checkLogin. destruct online.
  - pose proof (isLoggedOn_spec true resp st) as H. cbn zeta in H.
    destruct (isLoggedOn true resp st) as [[lo s'] st1]. cbn [fst snd] in H.
    destruct H as (H1 & H2 & (H3 & H4 & H5 & H6) & H7 & H8 & H9 & H10 & _).
    destruct st1 as [cs lt uft j n chk tm nh aw lg].
    unfold same_control in *. unfold state_requests, count in *.
    cbn in H1, H2, H3, H4, H5, H6, H7, H8, H9, H10 |- *.
    destruct lo; cbn; [|destruct (item_truthy n); cbn];
      unfold_state; cbn; rewrite ?filter_app, ?length_app; cbn;
      repeat split; auto; try lia; try discriminate.
  - destruct st as [cs lt uft j n chk tm nh aw lg].
    unfold same_control, state_requests, count. cbn.
    destruct (item_truthy n); cbn; unfold_state; cbn;
      rewrite ?filter_app, ?length_app; cbn; repeat split; auto; lia.
Qed.

(** The four ways through [getUserStatus]. *)
Lemma getUserStatus_unstamped (st : State) (cs : LoggedInState) (now : Z)
    (online : bool) (resp : Response) :
  connectState st = Some cs ->
  stamp (lastLoggedInCheckTime st) = None ->
  getUserStatus now online false resp st =
    (cs, set_lastLoggedInCheckTime (Some now) st).
Proof.
  intros Hc Hs. unfold getUserStatus. rewrite Hc, Hs. cbn. rewrite Hc. reflexivity.
Qed.

Lemma getUserStatus_fresh (st : State) (cs : LoggedInState) (t0 now : Z)
    (online : bool) (resp : Response) :
  connectState st = Some cs ->
  stamp (lastLoggedInCheckTime st) = Some t0 ->
  (now - t0 <= 60 * 5)%Z ->
  getUserStatus now online false resp st = (cs, st).
Proof.
  intros Hc Hs Ht. unfold getUserStatus. rewrite Hc, Hs.
  replace (now - t0 >? 60 * 5)%Z with false
    by (symmetry; rewrite Z.gtb_ltb; apply Z.ltb_ge; lia).
  rewrite Hc. reflexivity.
Qed.

Lemma getUserStatus_expired (st : State) (cs : LoggedInState) (t0 now : Z)
    (online : bool) (resp : Response) :
  connectState st = Some cs ->
  stamp (lastLoggedInCheckTime st) = Some t0 ->
  (now - t0 > 60 * 5)%Z ->
  getUserStatus now online false resp st =
    checkLogin online resp (set_connectState None (set_lastLoggedInCheckTime None st)).
Proof.
  intros Hc Hs Ht. unfold getUserStatus. rewrite Hc, Hs.
  replace (now - t0 >? 60 * 5)%Z with true
    by (symmetry; rewrite Z.gtb_ltb; apply Z.ltb_lt; lia).
  reflexivity.
Qed.

Lemma getUserStatus_uncached (st : State) (now : Z) (online ignoreCache : bool)
    (resp : Response) :
  ignoreCache = true \/ connectState st = None ->
  getUserStatus now online ignoreCache resp st = checkLogin online resp st.
Proof.
  intros H. unfold getUserStatus.
  destruct ignoreCache; [reflexivity|].
  destruct H as [H|H]; [discriminate|]. rewrite H. reflexivity.
Qed.

Lemma checkLogin_requests_le (online : bool) (resp : Response) (st : State) :
  state_requests (snd (checkLogin online resp st)) <= state_requests st + 1.
Proof.
  destruct (checkLogin_spec online resp st) as (_ & _ & _ & H & _).
  rewrite H. destruct (online && item_truthy (item_jwt st)); lia.
Qed.

(** One call sends at most one state request. *)
Lemma getUserStatus_requests_le (now : Z) (online ignoreCache : bool)
    (resp : Response) (st : State) :
  state_requests (snd (getUserStatus now online ignoreCache resp st))
    <= state_requests st + 1.
Proof.
  destruct ignoreCache.
  - rewrite getUserStatus_uncached by (left; reflexivity).
    apply checkLogin_requests_le.
  - destruct (connectState st) as [cs|] eqn:Hc.
    + destruct (stamp (lastLoggedInCheckTime st)) as [t0|] eqn:Hs.
      * destruct (Z_le_gt_dec (now - t0) (60 * 5)) as [Hle|Hgt].
        -- rewrite (getUserStatus_fresh st cs t0) by assumption. cbn [snd]. lia.
        -- rewrite (getUserStatus_expired st cs t0) by assumption.
           apply (checkLogin_requests_le online resp
                    (set_connectState None (set_lastLoggedInCheckTime None st))).
      * rewrite (getUserStatus_unstamped st cs) by assumption.
        unfold state_requests. cbn [snd log set_lastLoggedInCheckTime]. lia.
    + rewrite getUserStatus_uncached by (right; assumption).
      apply checkLogin_requests_le.
Qed.

(** After a remote check, the next call without [ignoreCache] is served
    from the cache when no time stamp is recorded. *)
Lemma cached_after_check (online : bool) (resp : Response) (st : State)
    (now : Z) (online' : bool) (resp' : Response) :
  stamp (lastLoggedInCheckTime st) = None ->
  let r := checkLogin online resp st in
  getUserStatus now online' false resp' (snd r) =
    (fst r, set_lastLoggedInCheckTime (Some now) (snd r)).
Proof.
  intros Hs r.
  destruct (checkLogin_spec online resp st) as (H1 & H2 & _).
  fold r in H1, H2.
  apply getUserStatus_unstamped; [exact H1|]. rewrite H2. exact Hs.
Qed.




(** C6, as stated, fails: the result obtained while the backend is
    unreachable is stored in the cache like any other, and the next call,
    made when the backend is back and would report a logged-in user, returns
    the cached "not logged in" without a state request. *)
Lemma unreachable_result_is_cached :
  let st0 := loaded (Some "jwt") None false in
  let r1 := getUserStatus 1000 false false logged_in_answer st0 in
  let r2 := getUserStatus 1001 true false logged_in_answer (snd r1) in
  connectState (snd r1) = Some (mkLoggedInState false) /\
  fst r2 = mkLoggedInState false /\
  state_requests (snd r2) = 0.
Proof. vm_compute. repeat split; reflexivity. Qed.

(** C6, amended.  A check made by [getUserStatus] while the server is not
    online (the cache being bypassed, empty or expired) sends no state
    request and yields "not logged in", and this result replaces the cached
    state; a following call without [ignoreCache], while no stamp is
    recorded or within 300 seconds of the stamp, returns the cached "not
    logged in" without a state request, whether or not the server is back. *)
Theorem offline_check_is_cached :
  forall (st : State) (now : Z) (ignoreCache : bool) (resp : Response),
    (ignoreCache = true \/ connectState st = None \/
     exists t0, stamp (lastLoggedInCheckTime st) = Some t0 /\ (now - t0 > 300)%Z) ->
    let r1 := getUserStatus now false ignoreCache resp st in
    fst r1 = mkLoggedInState false /\
    connectState (snd r1) = Some (mkLoggedInState false) /\
    state_requests (snd r1) = state_requests st /\
    forall (now' : Z) (online' : bool) (resp' : Response),
      (stamp (lastLoggedInCheckTime (snd r1)) = None \/
       exists t1, stamp (lastLoggedInCheckTime (snd r1)) = Some t1 /\
                  (now' - t1 <= 300)%Z) ->
      let r2 := getUserStatus now' online' false resp' (snd r1) in
      fst r2 = mkLoggedInState false /\
      state_requests (snd r2) = state_requests st.
Proof.
  intros st now ignoreCache resp Hin r1. subst r1.
  assert (Hcheck : exists st0,
            getUserStatus now false ignoreCache resp st = checkLogin false resp st0 /\
            state_requests st0 = state_requests st).
  { destruct ignoreCache.
    - exists st. split; [apply getUserStatus_uncached; left|]; reflexivity.
    - destruct (connectState st) as [cs|] eqn:Hc.
      + destruct Hin as [Hin | [Hin | (t0 & Hs & Ht)]]; try discriminate.
        exists (set_connectState None (set_lastLoggedInCheckTime None st)).
        split; [apply (getUserStatus_expired st cs t0); assumption|reflexivity].
      + exists st. split; [apply getUserStatus_uncached; right; exact Hc|reflexivity]. }
  destruct Hcheck as (st0 & -> & Hreq).
  destruct (checkLogin_spec false resp st0) as (H1 & _ & _ & H4 & _ & _ & _ & H8).
  specialize (H8 eq_refl). cbn [andb] in H4. rewrite Nat.add_0_r, Hreq in H4.
  assert (Hfst : fst (checkLogin false resp st0) = mkLoggedInState false).
  { destruct (fst (checkLogin false resp st0)) as [b]. cbn in H8. now subst b. }
  rewrite Hfst in H1.
  split; [exact Hfst|]. split; [exact H1|]. split; [exact H4|].
  intros now' online' resp' [Hs | (t1 & Hs & Ht)]; cbn zeta.
  - rewrite (getUserStatus_unstamped _ (mkLoggedInState false)) by assumption.
    split; [reflexivity|]. exact H4.
  - rewrite (getUserStatus_fresh _ (mkLoggedInState false) t1) by assumption.
    split; [reflexivity|]. exact H4.
Qed.

Lemma offline_check_is_cached_witness :
  let st := loaded (Some "jwt") None false in
  let r1 := getUserStatus 1000 false false logged_in_answer st in
  fst r1 = mkLoggedInState false /\
  connectState (snd r1) = Some (mkLoggedInState false) /\
  state_requests (snd r1) = state_requests st /\
  forall (now' : Z) (online' : bool) (resp' : Response),
    (stamp (lastLoggedInCheckTime (snd r1)) = None \/
     exists t1, stamp (lastLoggedInCheckTime (snd r1)) = Some t1 /\
                (now' - t1 <= 300)%Z) ->
    let r2 := getUserStatus now' online' false resp' (snd r1) in
    fst r2 = mkLoggedInState false /\
    state_requests (snd r2) = state_requests st.
Proof.
  apply (offline_check_is_cached (loaded (Some "jwt") None false) 1000 false
           logged_in_answer).
  right. left. reflexivity.
Defined.

(* ------------------------------------------------------------------ *)
(** ** The lazy status re-fetch                                         *)
(* ------------------------------------------------------------------ *)

Lemma same_control_inv (st st' : State) :
  same_control st st' -> timer_inv st -> timer_inv st'.
Proof.
  intros (H1 & H2 & _ & _). unfold timer_inv. rewrite H1, H2. auto.
Qed.

Lemma same_control_refl (st : State) : same_control st st.
Proof. repeat split. Qed.

Lemma same_control_trans (a b c : State) :
  same_control a b -> same_control b c -> same_control a c.
Proof.
  intros (H1 & H2 & H3 & H4) (K1 & K2 & K3 & K4).
  repeat split; congruence.
Qed.

Lemma getUserStatus_same_control (now : Z) (online ignoreCache : bool)
    (resp : Response) (st : State) :
  same_control st (snd (getUserStatus now online ignoreCache resp st)).
Proof.
  assert (Hcheck : forall s, same_control s (snd (checkLogin online resp s)))
    by (intros s; apply (checkLogin_spec online resp s)).
  destruct ignoreCache.
  - rewrite getUserStatus_uncached by (left; reflexivity). apply Hcheck.
  - destruct (connectState st) as [cs|] eqn:Hc.
    + destruct (stamp (lastLoggedInCheckTime st)) as [t0|] eqn:Hs.
      * destruct (Z_le_gt_dec (now - t0) (60 * 5)) as [Hle|Hgt].
        -- rewrite (getUserStatus_fresh st cs t0) by assumption.
           apply same_control_refl.
        -- rewrite (getUserStatus_expired st cs t0) by assumption.
           apply (same_control_trans st
                    (set_connectState None (set_lastLoggedInCheckTime None st)));
             [repeat split|apply Hcheck].
      * rewrite (getUserStatus_unstamped st cs) by assumption. repeat split.
    + rewrite getUserStatus_uncached by (right; assumption). apply Hcheck.
Qed.

Lemma refetch_inv (n : nat) (st : State) :
  timer_inv st -> timer_inv (refetchUserStatusLazily n st).
Proof.
  unfold timer_inv, refetchUserStatusLazily.
  destruct (userFetchTimeout st) as [h|] eqn:Hu.
  - rewrite Hu. auto.
  - intros Ht. unfold_state. rewrite Ht. exists n. reflexivity.
Qed.

Lemma handler_inv (k : nat) (now : Z) (online : bool) (resp : Response) (st : State) :
  timer_inv st -> timer_inv (userStatusFetchHandler_resume k now online resp st).
Proof.
  intros Hinv. unfold userStatusFetchHandler_resume.
  pose proof (getUserStatus_same_control now online true resp st) as Hsc.
  destruct (getUserStatus now online true resp st) as [us st1]. cbn [snd] in Hsc.
  pose proof (same_control_inv _ _ Hsc Hinv) as Hinv1.
  destruct (negb (loggedIn us)).
  - destruct k as [|k']; [|apply refetch_inv; exact Hinv1].
    revert Hinv1. apply same_control_inv. repeat split.
  - revert Hinv1. apply same_control_inv. repeat split.
Qed.

Lemma step_inv (e : Event) (st st' : State) :
  timer_inv st -> step e st = Some st' -> timer_inv st'.
Proof.
  intros Hinv Hstep. destruct e as [now o ic r| |n|now o r|h|i now o r]; cbn in Hstep.
  - injection Hstep as <-.
    exact (same_control_inv _ _ (getUserStatus_same_control now o ic r st) Hinv).
  - injection Hstep as <-. exact Hinv.
  - injection Hstep as <-. apply refetch_inv, Hinv.
  - injection Hstep as <-. unfold handleKpmClickedEvent.
    pose proof (getUserStatus_same_control now o false r (emit ServerIsAvailable st)) as Hsc.
    destruct (getUserStatus now o false r (emit ServerIsAvailable st)) as [us st1].
    cbn [snd] in Hsc.
    assert (Hinv1 : timer_inv st1)
      by (apply (same_control_inv (emit ServerIsAvailable st)); assumption).
    destruct (negb (loggedIn us)).
    + apply (same_control_inv (refetchUserStatusLazily 40 st1));
        [repeat split|apply refetch_inv, Hinv1].
    + revert Hinv1. apply same_control_inv. repeat split.
  - unfold timer_fire in Hstep. unfold timer_inv in Hinv.
    destruct (userFetchTimeout st) as [h0|] eqn:Hu.
    + destruct Hinv as [n Ht]. rewrite Ht in Hstep. cbn [take_timer] in Hstep.
      destruct (Nat.eqb h h0); [|discriminate].
      injection Hstep as <-. unfold timer_inv. unfold_state. reflexivity.
    + rewrite Hinv in Hstep. discriminate.
  - unfold handler_resume in Hstep.
    destruct (take_nth i (awaiting st)) as [[k rest]|]; [|discriminate].
    injection Hstep as <-. apply handler_inv. exact Hinv.
Qed.

Lemma run_inv (es : list Event) :
  forall st st' : State, timer_inv st -> run es st = Some st' -> timer_inv st'.
Proof.
  induction es as [|e es IH]; intros st st' Hinv Hrun; cbn in Hrun.
  - injection Hrun as <-. exact Hinv.
  - destruct (step e st) as [st1|] eqn:Hstep; [|discriminate].
    exact (IH _ _ (step_inv _ _ _ Hinv Hstep) Hrun).
Qed.



(** The guard is the pending timer, not the campaign as a whole: once the
    timer has fired and its handler is waiting for the backend,
    [userFetchTimeout] is [null] again and a call arms a new timer; the
    handler's own re-arming is then the call that does nothing. *)
Lemma refetch_while_handler_waits :
  exists st1 st2 : State,
    run [CallRefetchUserStatusLazily 5; TimerFire 1;
         CallRefetchUserStatusLazily 40]
        (loaded (Some "jwt") None false) = Some st1 /\
    awaiting st1 = [5] /\ timers st1 = [(2, 40)] /\
    run [HandlerResume 0 1000 false logged_in_answer] st1 = Some st2 /\
    awaiting st2 = [] /\ timers st2 = [(2, 40)].
Proof. do 2 eexists. vm_compute. repeat split; reflexivity. Qed.

(* ------------------------------------------------------------------ *)
(** ** The status campaign                                              *)
(* ------------------------------------------------------------------ *)

Lemma isLoggedOn_answer (online : bool) (resp : Response) (st : State) :
  answer_is_ok resp = false -> fst (fst (isLoggedOn online resp st)) = false.
Proof.
  unfold answer_is_ok, isLoggedOn.
  destruct (online && item_truthy (item_jwt st)); [|reflexivity].
  destruct (if isResponseOk resp then data resp else None) as [d|]; [|reflexivity].
  destruct (state d) as [s|]; [|reflexivity].
  intros ->. reflexivity.
Qed.

Lemma checkLogin_result (online : bool) (resp : Response) (st : State) :
  loggedIn (fst (checkLogin online resp st)) =
    online && fst (fst (isLoggedOn online resp st)).
Proof.
  unfold checkLogin. destruct online; [|reflexivity].
  destruct (isLoggedOn true resp st) as [[lo s'] st1]. reflexivity.
Qed.

Lemma env_fails_not_logged_in (e : Env) (st : State) :
  env_fails e = true ->
  loggedIn (fst (checkLogin (env_online e) (env_resp e) st)) = false.
Proof.
  unfold env_fails. intros H. rewrite checkLogin_result.
  destruct (env_online e); [|reflexivity]. cbn in H |- *.
  apply isLoggedOn_answer. destruct (answer_is_ok (env_resp e)); [discriminate|reflexivity].
Qed.

Lemma campaign_idle (envs : list Env) (st : State) :
  idle st -> campaign envs st = st.
Proof.
  intros (Hu & _). destruct envs as [|e envs]; [reflexivity|].
  cbn [campaign]. rewrite Hu. reflexivity.
Qed.

Lemma refetch_arms (k : nat) (st : State) :
  idle st ->
  armed (refetchUserStatusLazily k st) k /\
  checks (refetchUserStatusLazily k st) = checks st /\
  fallbacks (refetchUserStatusLazily k st) = fallbacks st.
Proof.
  intros (Hu & Ht & Ha). unfold refetchUserStatusLazily, armed, checks, fallbacks.
  rewrite Hu. count_log. rewrite Ht, Ha, !Nat.add_0_r.
  split; [|split; reflexivity].
  exists (next_handle st). auto.
Qed.

(** One attempt of an armed campaign: the timer fires, the handler checks
    the status once, and then either re-arms with one retry less, or takes
    the fallback when no retry is left, or ends on success. *)
Lemma attempt_step (st : State) (k : nat) (e : Env) :
  armed st k ->
  exists st2 : State,
    (forall envs, campaign (e :: envs) st = campaign envs st2) /\
    checks st2 = checks st + 1 /\
    ((exists k', k = S k' /\ armed st2 k' /\ fallbacks st2 = fallbacks st) \/
     (k = 0 /\ idle st2 /\ fallbacks st2 = fallbacks st + 1) \/
     (env_fails e = false /\ idle st2 /\ fallbacks st2 = fallbacks st)).
Proof.
  intros (h & Hu & Ht & Ha).
  destruct st as [cs lt uft j n chk tm nh aw lg]. cbn in Hu, Ht, Ha. subst uft tm aw.
  set (st1 := mkState cs lt None j n chk [] nh [] (lg ++ [ServerIsAvailable])).
  pose proof (checkLogin_spec (env_online e) (env_resp e) st1) as Hspec.
  pose proof (env_fails_not_logged_in e st1) as Hfail.
  cbn zeta in Hspec.
  destruct (checkLogin (env_online e) (env_resp e) st1) as [us st2] eqn:Hcl.
  cbn [fst snd] in Hspec, Hfail.
  destruct Hspec as (_ & _ & (S1 & S2 & S3 & S4) & _ & Hchk & Hfb & _).
  destruct st2 as [cs2 lt2 uft2 j2 n2 chk2 tm2 nh2 aw2 lg2].
  cbn in S1, S2, S3, S4, Hchk, Hfb. subst uft2 tm2 nh2 aw2.
  assert (Hcamp : forall envs (st' : State),
            st' = userStatusFetchHandler_resume k (env_now e) (env_online e)
                    (env_resp e) st1 ->
            campaign (e :: envs)
              (mkState cs lt (Some h) j n chk [(h, k)] nh [] lg) = campaign envs st').
  { intros envs st' ->. cbn [campaign userFetchTimeout]. unfold timer_fire.
    cbn [timers take_timer]. rewrite Nat.eqb_refl. unfold_state. cbn.
    reflexivity. }
  unfold userStatusFetchHandler_resume, getUserStatus in Hcamp.
  cbn iota in Hcamp. rewrite Hcl in Hcamp.
  unfold checks, fallbacks, count in *. cbn [log] in *.
  rewrite filter_app, length_app in Hchk, Hfb. cbn in Hchk, Hfb.
  destruct us as [[|]]; cbn [loggedIn negb] in Hcamp, Hfail.
  - eexists. split; [intros envs; apply Hcamp; reflexivity|].
    unfold_state. rewrite !filter_app, !length_app. cbn.
    split; [lia|]. right. right.
    split; [destruct (env_fails e); [specialize (Hfail eq_refl); discriminate|reflexivity]|].
    split; [repeat split|lia].
  - destruct k as [|k'].
    + eexists. split; [intros envs; apply Hcamp; reflexivity|].
      unfold_state. rewrite !filter_app, !length_app. cbn.
      split; [lia|]. right. left. split; [reflexivity|].
      split; [repeat split|lia].
    + eexists. split; [intros envs; apply Hcamp; reflexivity|].
      unfold refetchUserStatusLazily. unfold_state.
      rewrite !filter_app, !length_app. cbn.
      split; [lia|]. left. exists k'. split; [reflexivity|].
      split; [exists nh; auto|lia].
Qed.

Lemma campaign_bound (envs : list Env) :
  forall (st : State) (k : nat),
    armed st k ->
    let st' := campaign envs st in
    checks st' <= checks st + (k + 1) /\
    fallbacks st' <= fallbacks st + 1 /\
    (forallb env_fails envs = true -> k + 1 <= List.length envs ->
     checks st' = checks st + (k + 1) /\
     fallbacks st' = fallbacks st + 1 /\
     idle st').
Proof.
  induction envs as [|e envs IH]; intros st k Harmed; cbn zeta.
  - cbn [campaign]. split; [lia|]. split; [lia|]. cbn. intros _ H. lia.
  - destruct (attempt_step st k e Harmed) as (st2 & Hcamp & Hchk & Hcases).
    rewrite Hcamp.
    destruct Hcases as [(k' & -> & Harmed' & Hfb) | [(-> & Hidle & Hfb) | (Hok & Hidle & Hfb)]].
    + destruct (IH st2 k' Harmed') as (B1 & B2 & B3). cbn zeta in B1, B2, B3.
      split; [lia|]. split; [lia|].
      intros Hall Hlen. cbn in Hall, Hlen.
      apply andb_prop in Hall as [_ Hall].
      destruct (B3 Hall ltac:(lia)) as (C1 & C2 & C3).
      split; [lia|]. split; [lia|exact C3].
    + rewrite (campaign_idle envs st2 Hidle).
      split; [lia|]. split; [lia|]. intros _ _.
      split; [lia|]. split; [lia|exact Hidle].
    + rewrite (campaign_idle envs st2 Hidle).
      split; [lia|]. split; [lia|]. intros Hall _. cbn in Hall.
      rewrite Hok in Hall. discriminate.
Qed.

End DataControllerProps.

(* ------------------------------------------------------------------ *)
(** ** Onboarding in a window without focus                             *)
(* ------------------------------------------------------------------ *)

Module OnboardProps.
Import Onboard.

Ltac unfold_state :=
  unfold createAnonymousUser, emit, set_jwt, set_retry_counter, creates,
    callbacks, count in *;
  cbn [retry_counter jwt log] in *.

(** The three ways through [onboardInit] when no jwt is stored and the
    window has no focus. *)
Lemma onboardInit_offline (e : Env) (st : State) :
  jwt st = None -> focused e = false -> serverIsOnline e = false ->
  onboardInit e st =
    (Retry false,
     mkState (retry_counter st) None
       (log st ++ [ServerIsAvailable; SetTimeout one_min_millis])).
Proof.
  destruct st as [c j l]. cbn. intros -> Hf Ho.
  unfold onboardInit, secondaryWindowOnboarding. cbn. rewrite Hf, Ho. cbn.
  unfold_state. rewrite <- ?app_assoc. reflexivity.
Qed.

Lemma onboardInit_counted (e : Env) (st : State) :
  jwt st = None -> focused e = false -> serverIsOnline e = true ->
  retry_counter st < 5 ->
  onboardInit e st =
    (Retry false,
     mkState (S (retry_counter st)) None
       (log st ++ [ServerIsAvailable; SetTimeout (1000 * 15)])).
Proof.
  destruct st as [c j l]. cbn. intros -> Hf Ho Hc.
  unfold onboardInit, secondaryWindowOnboarding. cbn. rewrite Hf, Ho. cbn.
  replace (c <=? 4) with true by (symmetry; apply Nat.leb_le; lia).
  unfold_state. rewrite <- ?app_assoc. reflexivity.
Qed.

Lemma onboardInit_exhausted (e : Env) (st : State) :
  jwt st = None -> focused e = false -> serverIsOnline e = true ->
  5 <= retry_counter st ->
  exists j,
    onboardInit e st =
      (Called true,
       mkState (retry_counter st) j
         (log st ++ [ServerIsAvailable; CreateAnonymousUser; Callback true])).
Proof.
  destruct st as [c j l]. cbn. intros -> Hf Ho Hc.
  unfold onboardInit, secondaryWindowOnboarding. cbn. rewrite Hf, Ho. cbn.
  replace (c <=? 4) with false by (symmetry; apply Nat.leb_gt; lia).
  unfold_state.
  destruct (anonymousJwt e) as [a|]; eexists; cbn; rewrite <- ?app_assoc;
    reflexivity.
Qed.

Lemma count_snoc2 (p : Effect -> bool) (l : list Effect) (a b : Effect) :
  p a = false -> p b = false ->
  List.length (filter p (l ++ [a; b])) = List.length (filter p l).
Proof.
  intros Ha Hb. rewrite filter_app, length_app. cbn. rewrite Ha, Hb. cbn. lia.
Qed.

(** The chain of a window without focus: the anonymous user is created at
    most once, and then the callback is called and the chain ends; a chain
    that has not ended has made one invocation per environment. *)
Lemma chain_unfocused (envs : list Env) :
  forall st : State,
    jwt st = None ->
    Forall (fun e => focused e = false) envs ->
    let r := chain envs st in
    snd (fst r) <= List.length envs /\
    (fst (fst r) = true ->
     creates (snd r) = creates st + 1 /\ callbacks (snd r) = callbacks st + 1) /\
    (fst (fst r) = false ->
     snd (fst r) = List.length envs /\
     creates (snd r) = creates st /\ callbacks (snd r) = callbacks st).
Proof.
  induction envs as [|e envs IH]; intros st Hj Hfoc; cbn zeta.
  - cbn. split; [lia|]. split; [discriminate|auto].
  - inversion Hfoc as [|e' envs' Hf Hfoc']; subst.
    cbn [chain].
    destruct (serverIsOnline e) eqn:Ho.
    + destruct (Nat.lt_ge_cases (retry_counter st) 5) as [Hc|Hc].
      * rewrite (onboardInit_counted e st Hj Hf Ho Hc).
        set (st1 := mkState (S (retry_counter st)) None
                      (log st ++ [ServerIsAvailable; SetTimeout (1000 * 15)])).
        specialize (IH st1 eq_refl Hfoc'). cbn zeta in IH.
        destruct (chain envs st1) as [[ended k] st'].
        cbn [fst snd] in IH |- *.
        assert (Hcr : creates st1 = creates st)
          by (unfold creates, count, st1; cbn [log]; apply count_snoc2; reflexivity).
        assert (Hcb : callbacks st1 = callbacks st)
          by (unfold callbacks, count, st1; cbn [log]; apply count_snoc2; reflexivity).
        rewrite Hcr, Hcb in IH. destruct IH as (I1 & I2 & I3).
        cbn [List.length]. split; [lia|]. split; [exact I2|].
        intros Hn. destruct (I3 Hn) as (J1 & J2 & J3). auto.
      * destruct (onboardInit_exhausted e st Hj Hf Ho Hc) as [j ->].
        cbn [fst snd List.length]. split; [lia|].
        split; [|discriminate]. intros _.
        unfold creates, callbacks, count. cbn [log].
        rewrite !filter_app, !length_app. cbn. split; lia.
    + rewrite (onboardInit_offline e st Hj Hf Ho).
      set (st1 := mkState (retry_counter st) None
                    (log st ++ [ServerIsAvailable; SetTimeout one_min_millis])).
      specialize (IH st1 eq_refl Hfoc'). cbn zeta in IH.
      destruct (chain envs st1) as [[ended k] st'].
      cbn [fst snd] in IH |- *.
      assert (Hcr : creates st1 = creates st)
        by (unfold creates, count, st1; cbn [log]; apply count_snoc2; reflexivity).
      assert (Hcb : callbacks st1 = callbacks st)
        by (unfold callbacks, count, st1; cbn [log]; apply count_snoc2; reflexivity).
      rewrite Hcr, Hcb in IH. destruct IH as (I1 & I2 & I3).
      cbn [List.length]. split; [lia|]. split; [exact I2|].
      intros Hn. destruct (I3 Hn) as (J1 & J2 & J3). auto.
Qed.

(** Invocations made while the backend is unreachable are not counted:
    the chain goes on as long as they last. *)
Lemma chain_offline (envs : list Env) :
  forall st : State,
    jwt st = None ->
    Forall (fun e => focused e = false /\ serverIsOnline e = false) envs ->
    fst (fst (chain envs st)) = false.
Proof.
  induction envs as [|e envs IH]; intros st Hj Hall; [reflexivity|].
  inversion Hall as [|e' envs' [Hf Ho] Hall']; subst.
  cbn [chain]. rewrite (onboardInit_offline e st Hj Hf Ho).
  specialize (IH (mkState (retry_counter st) None
                    (log st ++ [ServerIsAvailable; SetTimeout one_min_millis]))
                eq_refl Hall').
  cbn [set_retry_counter].
  destruct (chain envs _) as [[ended k] st']. exact IH.
Qed.

(** With the backend reachable at every invocation, the chain ends at the
    invocation that finds [retry_counter] at 5: the sixth of a fresh
    module. *)
Lemma chain_online (envs : list Env) :
  forall st : State,
    jwt st = None ->
    Forall (fun e => focused e = false /\ serverIsOnline e = true) envs ->
    retry_counter st <= 5 ->
    6 - retry_counter st <= List.length envs ->
    fst (fst (chain envs st)) = true /\
    snd (fst (chain envs st)) = 6 - retry_counter st.
Proof.
  induction envs as [|e envs IH]; intros st Hj Hall Hc Hlen.
  - cbn [List.length] in Hlen. lia.
  - inversion Hall as [|e' envs' [Hf Ho] Hall']; subst.
    cbn [chain]. cbn [List.length] in Hlen.
    destruct (Nat.lt_ge_cases (retry_counter st) 5) as [Hlt|Hge].
    + rewrite (onboardInit_counted e st Hj Hf Ho Hlt).
      specialize (IH (mkState (S (retry_counter st)) None
                        (log st ++ [ServerIsAvailable; SetTimeout (1000 * 15)]))
                    eq_refl Hall').
      cbn [retry_counter] in IH.
      destruct (chain envs _) as [[ended k] st'].
      cbn [fst snd] in IH |- *.
      destruct (IH ltac:(lia) ltac:(lia)) as [-> ->]. split; [reflexivity|lia].
    + destruct (onboardInit_exhausted e st Hj Hf Ho Hge) as [j ->].
      cbn [fst snd]. split; [reflexivity|lia].
Qed.

End OnboardProps.

(* ------------------------------------------------------------------ *)
(** ** Retry campaigns                                                  *)
(* ------------------------------------------------------------------ *)

Module CampaignProps.

Lemma Forall_forallb {A : Type} (P : A -> Prop) (q : A -> bool) (l : list A) :
  Forall P l -> forallb q l = true ->
  Forall (fun x => P x /\ q x = true) l.
Proof.
  induction 1 as [|x l Hx Hl IH]; cbn; intros Hq; [constructor|].
  apply andb_prop in Hq as [Hqx Hql]. constructor; auto.
Qed.




End CampaignProps.

(* ------------------------------------------------------------------ *)
(** ** The offline flush: further properties                            *)
(* ------------------------------------------------------------------ *)

Module ExtensionMore.
Import Extension ExtensionRest.

Ltac unfold_state :=
  unfold softwarePost, deleteFile, storePayload, handlePauseMetricsEvent,
    handleEnableMetricsEvent, emit, set_file, set_telemetry,
    set_inflight, set_probing in *;
  cbn [TELEMETRY_ON dataStoreFile token jwt inflight probing log] in *.

Lemma sendOfflineData_frame (st : State) :
  TELEMETRY_ON (sendOfflineData st) = TELEMETRY_ON st /\
  dataStoreFile (sendOfflineData st) = dataStoreFile st /\
  probing (sendOfflineData st) = probing st.
Proof.
  destruct st as [t f tok j infl pr lg]. unfold sendOfflineData. cbn.
  destruct t; cbn; [|auto].
  destruct f as [| |content]; cbn; auto.
  destruct (nonempty content); cbn; auto.
Qed.

Lemma sendOfflineData_paused (st : State) :
  TELEMETRY_ON st = false -> sendOfflineData st = st.
Proof. intros H. unfold sendOfflineData. rewrite H. reflexivity. Qed.

Lemma submitted_snoc (l : list Effect) (e : Effect) :
  submitted (l ++ [e]) =
    submitted l ++ match e with SoftwarePost _ p _ => [p] | _ => [] end.
Proof.
  induction l as [|x l IH]; [destruct e; reflexivity|].
  destruct x; cbn; rewrite IH; reflexivity.
Qed.

Lemma str_assoc (a b c : string) :
  ((a ++ b) ++ c)%string = (a ++ (b ++ c))%string.
Proof. induction a as [|x r IH]; simpl; [reflexivity|now rewrite IH]. Qed.

Lemma str_nil_r (s : string) : (s ++ EmptyString)%string = s.
Proof. induction s as [|c r IH]; simpl; [reflexivity|now rewrite IH]. Qed.

(** X1.  A submit answered with neither success nor "account deactivated"
    ends the flush there: no availability check is made, the store file is
    untouched, and the next invocation submits the same batch again. *)
Theorem rejected_submit_is_retried :
  forall (st : State) (content : string) (resp : Response),
    TELEMETRY_ON st = true ->
    dataStoreFile st = Present content ->
    nonempty content = true ->
    isResponseOk resp || isUserDeactivated resp = false ->
    exists st' : State,
      run [CallSendOfflineData;
           BatchResponse (List.length (inflight st)) resp;
           CallSendOfflineData] st = Some st' /\
      dataStoreFile st' = Present content /\
      probing st' = probing st /\
      network_calls (log st') =
        network_calls (log st) ++
        [SoftwarePost "/data/batch" (payloads_of content) (jwt st);
         SoftwarePost "/data/batch" (payloads_of content) (jwt st)].
Proof.
  intros st content resp Hon Hf Hc Hresp. cbn [run step].
  rewrite (ExtensionProps.sendOfflineData_present st content Hon Hf Hc).
  unfold batch_response. cbn [inflight].
  rewrite ExtensionProps.take_nth_last, Hresp. unfold_state.
  rewrite (ExtensionProps.sendOfflineData_present _ content)
    by (assumption || reflexivity).
  eexists. split; [reflexivity|]. cbn [dataStoreFile probing log jwt].
  split; [reflexivity|]. split; [reflexivity|].
  rewrite !ExtensionProps.network_calls_app. cbn.
  rewrite <- app_assoc. reflexivity.
Qed.

Lemma rejected_submit_is_retried_witness :
  exists st' : State,
    run [CallSendOfflineData; BatchResponse 0 (mkResponse false false);
         CallSendOfflineData]
        (activate (Present line_a) None (Some "jwt")) = Some st' /\
    dataStoreFile st' = Present line_a /\
    probing st' = 0 /\
    network_calls (log st') =
      [SoftwarePost "/data/batch" (payloads_of line_a) (Some "jwt");
       SoftwarePost "/data/batch" (payloads_of line_a) (Some "jwt")].
Proof.
  apply (rejected_submit_is_retried (activate (Present line_a) None (Some "jwt"))
           line_a (mkResponse false false)); reflexivity.
Defined.

(** X2.  As long as no availability check comes back positive, whatever
    else happens (flushes, answers, failed checks, appends, pausing), the
    store keeps everything it held: its content only grows at the end. *)
Theorem store_is_append_only :
  forall (es : list Event) (st st' : State) (c : string),
    run es st = Some st' ->
    forallb (fun e => negb (is_confirmed_probe e)) es = true ->
    content_of (dataStoreFile st) = Some c ->
    exists suffix : string,
      content_of (dataStoreFile st') = Some (c ++ suffix)%string.
Proof.
  induction es as [|e es IH]; intros st st' c Hrun Hall Hc.
  - cbn in Hrun. injection Hrun as <-. exists EmptyString.
    rewrite str_nil_r. exact Hc.
  - cbn [run] in Hrun. cbn [forallb] in Hall.
    apply andb_prop in Hall as [He Hall].
    destruct (step e st) as [st1|] eqn:Hstep; [|discriminate].
    assert (H1 : exists s1, content_of (dataStoreFile st1) = Some (c ++ s1)%string).
    { destruct e as [|i resp|b|line eol| |]; cbn in Hstep.
      - injection Hstep as <-. exists EmptyString.
        destruct (sendOfflineData_frame st) as (_ & -> & _).
        rewrite str_nil_r. exact Hc.
      - unfold batch_response in Hstep.
        destruct (take_nth i (inflight st)) as [[b rest]|]; [|discriminate].
        exists EmptyString. rewrite str_nil_r.
        destruct (isResponseOk resp || isUserDeactivated resp);
          injection Hstep as <-; unfold_state; exact Hc.
      - destruct b; [discriminate|].
        unfold probe_result in Hstep. destruct (probing st); [discriminate|].
        injection Hstep as <-. exists EmptyString. rewrite str_nil_r.
        unfold_state. exact Hc.
      - injection Hstep as <-. unfold_state.
        destruct (dataStoreFile st) as [| |c0]; cbn in Hc |- *.
        + injection Hc as <-. exists (line ++ eol)%string. reflexivity.
        + discriminate.
        + injection Hc as <-. exists (line ++ eol)%string. reflexivity.
      - injection Hstep as <-. exists EmptyString. rewrite str_nil_r.
        unfold_state. exact Hc.
      - injection Hstep as <-. exists EmptyString. rewrite str_nil_r.
        unfold_state. exact Hc. }
    destruct H1 as [s1 H1].
    destruct (IH st1 st' _ Hrun Hall H1) as [s2 H2].
    exists (s1 ++ s2)%string. rewrite H2, str_assoc. reflexivity.
Qed.

Lemma store_is_append_only_witness :
  exists st' : State,
    run [StorePayload line_b eol_unix; CallSendOfflineData;
         BatchResponse 0 (mkResponse true false); ProbeResult false]
        (activate (Present (line_a ++ eol_unix)) None (Some "jwt")) = Some st' /\
    exists suffix : string,
      content_of (dataStoreFile st') = Some ((line_a ++ eol_unix) ++ suffix)%string.
Proof.
  destruct (run [StorePayload line_b eol_unix; CallSendOfflineData;
                 BatchResponse 0 (mkResponse true false); ProbeResult false]
                (activate (Present (line_a ++ eol_unix)) None (Some "jwt")))
    as [st'|] eqn:Hrun; [|vm_compute in Hrun; discriminate].
  exists st'. split; [reflexivity|].
  exact (store_is_append_only _ _ st' _ Hrun eq_refl eq_refl).
Defined.

(** X3.  Once metrics are paused, nothing is submitted until they are
    enabled again, whatever is invoked or answered meanwhile; requests
    already pending are still answered. *)
Theorem no_submit_while_paused :
  forall (es : list Event) (st st' : State),
    run es st = Some st' ->
    TELEMETRY_ON st = false ->
    forallb (fun e => negb (is_enable e)) es = true ->
    TELEMETRY_ON st' = false /\
    submitted (log st') = submitted (log st).
Proof.
  induction es as [|e es IH]; intros st st' Hrun Hoff Hall.
  - cbn in Hrun. injection Hrun as <-. auto.
  - cbn [run] in Hrun. cbn [forallb] in Hall.
    apply andb_prop in Hall as [He Hall].
    destruct (step e st) as [st1|] eqn:Hstep; [|discriminate].
    assert (H1 : TELEMETRY_ON st1 = false /\ submitted (log st1) = submitted (log st)).
    { destruct e as [|i resp|b|line eol| |]; cbn in Hstep.
      - injection Hstep as <-. rewrite (sendOfflineData_paused st Hoff). auto.
      - unfold batch_response in Hstep.
        destruct (take_nth i (inflight st)) as [[b rest]|]; [|discriminate].
        destruct (isResponseOk resp || isUserDeactivated resp);
          injection Hstep as <-; unfold_state; rewrite ?submitted_snoc, ?app_nil_r;
          auto.
      - unfold probe_result in Hstep. destruct (probing st); [discriminate|].
        injection Hstep as <-. destruct b; unfold_state;
          rewrite ?submitted_snoc, ?app_nil_r; auto.
      - injection Hstep as <-. unfold_state.
        rewrite submitted_snoc, app_nil_r.
        destruct (dataStoreFile st); cbn; auto.
      - injection Hstep as <-. unfold_state.
        rewrite submitted_snoc, app_nil_r. auto.
      - discriminate. }
    destruct H1 as [Hoff1 Hsub1].
    destruct (IH st1 st' Hrun Hoff1 Hall) as [H2 H3].
    split; [exact H2|congruence].
Qed.

Lemma no_submit_while_paused_witness :
  exists st' : State,
    run [CallSendOfflineData; StorePayload line_b eol_unix; CallSendOfflineData]
        (handlePauseMetricsEvent (activate (Present line_a) None (Some "jwt")))
      = Some st' /\
    TELEMETRY_ON st' = false /\
    submitted (log st') = [].
Proof.
  destruct (run [CallSendOfflineData; StorePayload line_b eol_unix;
                 CallSendOfflineData]
                (handlePauseMetricsEvent
                   (activate (Present line_a) None (Some "jwt"))))
    as [st'|] eqn:Hrun; [|vm_compute in Hrun; discriminate].
  exists st'. split; [reflexivity|].
  exact (no_submit_while_paused _ _ st' Hrun eq_refl eq_refl).
Defined.

Lemma filter_truthy_spec (l : list (option JSON.value)) :
  Forall (fun v => JSON.truthy v = true) (filter_truthy l) /\
  List.length (filter_truthy l) <= List.length l.
Proof.
  induction l as [|[v|] l [IH1 IH2]]; cbn.
  - split; [constructor|lia].
  - destruct (JSON.truthy v) eqn:Ev; cbn; split; auto; lia.
  - split; [exact IH1|lia].
Qed.

(** X4.  Whatever the store file holds, the batch built from it contains
    no falsy value ([null], [false], zero, the empty string) and has at most
    one entry per line of the file. *)
Theorem batch_is_truthy_and_bounded :
  forall content : string,
    Forall (fun v => JSON.truthy v = true) (payloads_of content) /\
    List.length (payloads_of content) <= List.length (split_lines content).
Proof.
  intros content. unfold payloads_of.
  destruct (filter_truthy_spec (map line_payload (split_lines content))) as [H1 H2].
  rewrite length_map in H2. auto.
Qed.

(** X5.  With telemetry on, [isAuthenticated] answers [true] exactly when
    a token is stored and the ping is accepted; the backend is contacted
    exactly when a token is stored (one ping, carrying the stored jwt). *)
Theorem isAuthenticated_needs_token_and_ping :
  forall (ping : Response) (st : State),
    TELEMETRY_ON st = true ->
    fst (isAuthenticated ping st) = item_truthy (token st) && isResponseOk ping /\
    network_calls (log (snd (isAuthenticated ping st))) =
      network_calls (log st) ++
      (if item_truthy (token st) then [SoftwareGet "/users/ping" (jwt st)] else []).
Proof.
  intros ping st Hon. unfold isAuthenticated. rewrite Hon. cbn [negb].
  destruct (item_truthy (token st)); cbn [negb andb].
  - destruct (isResponseOk ping); cbn [fst snd]; unfold_state;
      rewrite !ExtensionProps.network_calls_app; cbn;
      rewrite ?app_nil_r; auto.
  - cbn [fst snd]. unfold_state.
    rewrite ExtensionProps.network_calls_app. cbn. auto.
Qed.

Lemma isAuthenticated_needs_token_and_ping_witness :
  let st := activate Absent (Some "token") None in
  fst (isAuthenticated (mkResponse true false) st) = true /\
  network_calls (log (snd (isAuthenticated (mkResponse true false) st))) =
    [SoftwareGet "/users/ping" None].
Proof.
  apply (isAuthenticated_needs_token_and_ping (mkResponse true false)
           (activate Absent (Some "token") None)).
  reflexivity.
Defined.

End ExtensionMore.

(* ------------------------------------------------------------------ *)
(** ** The login state: further properties                              *)
(* ------------------------------------------------------------------ *)

Module DataControllerMore.
Import DataController DataControllerRest.

Ltac unfold_state :=
  unfold setItem_jwt, setItem_name, setItem_check_status, emit,
    set_connectState, set_lastLoggedInCheckTime, set_userFetchTimeout,
    set_timers, set_awaiting, clearCachedLoggedInState in *;
  cbn [connectState lastLoggedInCheckTime userFetchTimeout item_jwt item_name
       item_check_status timers next_handle awaiting log] in *.

(** When [isLoggedOn] says yes. *)
Lemma isLoggedOn_loggedOn (online : bool) (resp : Response) (st : State) :
  fst (fst (isLoggedOn online resp st)) =
    online && item_truthy (item_jwt st) && answer_is_ok resp.
Proof.
  unfold isLoggedOn, answer_is_ok.
  destruct (online && item_truthy (item_jwt st)); [|reflexivity].
  destruct (if isResponseOk resp then data resp else None) as [d|]; [|reflexivity].
  destruct (state d) as [s|]; cbn.
  - destruct (String.eqb (if nonempty s then s else "UNKNOWN") "OK"); reflexivity.
  - reflexivity.
Qed.

(** A logged-on answer leaves [check_status] cleared. *)
Lemma isLoggedOn_clears_check_status (online : bool) (resp : Response) (st : State) :
  fst (fst (isLoggedOn online resp st)) = true ->
  item_check_status (snd (isLoggedOn online resp st)) = false.
Proof.
  destruct st as [cs lt uft j n chk tm nh aw lg].
  unfold isLoggedOn. cbn.
  destruct (online && item_truthy j); cbn; [|discriminate].
  destruct (isResponseOk resp); cbn; [|discriminate].
  destruct (data resp) as [d|]; cbn; [|discriminate].
  match goal with |- context [String.eqb ?s "OK"] => destruct (String.eqb s "OK") end;
    cbn; [|discriminate].
  intros _.
  destruct (option_string_eqb n (email d));
    destruct (item_truthy (pluginJwt d) && negb (option_string_eqb (pluginJwt d) j));
    destruct chk; reflexivity.
Qed.

(** Whatever the arguments and the state of the cache, [getUserStatus]
    returns exactly what [connectState] holds when it returns. *)
Lemma getUserStatus_connectState (now : Z) (online ignoreCache : bool)
    (resp : Response) (st : State) :
  connectState (snd (getUserStatus now online ignoreCache resp st)) =
    Some (fst (getUserStatus now online ignoreCache resp st)).
Proof.
  assert (Hcheck : forall s, connectState (snd (checkLogin online resp s)) =
                             Some (fst (checkLogin online resp s)))
    by (intros s; apply (DataControllerProps.checkLogin_spec online resp s)).
  destruct ignoreCache.
  - rewrite DataControllerProps.getUserStatus_uncached by (left; reflexivity).
    apply Hcheck.
  - destruct (connectState st) as [cs|] eqn:Hc.
    + destruct (stamp (lastLoggedInCheckTime st)) as [t0|] eqn:Hs.
      * destruct (Z_le_gt_dec (now - t0) (60 * 5)) as [Hle|Hgt].
        -- rewrite (DataControllerProps.getUserStatus_fresh st cs t0) by assumption.
           exact Hc.
        -- rewrite (DataControllerProps.getUserStatus_expired st cs t0) by assumption.
           apply Hcheck.
      * rewrite (DataControllerProps.getUserStatus_unstamped st cs) by assumption.
        exact Hc.
    + rewrite DataControllerProps.getUserStatus_uncached by (right; assumption).
      apply Hcheck.
Qed.

(** X6.  [isLoggedOn] reports a logged-on user exactly when the server is
    online, a jwt is stored and the answer is accepted with state [OK]; it
    sends its request exactly when the server is online and a jwt is
    stored, and without a request it changes nothing at all. *)
Theorem isLoggedOn_result :
  forall (online : bool) (resp : Response) (st : State),
    fst (fst (isLoggedOn online resp st)) =
      online && item_truthy (item_jwt st) && answer_is_ok resp /\
    state_requests (snd (isLoggedOn online resp st)) =
      state_requests st + (if online && item_truthy (item_jwt st) then 1 else 0) /\
    (online && item_truthy (item_jwt st) = false ->
     snd (isLoggedOn online resp st) = st).
Proof.
  intros online resp st.
  destruct (DataControllerProps.isLoggedOn_spec online resp st)
    as (_ & _ & _ & Hreq & _).
  cbn zeta in Hreq. split; [|split; [exact Hreq|]].
  - apply isLoggedOn_loggedOn.
  - intros H. unfold isLoggedOn. rewrite H. reflexivity.
Qed.

(** X7.  When [isLoggedOn] reports a logged-on user, the stored name is
    the e-mail of the answer, [check_status] is cleared and the stored jwt
    is the one of the answer when it gives one; when it does not report a
    logged-on user, the three stored items are what they were. *)
Theorem isLoggedOn_items :
  forall (online : bool) (resp : Response) (st : State),
    let r := isLoggedOn online resp st in
    (fst (fst r) = true ->
     exists d : PluginState,
       data resp = Some d /\
       item_name (snd r) = email d /\
       item_check_status (snd r) = false /\
       item_jwt (snd r) =
         (if item_truthy (pluginJwt d) then pluginJwt d else item_jwt st)) /\
    (fst (fst r) = false -> items (snd r) = items st).
Proof.
  intros online resp st. cbn zeta.
  destruct st as [cs lt uft j n chk tm nh aw lg].
  unfold isLoggedOn, items. cbn.
  destruct (online && item_truthy j); cbn; [|split; [discriminate|reflexivity]].
  destruct (isResponseOk resp); cbn; [|split; [discriminate|reflexivity]].
  destruct (data resp) as [d|]; cbn; [|split; [discriminate|reflexivity]].
  match goal with |- context [String.eqb ?s "OK"] => destruct (String.eqb s "OK") end;
    cbn; [|split; [discriminate|reflexivity]].
  split; [|discriminate]. intros _. exists d. split; [reflexivity|].
  destruct (option_string_eqb n (email d)) eqn:En.
  - assert (Hn : n = email d).
    { destruct n as [x|], (email d) as [y|]; cbn in En; try discriminate;
        [apply String.eqb_eq in En; now subst|reflexivity]. }
    destruct (item_truthy (pluginJwt d)) eqn:Hp; cbn.
    + destruct (option_string_eqb (pluginJwt d) j) eqn:Ej; cbn;
        destruct chk; cbn; repeat split; auto.
      all: destruct (pluginJwt d) as [x|], j as [y|]; cbn in Ej; try discriminate;
        try (apply String.eqb_eq in Ej; now subst); reflexivity.
    + destruct chk; cbn; repeat split; auto.
  - destruct (item_truthy (pluginJwt d)) eqn:Hp; cbn.
    + destruct (option_string_eqb (pluginJwt d) j) eqn:Ej; cbn;
        destruct chk; cbn; repeat split; auto.
      all: destruct (pluginJwt d) as [x|], j as [y|]; cbn in Ej; try discriminate;
        try (apply String.eqb_eq in Ej; now subst); reflexivity.
    + destruct chk; cbn; repeat split; auto.
Qed.

Lemma isLoggedOn_items_witness :
  let r := isLoggedOn true logged_in_answer (loaded (Some "jwt") None true) in
  exists d : PluginState,
    data logged_in_answer = Some d /\
    item_name (snd r) = email d /\
    item_check_status (snd r) = false /\
    item_jwt (snd r) = (if item_truthy (pluginJwt d) then pluginJwt d else Some "jwt").
Proof.
  apply (proj1 (isLoggedOn_items true logged_in_answer (loaded (Some "jwt") None true))).
  reflexivity.
Defined.

Ltac count_log :=
  unfold heartbeats, messages, fallbacks, checks, state_requests, count in *;
  unfold_state; cbn; rewrite ?filter_app, ?length_app; cbn.

Lemma isLoggedOn_heartbeats (online : bool) (resp : Response) (st : State) :
  heartbeats (snd (isLoggedOn online resp st)) = heartbeats st.
Proof.
  destruct st as [cs lt uft j n chk tm nh aw lg].
  unfold isLoggedOn. cbn.
  destruct (online && item_truthy j); cbn; [|reflexivity].
  destruct (isResponseOk resp); cbn; [|count_log; lia].
  destruct (data resp) as [d|]; cbn; [|count_log; lia].
  match goal with |- context [String.eqb ?s "OK"] => destruct (String.eqb s "OK") end;
    [|count_log; lia].
  destruct (option_string_eqb n (email d));
    destruct (item_truthy (pluginJwt d) && negb (option_string_eqb (pluginJwt d) j));
    destruct chk; cbn; count_log; lia.
Qed.

(** X8.  A forced status check sends the state-change heartbeat (and
    starts the preference initialisation) exactly when it finds the user
    logged in, which requires the server online and a stored jwt; when it
    does not, no stored name is left. *)
Theorem forced_check_effects :
  forall (now : Z) (online : bool) (resp : Response) (st : State),
    let r := getUserStatus now online true resp st in
    heartbeats (snd r) = heartbeats st + (if loggedIn (fst r) then 1 else 0) /\
    (loggedIn (fst r) = true -> online = true /\ item_truthy (item_jwt st) = true) /\
    (loggedIn (fst r) = false -> item_truthy (item_name (snd r)) = false).
Proof.
  intros now online resp st. cbn zeta.
  rewrite DataControllerProps.getUserStatus_uncached by (left; reflexivity).
  pose proof (isLoggedOn_heartbeats online resp st) as Hhb.
  pose proof (isLoggedOn_loggedOn online resp st) as Hres.
  unfold checkLogin. destruct online.
  - destruct (isLoggedOn true resp st) as [[lo s'] st1]. cbn [fst snd] in Hhb, Hres.
    destruct st1 as [cs lt uft j n chk tm nh aw lg].
    destruct lo; cbn.
    + count_log. split; [lia|]. split; [|discriminate]. intros _.
      split; [reflexivity|]. symmetry in Hres. cbn in Hres.
      apply andb_prop in Hres as [H _]. exact H.
    + destruct (item_truthy n) eqn:En; cbn; count_log;
        (split; [lia|]); (split; [discriminate|]); intros _;
        [reflexivity|exact En].
  - destruct st as [cs lt uft j n chk tm nh aw lg]. cbn.
    destruct (item_truthy n) eqn:En; cbn; count_log;
      (split; [lia|]); (split; [discriminate|]); intros _;
      [reflexivity|exact En].
Qed.

(** X9.  [getCachedLoggedInState] never returns [null]: it returns what
    [connectState] holds afterwards.  A cache that is filled is returned
    as it is, without any effect and whatever its age; in particular, right
    after any [getUserStatus] it returns the same state again. *)
Theorem getCachedLoggedInState_never_null :
  forall (now : Z) (online : bool) (resp : Response) (st : State),
    (exists cs : LoggedInState,
       fst (getCachedLoggedInState now online resp st) = Some cs /\
       connectState (snd (getCachedLoggedInState now online resp st)) = Some cs) /\
    (connectState st <> None ->
     getCachedLoggedInState now online resp st = (connectState st, st)) /\
    (forall (now0 : Z) (online0 ignoreCache0 : bool) (resp0 : Response),
       let r := getUserStatus now0 online0 ignoreCache0 resp0 st in
       getCachedLoggedInState now online resp (snd r) = (Some (fst r), snd r)).
Proof.
  intros now online resp st.
  assert (Hfilled : forall s, connectState s <> None ->
            getCachedLoggedInState now online resp s = (connectState s, s)).
  { intros s Hs. unfold getCachedLoggedInState.
    destruct (connectState s); [reflexivity|congruence]. }
  split; [|split].
  - unfold getCachedLoggedInState. destruct (connectState st) as [cs|] eqn:Hc.
    + exists cs. cbn [fst snd]. auto.
    + cbn [fst snd].
      rewrite (getUserStatus_connectState now online true resp
                 (emit ServerIsAvailable st)).
      eexists. split; reflexivity.
  - apply Hfilled.
  - intros now0 online0 ignoreCache0 resp0. cbn zeta.
    pose proof (getUserStatus_connectState now0 online0 ignoreCache0 resp0 st) as H.
    rewrite Hfilled by (rewrite H; discriminate).
    rewrite H. reflexivity.
Qed.

(** X10.  A cache emptied by [clearCachedLoggedInState] makes
    [getCachedLoggedInState] probe the server and run a forced check: with
    the server online and a jwt stored, exactly one state request is sent
    and its result is what is returned and cached. *)
Theorem getCachedLoggedInState_after_clear :
  forall (now : Z) (resp : Response) (st : State),
    item_truthy (item_jwt st) = true ->
    let r := getCachedLoggedInState now true resp (clearCachedLoggedInState st) in
    state_requests (snd r) = state_requests st + 1 /\
    fst r = Some (mkLoggedInState (answer_is_ok resp)) /\
    connectState (snd r) = fst r.
Proof.
  intros now resp st Hj. cbn zeta.
  unfold getCachedLoggedInState. cbn [clearCachedLoggedInState set_connectState connectState].
  cbn [fst snd].
  rewrite DataControllerProps.getUserStatus_uncached by (left; reflexivity).
  set (st1 := emit ServerIsAvailable (clearCachedLoggedInState st)).
  destruct (DataControllerProps.checkLogin_spec true resp st1)
    as (H1 & _ & _ & H4 & _).
  pose proof (DataControllerProps.checkLogin_result true resp st1) as Hres.
  pose proof (isLoggedOn_loggedOn true resp st1) as Hlo.
  assert (Hj1 : item_jwt st1 = item_jwt st) by reflexivity.
  rewrite Hj1, Hj in H4, Hlo. cbn [andb] in H4, Hlo, Hres.
  rewrite Hlo in Hres.
  assert (Hreq1 : state_requests st1 = state_requests st).
  { unfold st1, state_requests, count. unfold_state.
    rewrite filter_app, length_app. cbn. lia. }
  split; [lia|].
  assert (Hfst : fst (checkLogin true resp st1) = mkLoggedInState (answer_is_ok resp)).
  { destruct (fst (checkLogin true resp st1)) as [b]. cbn in Hres. now subst b. }
  rewrite H1, Hfst. auto.
Qed.

Lemma getCachedLoggedInState_after_clear_witness :
  let st := loaded (Some "jwt") None false in
  let r := getCachedLoggedInState 1000 true logged_in_answer
             (clearCachedLoggedInState st) in
  state_requests (snd r) = state_requests st + 1 /\
  fst r = Some (mkLoggedInState (answer_is_ok logged_in_answer)) /\
  connectState (snd r) = fst r.
Proof.
  apply (getCachedLoggedInState_after_clear 1000 logged_in_answer
           (loaded (Some "jwt") None false)).
  reflexivity.
Defined.

(** [isLoggedOn] and the check only ever request, write items, log and
    start the heartbeat and the preferences: any other kind of effect is
    counted the same before and after. *)
Lemma isLoggedOn_count (p : Effect -> bool) (online : bool) (resp : Response) (st : State) :
  (forall a j, p (SoftwareGet a j) = false) ->
  (forall k v, p (SetItem k v) = false) ->
  count p (log (snd (isLoggedOn online resp st))) = count p (log st).
Proof.
  intros Hget Hset.
  destruct st as [cs lt uft j n chk tm nh aw lg].
  unfold isLoggedOn, count. cbn.
  destruct (online && item_truthy j); cbn; [|reflexivity].
  destruct (isResponseOk resp); cbn;
    [|unfold_state; cbn; rewrite filter_app, length_app; cbn; rewrite Hget; cbn; lia].
  destruct (data resp) as [d|]; cbn;
    [|unfold_state; cbn; rewrite filter_app, length_app; cbn; rewrite Hget; cbn; lia].
  match goal with |- context [String.eqb ?s "OK"] => destruct (String.eqb s "OK") end;
    [|unfold_state; cbn; rewrite filter_app, length_app; cbn; rewrite Hget; cbn; lia].
  destruct (option_string_eqb n (email d));
    destruct (item_truthy (pluginJwt d) && negb (option_string_eqb (pluginJwt d) j));
    destruct chk; cbn; unfold_state; cbn;
    rewrite ?filter_app, ?length_app; cbn; rewrite ?Hget, ?Hset; cbn; lia.
Qed.

Lemma checkLogin_count (p : Effect -> bool) (online : bool) (resp : Response) (st : State) :
  (forall a j, p (SoftwareGet a j) = false) ->
  (forall k v, p (SetItem k v) = false) ->
  (forall m, p (LogIt m) = false) ->
  (forall m, p (SendHeartbeat m) = false) ->
  p InitializePreferences = false ->
  count p (log (snd (checkLogin online resp st))) = count p (log st).
Proof.
  intros Hget Hset Hlog Hhb Hinit.
  pose proof (isLoggedOn_count p online resp st Hget Hset) as Hc.
  unfold checkLogin. destruct online.
  - destruct (isLoggedOn true resp st) as [[lo s'] st1]. cbn [snd] in Hc.
    rewrite <- Hc. destruct st1 as [cs lt uft j n chk tm nh aw lg].
    unfold count. destruct lo; cbn; [|destruct (item_truthy n); cbn];
      unfold_state; cbn; rewrite ?filter_app, ?length_app; cbn;
      rewrite ?Hlog, ?Hset, ?Hhb, ?Hinit; cbn; lia.
  - destruct st as [cs lt uft j n chk tm nh aw lg]. unfold count. cbn.
    destruct (item_truthy n); cbn; unfold_state; cbn;
      rewrite ?filter_app, ?length_app; cbn; rewrite ?Hlog, ?Hset; cbn; lia.
Qed.

(** The check keeps the stored jwt and [check_status] as [isLoggedOn] left
    them. *)
Lemma checkLogin_items (resp : Response) (st : State) :
  item_jwt (snd (checkLogin true resp st)) = item_jwt (snd (isLoggedOn true resp st)) /\
  item_check_status (snd (checkLogin true resp st)) =
    item_check_status (snd (isLoggedOn true resp st)).
Proof.
  unfold checkLogin.
  destruct (isLoggedOn true resp st) as [[lo s'] st1]. cbn [snd].
  destruct st1 as [cs lt uft j n chk tm nh aw lg].
  destruct lo; cbn; [|destruct (item_truthy n); cbn]; auto.
Qed.



(** X12.  After a click on the dashboard entry the web page is launched
    (last effect) whatever the login state; when the user is not logged in
    a status campaign is pending afterwards (armed by the click unless one
    was already pending), and when the user is logged in the timers are
    left alone. *)
Theorem click_arms_campaign_when_logged_out :
  forall (now : Z) (online : bool) (resp : Response) (st : State),
    timer_inv st ->
    let st' := handleKpmClickedEvent now online resp st in
    timer_inv st' /\
    (exists l, log st' = l ++ [LaunchWebUrl]) /\
    (connectState st' = Some (mkLoggedInState false) ->
     timers st' <> [] /\ (timers st <> [] -> timers st' = timers st)) /\
    (connectState st' = Some (mkLoggedInState true) -> timers st' = timers st).
Proof.
  intros now online resp st Hinv. cbn zeta.
  unfold handleKpmClickedEvent.
  pose proof (DataControllerProps.getUserStatus_same_control now online false resp
                (emit ServerIsAvailable st)) as Hsc.
  pose proof (getUserStatus_connectState now online false resp
                (emit ServerIsAvailable st)) as Hcache.
  destruct (getUserStatus now online false resp (emit ServerIsAvailable st))
    as [[b] st1]. cbn [fst snd] in Hsc, Hcache.
  destruct Hsc as (S1 & S2 & _ & _).
  change (userFetchTimeout st1 = userFetchTimeout st) in S1.
  change (timers st1 = timers st) in S2.
  assert (Hinv1 : timer_inv st1).
  { unfold timer_inv in *. rewrite S1, S2. exact Hinv. }
  destruct b; cbn [loggedIn negb].
  - split; [exact Hinv1|]. split; [eexists; reflexivity|].
    change (connectState (emit LaunchWebUrl st1)) with (connectState st1).
    change (timers (emit LaunchWebUrl st1)) with (timers st1).
    rewrite Hcache. split; [intros [=]|intros _; exact S2].
  - set (st2 := refetchUserStatusLazily 40 st1).
    assert (Hinv2 : timer_inv st2) by (apply DataControllerProps.refetch_inv, Hinv1).
    assert (Hcs2 : connectState st2 = Some (mkLoggedInState false)).
    { unfold st2, refetchUserStatusLazily.
      destruct (userFetchTimeout st1); [exact Hcache|exact Hcache]. }
    change (connectState (emit LaunchWebUrl st2)) with (connectState st2).
    change (timers (emit LaunchWebUrl st2)) with (timers st2).
    split; [exact Hinv2|]. split; [eexists; reflexivity|].
    rewrite Hcs2. split; [|intros [=]]. intros _.
    unfold st2, refetchUserStatusLazily. unfold timer_inv in Hinv1.
    destruct (userFetchTimeout st1) as [h|].
    + destruct Hinv1 as [m Hm]. split; [congruence|]. intros _. exact S2.
    + cbn [timers set_userFetchTimeout set_timers]. rewrite Hinv1.
      split; [discriminate|]. intros Hne. congruence.
Qed.

Lemma click_arms_campaign_when_logged_out_witness :
  let st := loaded (Some "jwt") None false in
  let st' := handleKpmClickedEvent 1000 false logged_in_answer st in
  timer_inv st' /\
  (exists l, log st' = l ++ [LaunchWebUrl]) /\
  (connectState st' = Some (mkLoggedInState false) ->
   timers st' <> [] /\ (timers st <> [] -> timers st' = timers st)) /\
  (connectState st' = Some (mkLoggedInState true) -> timers st' = timers st).
Proof.
  apply (click_arms_campaign_when_logged_out 1000 false logged_in_answer
           (loaded (Some "jwt") None false)).
  reflexivity.
Defined.

End DataControllerMore.

(* ------------------------------------------------------------------ *)
(** ** The user record and the preferences                              *)
(* ------------------------------------------------------------------ *)

Module PreferencesProps.
Import DataController DataControllerRest.

Ltac unfold_state :=
  unfold setItem_jwt, setItem_name, setItem_check_status, emit,
    set_connectState, set_lastLoggedInCheckTime, clearCachedLoggedInState in *;
  cbn [connectState lastLoggedInCheckTime userFetchTimeout item_jwt item_name
       item_check_status timers next_handle awaiting log] in *.

(** X13.  [getUser] asks the backend only with a jwt and the server online
    (otherwise it returns [null] and changes nothing).  A user it returns
    with [registered = 1] is recorded as logged in, under the e-mail of the
    record; any other user leaves the login state and the stored items as
    they were.  It never records anybody as logged out. *)
Theorem getUser_effects :
  forall (online : bool) (jwt : option string) (resp : UserResponse) (st : State),
    let r := getUser online jwt resp st in
    (item_truthy jwt && online = false -> r = (None, st)) /\
    (forall u, fst r = Some u -> registered u = 1%Z ->
       connectState (snd r) = Some (mkLoggedInState true) /\
       item_name (snd r) = user_email u) /\
    (forall u, fst r = Some u -> registered u <> 1%Z ->
       connectState (snd r) = connectState st /\ items (snd r) = items st) /\
    (connectState (snd r) = connectState st \/
     connectState (snd r) = Some (mkLoggedInState true)).
Proof.
  intros online jwt resp st. cbn zeta. unfold getUser.
  destruct (item_truthy jwt && online).
  - split; [discriminate|].
    destruct (if user_ok resp then user_data resp else None) as [user|].
    + destruct (registered user =? 1)%Z eqn:Er.
      * apply Z.eqb_eq in Er. cbn [fst snd]. unfold_state.
        split; [intros u [= <-] _; auto|].
        split; [intros u [= <-] Hn; contradiction|]. right. reflexivity.
      * apply Z.eqb_neq in Er. cbn [fst snd].
        split; [intros u [= <-] Hn; contradiction|].
        split; [intros u _ _; split; reflexivity|]. left. reflexivity.
    + cbn [fst snd]. split; [discriminate|]. split; [discriminate|].
      left. reflexivity.
  - cbn [fst snd]. split; [reflexivity|]. split; [discriminate|].
    split; [discriminate|]. left. reflexivity.
Qed.

(** X14.  [getUser] fills the login cache behind [getUserStatus]: after the
    cache was cleared, a registered user returned by [getUser] makes
    [getUserStatus] answer "logged in" from the cache, without a state
    request, as long as no stamp is recorded or the stamp is at most 300
    seconds old. *)
Theorem getUser_primes_the_cache :
  forall (jwt : option string) (resp : UserResponse) (st : State) (u : User)
         (now : Z) (online : bool) (r0 : Response),
    fst (getUser true jwt resp (clearCachedLoggedInState st)) = Some u ->
    registered u = 1%Z ->
    (stamp (lastLoggedInCheckTime st) = None \/
     exists t0, stamp (lastLoggedInCheckTime st) = Some t0 /\ (now - t0 <= 300)%Z) ->
    let st1 := snd (getUser true jwt resp (clearCachedLoggedInState st)) in
    fst (getUserStatus now online false r0 st1) = mkLoggedInState true /\
    state_requests (snd (getUserStatus now online false r0 st1)) = state_requests st1.
Proof.
  intros jwt resp st u now online r0 Hu Hreg Hstamp. cbn zeta.
  assert (Hcs : connectState (snd (getUser true jwt resp (clearCachedLoggedInState st)))
                = Some (mkLoggedInState true)).
  { revert Hu. unfold getUser. destruct (item_truthy jwt && true); [|discriminate].
    destruct (if user_ok resp then user_data resp else None) as [user|];
      [|discriminate].
    destruct (registered user =? 1)%Z eqn:Er; cbn [fst snd]; intros [= ->].
    - reflexivity.
    - apply Z.eqb_neq in Er. contradiction. }
  assert (Hlt : lastLoggedInCheckTime
                  (snd (getUser true jwt resp (clearCachedLoggedInState st))) =
                lastLoggedInCheckTime st).
  { unfold getUser. destruct (item_truthy jwt && true); [|reflexivity].
    destruct (if user_ok resp then user_data resp else None) as [user|];
      [|reflexivity].
    destruct (registered user =? 1)%Z; reflexivity. }
  destruct Hstamp as [Hs | (t0 & Hs & Ht)].
  - rewrite (DataControllerProps.getUserStatus_unstamped _ (mkLoggedInState true))
      by (assumption || (rewrite Hlt; assumption)).
    split; reflexivity.
  - rewrite (DataControllerProps.getUserStatus_fresh _ (mkLoggedInState true) t0)
      by (assumption || (rewrite Hlt; assumption)).
    split; reflexivity.
Qed.

Lemma getUser_primes_the_cache_witness :
  let resp := mkUserResponse true (Some (mkUser 1 (Some "dev@example.com") 7 None)) in
  let st1 := snd (getUser true (Some "jwt") resp
                    (clearCachedLoggedInState (loaded (Some "jwt") None false))) in
  fst (getUserStatus 1000 true false logged_in_answer st1) = mkLoggedInState true /\
  state_requests (snd (getUserStatus 1000 true false logged_in_answer st1)) =
    state_requests st1.
Proof.
  apply (getUser_primes_the_cache (Some "jwt")
           (mkUserResponse true (Some (mkUser 1 (Some "dev@example.com") 7 None)))
           (loaded (Some "jwt") None false)
           (mkUser 1 (Some "dev@example.com") 7 None) 1000 true logged_in_answer);
    [reflexivity|reflexivity|left; reflexivity].
Defined.

Lemma number_or_nonzero (a : option Z) (d : Z) :
  d <> 0%Z -> number_or a d <> 0%Z.
Proof.
  intros Hd. unfold number_or. destruct a as [z|]; [|exact Hd].
  destruct (z =? 0)%Z eqn:E; [exact Hd|]. apply Z.eqb_neq, E.
Qed.

Lemma puts_pemit (e : PrefEffect) (ps : PState) :
  puts (pemit e ps) = puts ps ++ (if is_put e then [e] else []).
Proof. unfold puts, pemit. cbn [plog]. rewrite filter_app. reflexivity. Qed.

(** X15.  [initializePreferences] always ends by storing a session
    threshold: the default when there is no jwt or the server is offline
    (and then it does nothing else), and never zero when the default is
    not zero, a threshold of zero in the user's preferences being replaced
    by the default. *)
Theorem initializePreferences_threshold :
  forall (D : Z) (online : bool) (resp : UserResponse) (putOk : bool) (ps : PState),
    let ps' := initializePreferences D online resp putOk ps in
    exists t : Z,
      item_sessionThresholdInSec ps' = Some t /\
      (exists l, plog ps' = l ++ [SetSessionThreshold t]) /\
      (D <> 0%Z -> t <> 0%Z) /\
      (item_truthy (item_jwt (base ps)) && online = false ->
       t = D /\ base ps' = base ps /\ showGitMetrics ps' = showGitMetrics ps /\
       plog ps' = plog ps ++ [SetSessionThreshold D]).
Proof.
  intros D online resp putOk ps. cbn zeta. unfold initializePreferences.
  destruct (item_truthy (item_jwt (base ps)) && online).
  - destruct (getUser online (item_jwt (base ps)) resp (base ps)) as [user b1].
    destruct user as [u|].
    + destruct (preferences u) as [prefs|].
      * destruct (showGit prefs) as [g|], (showRank prefs) as [k|];
          eexists; (split; [reflexivity|]); (split; [eexists; reflexivity|]);
          (split; [apply number_or_nonzero|discriminate]).
      * exists D. split; [reflexivity|]. split; [eexists; reflexivity|].
        split; [auto|discriminate].
    + exists D. split; [reflexivity|]. split; [eexists; reflexivity|].
      split; [auto|discriminate].
  - exists D. split; [reflexivity|]. split; [eexists; reflexivity|].
    split; [auto|]. intros _. auto.
Qed.

Ltac puts_simpl :=
  unfold puts, sendPreferencesUpdate, pemit, set_base;
  cbn [plog base showGitMetrics item_sessionThresholdInSec];
  rewrite ?filter_app; cbn [filter is_put]; rewrite ?app_nil_r, <- ?app_assoc;
  cbn [app].

(** X16.  [initializePreferences] synchronises the git setting in one
    direction only: either it puts the preferences to the server, carrying
    the local setting and leaving the local setting alone (when the server
    lacks [showGit] or [showRank]), or it puts nothing and the local setting
    is unchanged or overwritten by the server's [showGit]. *)
Theorem initializePreferences_sync :
  forall (D : Z) (online : bool) (resp : UserResponse) (putOk : bool) (ps : PState),
    let ps' := initializePreferences D online resp putOk ps in
    (exists (id : Z) (p : Prefs),
       puts ps' = puts ps ++ [PutPreferences id p] /\
       showGit p = showGitMetrics ps /\
       showGitMetrics ps' = showGitMetrics ps) \/
    (puts ps' = puts ps /\
     (showGitMetrics ps' = showGitMetrics ps \/
      exists (u : User) (prefs : Prefs) (g : bool),
        user_data resp = Some u /\ preferences u = Some prefs /\
        showGit prefs = Some g /\ showGitMetrics ps' = Some g)).
Proof.
  intros D online resp putOk ps. cbn zeta. unfold initializePreferences.
  destruct (item_truthy (item_jwt (base ps)) && online) eqn:Hgo;
    [|right; puts_simpl; auto].
  assert (Huser : forall u, fst (getUser online (item_jwt (base ps)) resp (base ps)) = Some u ->
                            user_data resp = Some u).
  { intros u. unfold getUser. rewrite Hgo.
    destruct (user_ok resp); cbn; [|discriminate].
    destruct (user_data resp) as [user|]; [|discriminate].
    destruct (registered user =? 1)%Z; cbn; intros [= <-]; reflexivity. }
  destruct (getUser online (item_jwt (base ps)) resp (base ps)) as [user b1].
  cbn [fst] in Huser.
  destruct user as [u|];
    [|right; puts_simpl; auto].
  destruct (preferences u) as [prefs|] eqn:Hp;
    [|right; puts_simpl; auto].
  destruct (showGit prefs) as [g|] eqn:Hg.
  - destruct (showRank prefs) as [k|].
    + right. puts_simpl.
      split; [reflexivity|]. right. exists u, prefs, g. auto.
    + left. destruct putOk; puts_simpl;
        do 2 eexists; (split; [reflexivity|]); split; reflexivity.
  - left. destruct putOk; puts_simpl;
      do 2 eexists; (split; [reflexivity|]); split; reflexivity.
Qed.

(** X17.  [updatePreferences] never changes the local git setting; it puts
    at most once, and what it puts carries the local setting; when the
    server's [showGit] already equals the local setting it puts nothing. *)
Theorem updatePreferences_local_wins :
  forall (online : bool) (resp byId : UserResponse) (putOk : bool) (ps : PState),
    let ps' := updatePreferences online resp byId putOk ps in
    showGitMetrics ps' = showGitMetrics ps /\
    (puts ps' = puts ps \/
     exists (id : Z) (p : Prefs),
       puts ps' = puts ps ++ [PutPreferences id p] /\
       showGit p = showGitMetrics ps) /\
    (forall (u' : User) (prefs : Prefs) (g : bool),
       user_data byId = Some u' -> preferences u' = Some prefs ->
       showGit prefs = Some g -> showGitMetrics ps = Some g ->
       puts ps' = puts ps).
Proof.
  intros online resp byId putOk ps. cbn zeta. unfold updatePreferences.
  destruct (item_truthy (item_jwt (base ps)) && online);
    [|cbn; auto].
  match goal with
  | |- context [getUser ?o ?j ?r ?b] => destruct (getUser o j r b) as [user b1]
  end.
  destruct user as [u|]; [|cbn; auto].
  destruct (user_ok byId); cbn [andb];
    [|puts_simpl; auto].
  destruct (user_data byId) as [u'|];
    [|puts_simpl; auto].
  destruct (preferences u') as [prefs|] eqn:Hp;
    [|puts_simpl; split; [reflexivity|];
      split; [auto|]; intros u0 p0 g0 [= <-] Hp0; rewrite Hp in Hp0; discriminate].
  destruct (showGit prefs) as [g|] eqn:Hg.
  - destruct (option_bool_eqb (Some g) (showGitMetrics ps)) eqn:Eq.
    + puts_simpl. auto.
    + destruct putOk; puts_simpl;
        (split; [reflexivity|]);
        (split; [right; do 2 eexists; split; reflexivity|]);
        intros u0 p0 g0 [= <-] Hp0 H3 H4; rewrite Hp in Hp0;
        injection Hp0 as <-; rewrite Hg in H3;
        injection H3 as <-; rewrite H4 in Eq; cbn in Eq;
        rewrite Bool.eqb_reflx in Eq; discriminate.
  - destruct putOk; puts_simpl;
      (split; [reflexivity|]);
      (split; [right; do 2 eexists; split; reflexivity|]);
      intros u0 p0 g0 [= <-] Hp0 H3; rewrite Hp in Hp0;
      injection Hp0 as <-; rewrite Hg in H3; discriminate.
Qed.

End PreferencesProps.

(* ------------------------------------------------------------------ *)
(** ** The commit summary file                                          *)
(* ------------------------------------------------------------------ *)

Module CommitSummaryProps.
Import CommitSummary.


End CommitSummaryProps.

(* ------------------------------------------------------------------ *)
(** ** The live share session                                           *)
(* ------------------------------------------------------------------ *)

Module LiveshareProps.
Import Liveshare.

Lemma option_string_eqb_refl (a : option string) :
  DataController.option_string_eqb a a = true.
Proof. destruct a as [s|]; [apply String.eqb_refl|reflexivity]. Qed.

Lemma alternates_snoc (l : list Ls) :
  forall (p : option Ls) (x : Ls),
    alternates p (l ++ [x]) =
      match alternates p l with
      | Some q => alternates q [x]
      | None => None
      end.
Proof.
  induction l as [|y l IH]; intros p x; [cbn [app alternates]|].
  - destruct p, (local_end x); reflexivity.
  - cbn [app alternates].
    destruct p as [o|], (local_end y) as [e|]; try reflexivity.
    + destruct (DataController.option_string_eqb (id o) (id y) && (start o =? start y)%Z
                && (local_start o =? local_start y)%Z); [apply IH|reflexivity].
    + apply IH.
Qed.

Lemma close_well_reported (n o : Z) (l : Ls) (st : State) :
  well_reported st -> _ls st = Some l -> well_reported (close n o l st).
Proof.
  unfold well_reported, close. intros H Hl. cbn [managed _ls].
  rewrite alternates_snoc, H, Hl. cbn.
  rewrite option_string_eqb_refl, !Z.eqb_refl. reflexivity.
Qed.

Lemma step_well_reported (c : Call) (st : State) :
  well_reported st -> well_reported (step c st).
Proof.
  intros H. destruct c as [n o e|n o]; cbn [step].
  - unfold onDidChangeSession. destruct (_ls st) as [l|] eqn:Hl.
    + destruct e as [e|]; [destruct (item_truthy (event_id e)); [exact H|]|];
        apply close_well_reported; assumption.
    + destruct e as [e|]; [|exact H].
      unfold well_reported in *. cbn [managed _ls].
      rewrite alternates_snoc, H, Hl. reflexivity.
  - unfold deactivate. destruct (_ls st) as [l|] eqn:Hl; [|exact H].
    destruct (item_truthy (id l)); [|exact H].
    apply close_well_reported; assumption.
Qed.

(** X19.  Whatever session changes and deactivation arrive, the sessions
    handed to [manageLiveshareSession] alternate: a session is reported
    open, then the same session (same id and start times) is reported
    closed, before another one is reported open; and the session last
    reported open and not yet closed is the one [_ls] holds. *)
Theorem liveshare_reports_alternate :
  forall cs : list Call,
    alternates None (managed (run cs loaded)) = Some (_ls (run cs loaded)).
Proof.
  intros cs. change (well_reported (run cs loaded)).
  assert (H : forall st, well_reported st -> well_reported (run cs st)).
  { induction cs as [|c cs IH]; intros st Hst; [exact Hst|].
    apply (IH (step c st)), step_well_reported, Hst. }
  apply H. reflexivity.
Qed.

(** X20.  [deactivate] closes the open session only when that session has
    an id: it then reports it with the current time as [end] and the time
    minus the offset as [local_end], and forgets it.  A session without id
    stays open.  In both cases a second [deactivate] does nothing. *)
Theorem deactivate_closes_once :
  forall (n o : Z) (st : State),
    (forall l, _ls st = Some l -> item_truthy (id l) = true ->
       deactivate n o st =
         mkState None
           (managed st ++ [mkLs (id l) (start l) (local_start l) n (Some (n - o)%Z)])) /\
    (forall l, _ls st = Some l -> item_truthy (id l) = false ->
       deactivate n o st = st) /\
    (forall n' o' : Z, deactivate n' o' (deactivate n o st) = deactivate n o st).
Proof.
  intros n o st. unfold deactivate, close.
  split; [|split].
  - intros l -> ->. reflexivity.
  - intros l -> ->. reflexivity.
  - intros n' o'. destruct (_ls st) as [l|] eqn:Hl; [|rewrite Hl; reflexivity].
    destruct (item_truthy (id l)) eqn:Hid; [reflexivity|].
    rewrite Hl, Hid. reflexivity.
Qed.

Lemma deactivate_closes_once_witness :
  let st := onDidChangeSession 100 10
              (Some (mkChangeEvent None (mkSession (Some "s1")))) loaded in
  deactivate 160 10 st =
    mkState None
      (managed st ++ [mkLs (Some "s1") 100 90 160 (Some 150%Z)]).
Proof.
  apply (proj1 (deactivate_closes_once 160 10
                  (onDidChangeSession 100 10
                     (Some (mkChangeEvent None (mkSession (Some "s1")))) loaded))
           (mkLs (Some "s1") 100 90 0 None)); reflexivity.
Defined.

End LiveshareProps.

(* ------------------------------------------------------------------ *)
(** ** Onboarding: the focused window and the offline prompt            *)
(* ------------------------------------------------------------------ *)

Module OnboardMore.
Import Onboard OnboardRest.

Ltac unfold_state :=
  unfold createAnonymousUser, emit, set_jwt, set_retry_counter, creates,
    callbacks, prompts, count in *;
  cbn [retry_counter jwt log fst snd] in *.

Ltac count_log :=
  unfold_state; rewrite ?filter_app, ?length_app; cbn; try lia.

(** One invocation shows the prompt only on the way that ends with the
    counting timer of the focused window, and only at counter 0; it never
    lowers the counter. *)
Lemma onboardInit_prompt (e : Env) (st : State) :
  prompts (snd (onboardInit e st)) =
    prompts st +
    match fst (onboardInit e st) with
    | Retry true => if retry_counter st =? 0 then 1 else 0
    | _ => 0
    end /\
  retry_counter st <= retry_counter (snd (onboardInit e st)).
Proof.
  destruct st as [c j l], e as [f o a].
  unfold onboardInit, primaryWindowOnboarding, secondaryWindowOnboarding.
  cbn [jwt focused serverIsOnline anonymousJwt].
  destruct j as [j|]; [destruct (decoded_id j >? 9999999999)%Z|];
    destruct f, o; try (destruct a as [a|]);
    destruct c as [|c]; cbn;
    repeat match goal with
           | |- context [?x <=? ?y] => destruct (x <=? y)
           end;
    cbn; rewrite ?filter_app, ?length_app; cbn; lia.
Qed.

(** X21.  Along any chain of [onboardInit] invocations, whatever the
    windows' focus, the backend's answers and the stored jwt, the offline
    prompt is shown at most once, and not at all when the chain starts
    with a counter above 0. *)
Theorem offline_prompt_at_most_once :
  forall (envs : list Env) (st : State),
    prompts (snd (chain envs st)) <=
      prompts st + (if retry_counter st =? 0 then 1 else 0).
Proof.
  induction envs as [|e envs IH]; intros st; [cbn; lia|].
  cbn [chain].
  destruct (onboardInit_prompt e st) as [Hp Hc].
  destruct (onboardInit e st) as [[anon|bump] st1]; cbn [fst snd] in *.
  - lia.
  - set (st2 := if bump then set_retry_counter (S (retry_counter st1)) st1 else st1).
    specialize (IH st2).
    assert (Hp2 : prompts st2 = prompts st1) by (unfold st2; destruct bump; reflexivity).
    assert (Hc2 : retry_counter st2 =
                  if bump then S (retry_counter st1) else retry_counter st1)
      by (unfold st2; destruct bump; reflexivity).
    destruct (chain envs st2) as [[ended k] st3]. cbn [fst snd] in *.
    rewrite Hp2 in IH.
    destruct bump.
    + rewrite Hc2 in IH. cbn [Nat.eqb] in IH. lia.
    + rewrite Hc2 in IH.
      destruct (retry_counter st =? 0) eqn:E0; [destruct (retry_counter st1 =? 0); lia|].
      apply Nat.eqb_neq in E0.
      replace (retry_counter st1 =? 0) with false in IH
        by (symmetry; apply Nat.eqb_neq; lia).
      lia.
Qed.

(** The two ways through [onboardInit] in a focused window without jwt. *)
Lemma primary_success (e : Env) (st : State) :
  jwt st = None -> focused e = true -> succeeds e = true ->
  exists st1,
    onboardInit e st = (Called true, st1) /\
    jwt st1 = anonymousJwt e /\ retry_counter st1 = retry_counter st /\
    callbacks st1 = callbacks st + 1 /\ creates st1 = creates st + 1.
Proof.
  destruct st as [c j l], e as [f o a]. unfold succeeds.
  cbn [jwt focused serverIsOnline anonymousJwt]. intros -> -> Hs.
  apply andb_prop in Hs as [-> Ha]. destruct a as [a|]; [|discriminate].
  unfold onboardInit, primaryWindowOnboarding.
  cbn. eexists; split; [reflexivity|]. unfold_state.
  rewrite ?filter_app, ?length_app; cbn; repeat split; lia.
Qed.

Lemma primary_failure (e : Env) (st : State) :
  jwt st = None -> focused e = true -> succeeds e = false ->
  exists st1,
    onboardInit e st = (Retry true, st1) /\
    jwt st1 = None /\ retry_counter st1 = retry_counter st /\
    callbacks st1 = callbacks st /\
    creates st1 = creates st + (if serverIsOnline e then 1 else 0).
Proof.
  destruct st as [c j l], e as [f o a]. unfold succeeds.
  cbn [jwt focused serverIsOnline anonymousJwt]. intros -> -> Hs.
  unfold onboardInit, primaryWindowOnboarding.
  cbn [jwt focused serverIsOnline anonymousJwt].
  destruct o; [destruct a as [a|]; [discriminate|]|]; destruct c as [|c]; cbn;
    (eexists; split; [reflexivity|]); unfold_state;
    rewrite ?filter_app, ?length_app; cbn; repeat split; lia.
Qed.



(** X23.  In a focused window without stored jwt the chain ends at the
    first invocation that reaches the backend and gets an anonymous token:
    the callback is called exactly once, with that token stored, and no
    later timer fires [onboardInit] again. *)
Theorem primary_window_ends_at_first_success :
  forall (pre : list Env) (e : Env) (post : list Env) (st : State),
    jwt st = None ->
    Forall (fun x => focused x = true) (pre ++ e :: post) ->
    forallb (fun x => negb (succeeds x)) pre = true ->
    succeeds e = true ->
    let r := chain (pre ++ e :: post) st in
    fst (fst r) = true /\
    snd (fst r) = S (List.length pre) /\
    callbacks (snd r) = callbacks st + 1 /\
    jwt (snd r) = anonymousJwt e /\
    retry_counter (snd r) = retry_counter st + List.length pre.
Proof.
  induction pre as [|x pre IH]; intros e post st Hj Hfoc Hall He; cbn zeta.
  - cbn [app] in *. inversion Hfoc as [|e' envs' Hf Hfoc']; subst.
    destruct (primary_success e st Hj Hf He) as (st1 & Hrun & Hj1 & Hc1 & Hcb1 & _).
    cbn [chain]. rewrite Hrun. cbn [fst snd List.length].
    repeat split; try assumption; lia.
  - cbn [app] in *. inversion Hfoc as [|e' envs' Hf Hfoc']; subst.
    cbn [forallb] in Hall. apply andb_prop in Hall as [Hx Hall].
    apply negb_true_iff in Hx.
    destruct (primary_failure x st Hj Hf Hx) as (st1 & Hrun & Hj1 & Hc1 & Hcb1 & _).
    cbn [chain]. rewrite Hrun.
    set (st2 := set_retry_counter (S (retry_counter st1)) st1).
    specialize (IH e post st2 Hj1 Hfoc' Hall He). cbn zeta in IH.
    destruct (chain (pre ++ e :: post) st2) as [[ended k] st3]. cbn [fst snd] in *.
    destruct IH as (I1 & I2 & I3 & I4 & I5).
    change (callbacks st2) with (callbacks st1) in I3.
    change (retry_counter st2) with (S (retry_counter st1)) in I5.
    cbn [List.length].
    repeat split; try assumption; lia.
Qed.

Lemma primary_window_ends_at_first_success_witness :
  let pre := [mkEnv true false None; mkEnv true true None] in
  let e := mkEnv true true (Some (mkJwt 7)) in
  let r := chain (pre ++ e :: [mkEnv true true None]) start in
  fst (fst r) = true /\
  snd (fst r) = S (List.length pre) /\
  callbacks (snd r) = callbacks start + 1 /\
  jwt (snd r) = anonymousJwt e /\
  retry_counter (snd r) = retry_counter start + List.length pre.
Proof.
  apply (primary_window_ends_at_first_success
           [mkEnv true false None; mkEnv true true None]
           (mkEnv true true (Some (mkJwt 7))) [mkEnv true true None] start).
  - reflexivity.
  - repeat constructor.
  - reflexivity.
  - reflexivity.
Defined.

End OnboardMore.

(* ------------------------------------------------------------------ *)
(** ** The menu tree                                                    *)
(* ------------------------------------------------------------------ *)

Module KpmTreeProps.
Import KpmTree.

Lemma own_view_run (l : string) (es : list ViewEvent) :
  l <> "__proto__" ->
  forall st : State,
    own l (codetimeCollapsedStateMap (view_run es st)) =
      last_event l es (own l (codetimeCollapsedStateMap st)).
Proof.
  intros Hl. induction es as [|e es IH]; intros st; [reflexivity|].
  cbn [view_run fold_left last_event]. fold (view_run es (view_step e st)).
  rewrite IH. destruct e as [i|i]; cbn [view_step];
    unfold onDidCollapseElement, onDidExpandElement, assign;
    cbn [codetimeCollapsedStateMap];
    (destruct (String.eqb (label i) "__proto__") eqn:Hp;
     [apply String.eqb_eq in Hp; rewrite Hp;
      replace (String.eqb l "__proto__") with false
        by (symmetry; apply String.eqb_neq; exact Hl);
      reflexivity
     |cbn [own]; reflexivity]).
Qed.

Lemma own_proto_view_run (es : list ViewEvent) :
  forall st : State,
    own "__proto__" (codetimeCollapsedStateMap st) = None ->
    own "__proto__" (codetimeCollapsedStateMap (view_run es st)) = None.
Proof.
  induction es as [|e es IH]; intros st H; [exact H|].
  cbn [view_run fold_left]. fold (view_run es (view_step e st)).
  apply IH. destruct e as [i|i]; cbn [view_step];
    unfold onDidCollapseElement, onDidExpandElement, assign;
    cbn [codetimeCollapsedStateMap];
    (destruct (String.eqb (label i) "__proto__") eqn:Hp; [exact H|];
     cbn [own]; rewrite String.eqb_sym, Hp; exact H).
Qed.

Lemma last_event_not_none (l : string) (es : list ViewEvent) :
  forall acc, acc <> Some State_None -> last_event l es acc <> Some State_None.
Proof.
  induction es as [|e es IH]; intros acc H; [exact H|].
  destruct e as [i|i]; cbn [last_event]; apply IH;
    destruct (String.eqb l (label i)); try exact H; discriminate.
Qed.

(** X24.  An item with children is rendered in the state of the last
    collapse or expand event on an item of the same label, whatever other
    events came in between, and collapsed when there was none; rendering
    leaves the provider unchanged.  Two kinds of label escape this: a label
    that names a property of [Object.prototype] and has had no event is
    rendered with that property as its state, and for the label
    [__proto__] the events are not remembered at all. *)
Theorem rendered_state_is_last_event :
  forall (es : list ViewEvent) (p : KpmItem),
    0 < children p ->
    let st := view_run es loaded in
    snd (getTreeItem p st) = st /\
    (label p <> "__proto__" ->
     fst (getTreeItem p st) =
       match last_event (label p) es None with
       | Some s => Enum s
       | None => if inherited (label p) then Foreign else Enum State_Collapsed
       end) /\
    (label p = "__proto__" -> fst (getTreeItem p st) = Foreign).
Proof.
  intros es p Hc st. unfold getTreeItem.
  destruct (children p) as [|n] eqn:Hn; [lia|].
  split; [|split].
  - destruct (own (label p) (codetimeCollapsedStateMap st)) as [[| |]|];
      try reflexivity.
    destruct (inherited (label p)); reflexivity.
  - intros Hl. unfold st. rewrite (own_view_run (label p) es Hl loaded).
    cbn [loaded codetimeCollapsedStateMap own].
    pose proof (last_event_not_none (label p) es None ltac:(discriminate)) as Hne.
    destruct (last_event (label p) es None) as [[| |]|]; try reflexivity.
    + contradiction Hne; reflexivity.
    + destruct (inherited (label p)); reflexivity.
  - intros Hl. rewrite Hl. unfold st.
    rewrite (own_proto_view_run es loaded eq_refl). reflexivity.
Qed.

Lemma rendered_state_is_last_event_witness :
  let p := mkKpmItem "Project" 2 in
  let es := [Expand p; Collapse (mkKpmItem "Files" 1); Collapse p; Expand p;
             Expand (mkKpmItem "Files" 3)] in
  fst (getTreeItem p (view_run es loaded)) = Enum State_Expanded.
Proof.
  apply (proj1 (proj2 (rendered_state_is_last_event
           [Expand (mkKpmItem "Project" 2); Collapse (mkKpmItem "Files" 1);
            Collapse (mkKpmItem "Project" 2); Expand (mkKpmItem "Project" 2);
            Expand (mkKpmItem "Files" 3)]
           (mkKpmItem "Project" 2) ltac:(cbn; lia)))).
  discriminate.
Defined.

Lemma refreshes_op_run (ops : list Op) :
  forall st : State,
    refreshes (op_run ops st) =
      refreshes st + (if initializedTree st then 0 else reveals_before_leaf ops).
Proof.
  induction ops as [|o ops IH]; intros st.
  - cbn. destruct (initializedTree st); lia.
  - cbn [op_run fold_left]. fold (op_run ops (op_step o st)). rewrite IH.
    destruct o as [e|p|]; cbn [op_step reveals_before_leaf].
    + destruct e; reflexivity.
    + unfold getTreeItem. destruct (children p) as [|n].
      * cbn. destruct (initializedTree st); lia.
      * destruct (own (label p) (codetimeCollapsedStateMap st)) as [[| |]|];
          try reflexivity.
        destruct (inherited (label p)); reflexivity.
    + unfold revealTree. destruct (initializedTree st) eqn:Hi.
      * rewrite Hi. reflexivity.
      * cbn [initializedTree refreshes]. lia.
Qed.

(** X25.  [revealTree] refreshes the whole tree on every call until an
    item without children has been rendered, and never after that: the
    number of refreshes is the number of [revealTree] calls made before the
    first such rendering.  Rendering items with children, and collapse or
    expand events, do not end the refreshing. *)
Theorem reveal_refreshes_until_a_leaf_is_rendered :
  forall ops : list Op,
    refreshes (op_run ops loaded) = reveals_before_leaf ops.
Proof.
  intros ops. rewrite refreshes_op_run. reflexivity.
Qed.

End KpmTreeProps.
